(** * BeepMyPhone project-structure generator: model and verification

    A shallow embedding of the scaffolding tools under [tools/]:
    - [tools/v2/helpers/file_parser.py]     module [FileParser];
    - [tools/v2/helpers/path_utils.py]      modules [PathUtils] and
      [PathNames];
    - [tools/v2/templates/base_templates.py] module [BaseTemplates];
    - [tools/v2/templates/*.py]             module [Templates];
    - [tools/v2/template_factory.py]        modules [TemplateKeys] and
      [TemplateFactory];
    - [tools/v2/generate_structure_v2.py]   module [GeneratorV2];
    - [tools/generate_structure.py]         modules [Legacy],
      [LegacyDriver] and [LegacyPaths].

    Python [str] values are modelled as [string]; the string methods the
    tools call are in module [PyStr] and agree with Python on ASCII text
    (the structure documents, the paths and the templates are ASCII).
    [pathlib.Path] is modelled by module [PathLib] with the semantics of
    a POSIX path; the file system the generator reads and writes is
    module [FS], without symbolic links, permissions or limits on the
    length of names; a path whose text holds the character 0 is refused
    by every operation with [ValueError], as the system calls of Python
    do.  Console output is not modelled.

    The definitions come first, the properties after them. *)

From stdpp Require Import gmap strings list.
From Stdlib Require Import Ascii.

Local Open Scope nat_scope.

(* ===================================================================== *)
(** * Python string methods                                               *)
(* ===================================================================== *)

Module PyStr.

(** One-character strings used where a literal cannot hold the
    character. *)
Definition chr (n : nat) : string := String (ascii_of_nat n) EmptyString.
Definition nl : string := chr 10.
Definition dq : string := chr 34.
Definition backslash : string := chr 92.

(** [str.isspace] on one ASCII character. *)
Definition is_space (c : ascii) : bool :=
  let n := nat_of_ascii c in
  ((9 <=? n) && (n <=? 13)) || ((28 <=? n) && (n <=? 32)).

Definition is_upper (c : ascii) : bool :=
  let n := nat_of_ascii c in (65 <=? n) && (n <=? 90).

Definition is_lower (c : ascii) : bool :=
  let n := nat_of_ascii c in (97 <=? n) && (n <=? 122).

Definition lower_char (c : ascii) : ascii :=
  if is_upper c then ascii_of_nat (nat_of_ascii c + 32) else c.

Definition upper_char (c : ascii) : ascii :=
  if is_lower c then ascii_of_nat (nat_of_ascii c - 32) else c.

(** [s.lower()] *)
Fixpoint lower (s : string) : string :=
  match s with
  | EmptyString => EmptyString
  | String c s' => String (lower_char c) (lower s')
  end.

(** [s.capitalize()]: first character upper-cased, the rest
    lower-cased. *)
Definition capitalize (s : string) : string :=
  match s with
  | EmptyString => EmptyString
  | String c s' => String (upper_char c) (lower s')
  end.

(** [s.title()]: a cased character is upper-cased when it follows an
    uncased one and lower-cased when it follows a cased one. *)
Fixpoint title_from (prev_cased : bool) (s : string) : string :=
  match s with
  | EmptyString => EmptyString
  | String c s' =>
      String (if prev_cased then lower_char c else upper_char c)
             (title_from (is_upper c || is_lower c) s')
  end.

Definition title (s : string) : string := title_from false s.

(** [s.startswith(p)] *)
Fixpoint startswith (p s : string) : bool :=
  match p with
  | EmptyString => true
  | String a p' =>
      match s with
      | EmptyString => false
      | String b s' => Ascii.eqb a b && startswith p' s'
      end
  end.

(** [sub in s] *)
Fixpoint contains (sub s : string) : bool :=
  startswith sub s ||
  match s with
  | EmptyString => false
  | String _ s' => contains sub s'
  end.

Fixpoint rev_onto (s acc : string) : string :=
  match s with
  | EmptyString => acc
  | String c s' => rev_onto s' (String c acc)
  end.

Definition rev (s : string) : string := rev_onto s EmptyString.

(** [s.endswith(p)] *)
Definition endswith (p s : string) : bool := startswith (rev p) (rev s).

(** [s.lstrip()], [s.rstrip()], [s.strip()] *)
Fixpoint lstrip (s : string) : string :=
  match s with
  | EmptyString => EmptyString
  | String c s' => if is_space c then lstrip s' else s
  end.

Fixpoint rstrip (s : string) : string :=
  match s with
  | EmptyString => EmptyString
  | String c s' =>
      match rstrip s' with
      | EmptyString => if is_space c then EmptyString else String c EmptyString
      | r => String c r
      end
  end.

Definition strip (s : string) : string := rstrip (lstrip s).

(** [s.split(sep)] for a non-empty separator: [skip] counts the
    characters of a matched separator still to be passed over, [cur]
    holds the current field reversed. *)
Fixpoint split_from (sep : string) (skip : nat) (cur : string) (s : string)
  : list string :=
  match s with
  | EmptyString => [rev cur]
  | String c s' =>
      match skip with
      | S k => split_from sep k cur s'
      | O =>
          if startswith sep s
          then rev cur :: split_from sep (String.length sep - 1) EmptyString s'
          else split_from sep 0 (String c cur) s'
      end
  end.

Definition split (sep s : string) : list string :=
  split_from sep 0 EmptyString s.

(** [sep.join(l)] *)
Fixpoint join (sep : string) (l : list string) : string :=
  match l with
  | [] => EmptyString
  | [x] => x
  | x :: rest => x +:+ sep +:+ join sep rest
  end.

(** [s.replace(old, new)] for a non-empty [old]. *)
Fixpoint replace_from (old new : string) (skip : nat) (s : string) : string :=
  match s with
  | EmptyString => EmptyString
  | String c s' =>
      match skip with
      | S k => replace_from old new k s'
      | O =>
          if startswith old s
          then new +:+ replace_from old new (String.length old - 1) s'
          else String c (replace_from old new 0 s')
      end
  end.

Definition replace (old new s : string) : string := replace_from old new 0 s.

(** [s * n] *)
Fixpoint repeat (s : string) (n : nat) : string :=
  match n with
  | O => EmptyString
  | S k => s +:+ repeat s k
  end.

(** [x in l] for a list of strings, [l.index(x)]. *)
Definition mem (x : string) (l : list string) : bool :=
  existsb (String.eqb x) l.

Fixpoint index (x : string) (l : list string) : option nat :=
  match l with
  | [] => None
  | y :: rest =>
      if String.eqb x y then Some 0
      else match index x rest with
           | Some i => Some (S i)
           | None => None
           end
  end.

(** [l[i:-1]] for [i <= len(l)]: from position [i] up to, not
    including, the last element. *)
Definition slice_to_last {A} (i : nat) (l : list A) : list A :=
  removelast (skipn i l).

End PyStr.

(* ===================================================================== *)
(** * pathlib: pure POSIX paths                                            *)
(* ===================================================================== *)

Module PathLib.
Import PyStr.

(** A parsed path: the anchor is [""], ["/"] or ["//"]; the names are
    the components after it, with empty and ["."] components
    dropped. *)
Record Path := mkPath { anchor : string; names : list string }.

Fixpoint leading_slashes (s : string) : nat :=
  match s with
  | String "/" s' => S (leading_slashes s')
  | _ => 0
  end.

Definition parse_anchor (s : string) : string :=
  match leading_slashes s with
  | 0 => ""
  | 2 => "//"
  | _ => "/"
  end.

Definition is_component (x : string) : bool :=
  negb (String.eqb x "") && negb (String.eqb x ".").

(** [Path(s)] *)
Definition of_string (s : string) : Path :=
  mkPath (parse_anchor s) (filter (fun x => is_component x = true) (split "/" s)).

(** [str(p)] *)
Definition to_string (p : Path) : string :=
  match anchor p, names p with
  | EmptyString, [] => "."
  | a, ns => a +:+ join "/" ns
  end.

(** [p.parts] *)
Definition parts (p : Path) : list string :=
  match anchor p with
  | EmptyString => names p
  | a => a :: names p
  end.

(** [p.name] *)
Definition name (p : Path) : string := List.last (names p) "".

(** Position of the last ['.'] of [s] ([s.rfind('.')]). *)
Fixpoint rfind_dot (s : string) : option nat :=
  match s with
  | EmptyString => None
  | String c s' =>
      match rfind_dot s' with
      | Some i => Some (S i)
      | None => if Ascii.eqb c "." then Some 0 else None
      end
  end.

(** The split point of [p.suffix] and [p.stem]: the last dot of the
    name when it is neither its first nor its last character. *)
Definition suffix_index (nm : string) : option nat :=
  match rfind_dot nm with
  | Some i => if (0 <? i) && (i <? String.length nm - 1) then Some i else None
  | None => None
  end.

(** [p.suffix] *)
Definition suffix (p : Path) : string :=
  match suffix_index (name p) with
  | Some i => String.substring i (String.length (name p) - i) (name p)
  | None => ""
  end.

(** [p.stem] *)
Definition stem (p : Path) : string :=
  match suffix_index (name p) with
  | Some i => String.substring 0 i (name p)
  | None => name p
  end.

(** [p.parent]: a path without names is its own parent. *)
Definition parent (p : Path) : Path :=
  mkPath (anchor p) (removelast (names p)).

(** [p / q]: an anchored right operand replaces the left one. *)
Definition joinpath (p q : Path) : Path :=
  match anchor q with
  | EmptyString => mkPath (anchor p) (names p ++ names q)
  | _ => q
  end.

(** [p / s] with a string on the right. *)
Definition join_str (p : Path) (s : string) : Path := joinpath p (of_string s).

End PathLib.

(* ===================================================================== *)
(** * tools/v2/helpers/file_parser.py                                      *)
(* ===================================================================== *)

Module FileParser.
Import PyStr PathLib.

(** [StructureParser._determine_file_type] *)
Definition _determine_file_type (file_path : string) : string :=
  let path_lower := lower file_path in
  let filename := lower (name (of_string file_path)) in
  if String.eqb filename "package.json" then "package"
  else if String.eqb filename "tsconfig.json" then "tsconfig"
  else if String.eqb filename "tsconfig.node.json" then "tsconfig_node"
  else if String.eqb filename "vite.config.ts" then "vite_config"
  else if String.eqb filename "jest.config.js" then "jest_config"
  else if String.eqb filename "tailwind.config.js" then "tailwind_config"
  else if contains "/tests/" path_lower || contains ".test." filename
          || contains ".spec." filename then "test"
  else if contains "/components/" path_lower && endswith ".tsx" filename
    then "component"
  else if contains "/services/" path_lower then
    if contains "baseservice" filename then "base_service" else "service"
  else if contains "/hooks/" path_lower then "hook"
  else if contains "/pages/" path_lower then "page"
  else if contains "/controllers/" path_lower then
    if contains "basecontroller" filename then "base_controller" else "controller"
  else if contains "/models/" path_lower then
    if contains "basemodel" filename then "base_model" else "model"
  else if contains "/repositories/" path_lower then
    if contains "baserepository" filename then "base_repository" else "repository"
  else if contains "/middleware/" path_lower then "middleware"
  else if contains "/routes/" path_lower then "route"
  else if contains ".sql" filename then "migration"
  else "generic".

(** The separator [parse_structure_file] hands to [split]: the source
    literal is a backslash followed by the letter n. *)
Definition line_separator : string := backslash +:+ "n".

(** One iteration of the loop of [parse_structure_file]: [files] is the
    list built so far, the result is the list after the iteration. *)
Definition parse_line (files : list (string * string)) (line : string)
  : list (string * string) :=
  let line := strip line in
  if String.eqb line "" || startswith "#" line
     || startswith "This document" line then files
  else if startswith "###" line || startswith "##" line then files
  else if negb (contains "/" line) && negb (contains "." line) then files
  else
    let file_path := strip line in
    if endswith "/" file_path then files
    else files ++ [(file_path, _determine_file_type file_path)].

Definition parse_lines (lines : list string) : list (string * string) :=
  fold_left parse_line lines [].

(** [parse_structure_file] from the point where the content of the
    document has been read. *)
Definition parse_content (content : string) : list (string * string) :=
  parse_lines (split line_separator (strip content)).

End FileParser.

(* ===================================================================== *)
(** * tools/v2/helpers/path_utils.py                                       *)
(* ===================================================================== *)

Module PathUtils.
Import PyStr PathLib.

(** [get_project_type] *)
Definition get_project_type (file_path : Path) : string :=
  let path_str := lower (to_string file_path) in
  if contains "/frontend/" path_str then "frontend"
  else if contains "/backend/" path_str then "backend"
  else if contains "/electron/" path_str then "electron"
  else "unknown".

End PathUtils.

(* ===================================================================== *)
(** * tools/generate_structure.py (the first generator)                    *)
(* ===================================================================== *)

Module Legacy.
Import PyStr PathLib.

(** [ProjectStructureGenerator._determine_file_type] *)
Definition _determine_file_type (filename : string) : string :=
  let ext := lower (suffix (of_string filename)) in
  let name := lower (stem (of_string filename)) in
  if String.eqb filename "package.json" then "package"
  else if String.eqb filename "tsconfig.json" then "tsconfig"
  else if String.eqb filename "tsconfig.node.json" then "tsconfig_node"
  else if String.eqb filename "vite.config.ts" then "vite_config"
  else if String.eqb filename "jest.config.js" then "jest_config"
  else if contains ".test." filename || contains ".spec." filename then "test"
  else if endswith "controller" name then "controller"
  else if endswith "service" name then "service"
  else if endswith "repository" name then "repository"
  else if endswith "model" name then "model"
  else if endswith "component" name || String.eqb ext ".tsx" then "component"
  else if endswith "hook" name || startswith "use" name then "hook"
  else if contains "middleware" name then "middleware"
  else if contains "route" name then "route"
  else if String.eqb ext ".sql" then "migration"
  else "generic".

(** The block-list of [_parse_simple_format]. *)
Definition skip_items : list string :=
  ["README.md"; "package-lock.json"; ".env"; ".env.example";
   ".gitignore"; ".eslintrc.js"; ".prettierrc"].

(** [s[n:]] *)
Fixpoint drop (n : nat) (s : string) : string :=
  match n, s with
  | S k, String _ s' => drop k s'
  | _, _ => s
  end.

(** State of the loop of [_parse_simple_format]. *)
Record parse_state := mkParseState {
  in_file_list : bool;
  files : list (string * string)
}.

(** One iteration of the loop of [_parse_simple_format]. *)
Definition parse_line (st : parse_state) (line : string) : parse_state :=
  let line := strip line in
  if contains "## FILE_LIST" line then mkParseState true (files st)
  else if negb (in_file_list st) || String.eqb line "" then st
  else if startswith "#" line then st
  else
    let line :=
      if startswith "- " line || startswith "* " line
      then strip (drop 2 line) else line in
    let line :=
      if contains "#" line then strip (hd "" (split "#" line)) else line in
    if negb (contains "/" line) && negb (contains "." line) then st
    else
      let filename := List.last (split "/" line) "" in
      if mem filename skip_items then st
      else if contains "." filename && negb (startswith "." filename)
      then mkParseState (in_file_list st)
             (files st ++ [(line, _determine_file_type filename)])
      else st.

(** [_parse_simple_format] *)
Definition _parse_simple_format (content : string) : list (string * string) :=
  files (fold_left parse_line (split nl content) (mkParseState false [])).

(** [_calculate_test_import_path] *)
Definition _calculate_test_import_path (test_file_path : Path)
    (component_name : string) : string :=
  let path_parts := parts test_file_path in
  match index "tests" path_parts with
  | Some tests_index =>
      let after_tests := slice_to_last (tests_index + 1) path_parts in
      let after_tests :=
        match after_tests with
        | first :: rest => if String.eqb first "unit" then rest else after_tests
        | [] => after_tests
        end in
      match after_tests with
      | _ :: _ =>
          let dots := repeat "../" (length path_parts - tests_index - 1) in
          dots +:+ join "/" after_tests +:+ "/" +:+ component_name
      | [] => "./" +:+ component_name
      end
  | None => "./" +:+ component_name
  end.

End Legacy.

(* ===================================================================== *)
(** * tools/v2/templates/base_templates.py                                 *)
(* ===================================================================== *)

Module BaseTemplates.
Import PyStr PathLib.

(** [BaseTemplate.get_class_name_from_filename] *)
Definition get_class_name_from_filename (filename : string) : string :=
  let clean_name := replace ".spec" "" (replace ".test" "" filename) in
  join "" (map capitalize (split "_" clean_name)).

(** [TestTemplate.calculate_component_import] *)
Definition calculate_component_import (test_path : Path)
    (component_name : string) : string :=
  let test_parts := parts test_path in
  match index "tests" test_parts with
  | Some tests_index =>
      let relative_parts := slice_to_last (tests_index + 1) test_parts in
      let dots := repeat "../" (length relative_parts + 1) in
      dots +:+ join "/" relative_parts +:+ "/" +:+ component_name
  | None => "./" +:+ component_name
  end.

End BaseTemplates.

(* ===================================================================== *)
(** * tools/v2/template_factory.py: template selection                     *)
(* ===================================================================== *)

Module TemplateKeys.
Import PyStr PathLib.

(** [TemplateFactory._resolve_template_key] *)
Definition _resolve_template_key (file_path : Path) (file_type : string)
    (project_type : string) : string :=
  let filename := lower (name file_path) in
  if contains "baseservice" filename then
    if String.eqb project_type "frontend" then "frontend_base_service"
    else "backend_base_service"
  else if contains "basecontroller" filename then "base_controller"
  else if String.eqb file_type "package" then "package_json"
  else if String.eqb file_type "tsconfig" then "tsconfig"
  else if String.eqb file_type "tsconfig_node" then "tsconfig_node"
  else if String.eqb file_type "service" then
    if String.eqb project_type "frontend" then "frontend_service"
    else "backend_service"
  else if String.eqb file_type "test" then
    if contains "integration" filename then "integration_test"
    else if contains "e2e" filename then "e2e_test"
    else if contains "performance" filename || contains "load" filename
      then "performance_test"
    else if String.eqb project_type "frontend" then "react_test"
    else "backend_test"
  else if String.eqb file_type "component" then "react_component"
  else if String.eqb file_type "hook" then "react_hook"
  else if String.eqb file_type "controller" then "controller"
  else if String.eqb file_type "model" then "model"
  else if String.eqb file_type "repository" then "repository"
  else if String.eqb file_type "middleware" then "middleware"
  else if String.eqb file_type "route" then "route"
  else if String.eqb file_type "generic" then
    if String.eqb filename "index" then "index"
    else if contains "types" filename || endswith "types" filename then "types"
    else if contains "constants" filename || contains "config" filename
      then "constants"
    else if contains "utils" filename || contains "helpers" filename
      then "utility"
    else "generic"
  else "generic".

(** The key [TemplateFactory.get_template] looks up for a file. *)
Definition template_key (file_path : Path) (file_type : string) : string :=
  _resolve_template_key file_path file_type
    (PathUtils.get_project_type file_path).

End TemplateKeys.

(* ===================================================================== *)
(** * The file system                                                     *)
(* ===================================================================== *)

Module FS.
Import PathLib.

(** What a path can name: a regular file with its content, or a
    directory. *)
Inductive node := File (content : string) | Dir.

(** The exceptions of the model: the four [OSError] subclasses the
    operations below can raise, and [ValueError], which is not an
    [OSError]. *)
Inductive exn :=
| FileNotFoundError
| NotADirectoryError
| FileExistsError
| IsADirectoryError
| ValueError.

Inductive result (A : Type) := Ok (a : A) | Err (e : exn).
Arguments Ok {A} a.
Arguments Err {A} e.

(** What the run depends on besides the store: the working directory
    of the process, and the [st_size] the platform reports for a
    directory. *)
Record platform := mkPlatform { cwd : list string; dir_size : nat }.

(** The store maps the absolute, [..]-free location of every file and
    directory to its node; the root directory [[]] always exists. *)
Definition node_at (s : gmap (list string) node) (loc : list string)
  : option node :=
  match loc with
  | [] => Some Dir
  | _ => s !! loc
  end.

(** One component of a path walk. *)
Definition step (cur : list string) (c : string) : list string :=
  if String.eqb c ".." then removelast cur else cur ++ [c].

(** Path resolution: every component is looked up in a directory that
    must exist; the location reached at the end is not examined. *)
Fixpoint walk (s : gmap (list string) node) (cur : list string)
    (ns : list string) : result (list string) :=
  match ns with
  | [] => Ok cur
  | c :: rest =>
      match node_at s cur with
      | Some Dir => walk s (step cur c) rest
      | Some (File _) => Err NotADirectoryError
      | None => Err FileNotFoundError
      end
  end.

Definition start (pf : platform) (p : Path) : list string :=
  match anchor p with
  | EmptyString => cwd pf
  | _ => []
  end.

(** The character 0 occurs in the string. *)
Fixpoint has_null (x : string) : bool :=
  match x with
  | EmptyString => false
  | String c x' => Ascii.eqb c zero || has_null x'
  end.

(** The text of the path holds the character 0: every system call
    refuses such a path with [ValueError] (embedded null byte) before
    it looks at the file system. *)
Definition embedded_null (p : Path) : bool :=
  existsb has_null (anchor p :: names p).

Definition resolve (pf : platform) (s : gmap (list string) node) (p : Path)
  : result (list string) :=
  if embedded_null p then Err ValueError
  else walk s (start pf p) (names p).

(** [os.stat(p)]; [resolve] refuses a path that holds the character 0
    with [ValueError]. *)
Definition stat (pf : platform) (s : gmap (list string) node) (p : Path)
  : result node :=
  match resolve pf s p with
  | Ok loc =>
      match node_at s loc with
      | Some n => Ok n
      | None => Err FileNotFoundError
      end
  | Err e => Err e
  end.

(** [p.exists()]: [False] for every error of [os.stat], [ValueError]
    included. *)
Definition path_exists (pf : platform) (s : gmap (list string) node)
    (p : Path) : bool :=
  match stat pf s p with Ok _ => true | Err _ => false end.

(** [p.is_dir()] *)
Definition is_dir (pf : platform) (s : gmap (list string) node) (p : Path)
  : bool :=
  match stat pf s p with Ok Dir => true | _ => false end.

Definition node_size (pf : platform) (n : node) : nat :=
  match n with
  | File content => String.length content
  | Dir => dir_size pf
  end.

(** [p.stat().st_size], called on paths that exist. *)
Definition st_size (pf : platform) (s : gmap (list string) node) (p : Path)
  : nat :=
  match stat pf s p with Ok n => node_size pf n | Err _ => 0 end.

(** [os.mkdir(p)]: [ValueError] for a path that holds the character 0
    (from [resolve]), the [OSError] of a path that does not resolve,
    [FileExistsError] when something is there. *)
Definition os_mkdir (pf : platform) (s : gmap (list string) node) (p : Path)
  : result (gmap (list string) node) :=
  match resolve pf s p with
  | Ok loc =>
      match node_at s loc with
      | Some _ => Err FileExistsError
      | None => Ok (<[loc := Dir]> s)
      end
  | Err e => Err e
  end.

(** [p.mkdir(parents=False, exist_ok=True)]: [FileNotFoundError] is
    raised again, another [OSError] is dropped when the path is a
    directory, and [ValueError] is not caught. *)
Definition mkdir_exist_ok (pf : platform) (s : gmap (list string) node)
    (p : Path) : result (gmap (list string) node) :=
  match os_mkdir pf s p with
  | Ok s' => Ok s'
  | Err FileNotFoundError => Err FileNotFoundError
  | Err ValueError => Err ValueError
  | Err e => if is_dir pf s p then Ok s else Err e
  end.

(** A store-changing operation either completes or raises; in both
    cases it leaves a store behind. *)
Inductive outcome := Done (s : gmap (list string) node)
                   | Failed (e : exn) (s : gmap (list string) node).

(** [p.mkdir(parents=True, exist_ok=True)], by recursion on the names
    of [p] from the last one. *)
Fixpoint mkdir_parents_rev (pf : platform) (s : gmap (list string) node)
    (a : string) (rnames : list string) : outcome :=
  let p := mkPath a (rev rnames) in
  match os_mkdir pf s p with
  | Ok s' => Done s'
  | Err FileNotFoundError =>
      match rnames with
      | [] => Failed FileNotFoundError s
      | _ :: rparent =>
          match mkdir_parents_rev pf s a rparent with
          | Done s1 =>
              match mkdir_exist_ok pf s1 p with
              | Ok s2 => Done s2
              | Err e => Failed e s1
              end
          | Failed e s1 => Failed e s1
          end
      end
  | Err ValueError => Failed ValueError s
  | Err e => if is_dir pf s p then Done s else Failed e s
  end.

Definition mkdir_parents (pf : platform) (s : gmap (list string) node)
    (p : Path) : outcome :=
  mkdir_parents_rev pf s (anchor p) (rev (names p)).

(** [open(p, 'w')] followed by [write(content)]: [ValueError] for a path
    that holds the character 0 (from [resolve]), the [OSError] of a
    path that does not resolve, [IsADirectoryError] on a directory. *)
Definition write_text (pf : platform) (s : gmap (list string) node)
    (p : Path) (content : string) : result (gmap (list string) node) :=
  match resolve pf s p with
  | Ok loc =>
      match node_at s loc with
      | Some Dir => Err IsADirectoryError
      | _ => Ok (<[loc := File content]> s)
      end
  | Err e => Err e
  end.

(** [open(p, 'r')] followed by [read()] *)
Definition read_text (pf : platform) (s : gmap (list string) node)
    (p : Path) : result string :=
  match stat pf s p with
  | Ok (File content) => Ok content
  | Ok Dir => Err IsADirectoryError
  | Err e => Err e
  end.

End FS.

(* ===================================================================== *)
(** * tools/v2/templates: the content generators                           *)
(* ===================================================================== *)

Module Templates.
Import PyStr PathLib BaseTemplates.

(** A template body, line by line: the lines are joined with newline
    characters. *)
Definition text (lines : list string) : string := join nl lines.

(** A double-quoted word of a template body. *)
Definition q (s : string) : string := dq +:+ s +:+ dq.

(** ** templates/backend_templates.py *)

(** [ControllerTemplate.generate] *)
Definition ControllerTemplate (file_path : Path) : string :=
  let controller_name := get_class_name_from_filename (stem file_path) in
  text [
    "import { Request, Response } from 'express'";
    "import { BaseController } from './base/BaseController'";
    "";
    "export class " +:+ controller_name +:+ " extends BaseController {";
    "  // TODO: Implement " +:+ controller_name +:+ " methods";
    "  ";
    "  async index(req: Request, res: Response) {";
    "    try {";
    "      // TODO: Implement index method";
    "      this.sendResponse(res, { message: '" +:+ controller_name +:+ " index' })";
    "    } catch (error) {";
    "      this.sendError(res, `Error in " +:+ controller_name +:+ ": ${error}`)";
    "    }";
    "  }";
    "  ";
    "  async show(req: Request, res: Response) {";
    "    try {";
    "      const id = req.params.id";
    "      // TODO: Implement show method";
    "      this.sendResponse(res, { message: `" +:+ controller_name +:+ " show: ${id}` })";
    "    } catch (error) {";
    "      this.sendError(res, `Error in " +:+ controller_name +:+ ": ${error}`)";
    "    }";
    "  }";
    "  ";
    "  async create(req: Request, res: Response) {";
    "    try {";
    "      const data = req.body";
    "      // TODO: Implement create method";
    "      this.sendResponse(res, { message: '" +:+ controller_name +:+ " created', data }, 201)";
    "    } catch (error) {";
    "      this.sendError(res, `Error in " +:+ controller_name +:+ ": ${error}`)";
    "    }";
    "  }";
    "  ";
    "  async update(req: Request, res: Response) {";
    "    try {";
    "      const id = req.params.id";
    "      const data = req.body";
    "      // TODO: Implement update method";
    "      this.sendResponse(res, { message: `" +:+ controller_name +:+ " updated: ${id}`, data })";
    "    } catch (error) {";
    "      this.sendError(res, `Error in " +:+ controller_name +:+ ": ${error}`)";
    "    }";
    "  }";
    "  ";
    "  async delete(req: Request, res: Response) {";
    "    try {";
    "      const id = req.params.id";
    "      // TODO: Implement delete method";
    "      this.sendResponse(res, { message: `" +:+ controller_name +:+ " deleted: ${id}` })";
    "    } catch (error) {";
    "      this.sendError(res, `Error in " +:+ controller_name +:+ ": ${error}`)";
    "    }";
    "  }";
    "}";
    ""
  ].

(** [BaseControllerTemplate.generate] *)
Definition BaseControllerTemplate (file_path : Path) : string :=
  text [
    "import { Request, Response } from 'express'";
    "";
    "export abstract class BaseController {";
    "  // TODO: Implement base controller methods";
    "  ";
    "  protected sendResponse(res: Response, data: any, statusCode: number = 200) {";
    "    res.status(statusCode).json(data)";
    "  }";
    "  ";
    "  protected sendError(res: Response, message: string, statusCode: number = 500) {";
    "    res.status(statusCode).json({ error: message })";
    "  }";
    "  ";
    "  protected validateRequired(data: any, fields: string[]): boolean {";
    "    for (const field of fields) {";
    "      if (!data[field]) {";
    "        return false";
    "      }";
    "    }";
    "    return true";
    "  }";
    "  ";
    "  protected sanitizeInput(data: any): any {";
    "    // TODO: Implement input sanitization";
    "    return data";
    "  }";
    "}";
    ""
  ].

(** [BackendServiceTemplate.generate] *)
Definition BackendServiceTemplate (file_path : Path) : string :=
  let service_name := get_class_name_from_filename (stem file_path) in
  text [
    "import { BaseService } from './base/BaseService'";
    "";
    "export class " +:+ service_name +:+ " extends BaseService {";
    "  // TODO: Implement " +:+ service_name +:+ " methods";
    "  ";
    "  async process(data: any): Promise<any> {";
    "    try {";
    "      if (!this.validateInput(data)) {";
    "        throw new Error('Invalid input data')";
    "      }";
    "      ";
    "      // TODO: Implement service logic";
    "      return { success: true, data }";
    "    } catch (error) {";
    "      this.handleError(error)";
    "    }";
    "  }";
    "  ";
    "  async findById(id: string): Promise<any> {";
    "    try {";
    "      // TODO: Implement find by ID logic";
    "      return { id, found: true }";
    "    } catch (error) {";
    "      this.handleError(error)";
    "    }";
    "  }";
    "  ";
    "  async create(data: any): Promise<any> {";
    "    try {";
    "      if (!this.validateInput(data)) {";
    "        throw new Error('Invalid input data')";
    "      }";
    "      ";
    "      // TODO: Implement create logic";
    "      return { created: true, data }";
    "    } catch (error) {";
    "      this.handleError(error)";
    "    }";
    "  }";
    "  ";
    "  async update(id: string, data: any): Promise<any> {";
    "    try {";
    "      if (!this.validateInput(data)) {";
    "        throw new Error('Invalid input data')";
    "      }";
    "      ";
    "      // TODO: Implement update logic";
    "      return { updated: true, id, data }";
    "    } catch (error) {";
    "      this.handleError(error)";
    "    }";
    "  }";
    "  ";
    "  async delete(id: string): Promise<any> {";
    "    try {";
    "      // TODO: Implement delete logic";
    "      return { deleted: true, id }";
    "    } catch (error) {";
    "      this.handleError(error)";
    "    }";
    "  }";
    "}";
    "";
    "export default new " +:+ service_name +:+ "()";
    ""
  ].

(** [BackendBaseServiceTemplate.generate] *)
Definition BackendBaseServiceTemplate (file_path : Path) : string :=
  text [
    "export abstract class BaseService {";
    "  // TODO: Implement base service methods";
    "  ";
    "  protected validateInput(input: any): boolean {";
    "    return input !== null && input !== undefined";
    "  }";
    "  ";
    "  protected handleError(error: any): never {";
    "    console.error('Service error:', error)";
    "    throw new Error(`Service error: ${error}`)";
    "  }";
    "  ";
    "  protected async executeWithTransaction<T>(operation: () => Promise<T>): Promise<T> {";
    "    // TODO: Implement database transaction wrapper";
    "    try {";
    "      return await operation()";
    "    } catch (error) {";
    "      this.handleError(error)";
    "    }";
    "  }";
    "  ";
    "  protected sanitizeData(data: any): any {";
    "    // TODO: Implement data sanitization";
    "    return data";
    "  }";
    "  ";
    "  protected validateSchema(data: any, schema: any): boolean {";
    "    // TODO: Implement schema validation";
    "    return true";
    "  }";
    "}";
    ""
  ].

(** [ModelTemplate.generate] *)
Definition ModelTemplate (file_path : Path) : string :=
  let model_name := get_class_name_from_filename (stem file_path) in
  text [
    "import { BaseModel } from './BaseModel'";
    "";
    "export interface I" +:+ model_name +:+ " {";
    "  id?: string";
    "  createdAt?: Date";
    "  updatedAt?: Date";
    "  // TODO: Add " +:+ model_name +:+ " properties";
    "}";
    "";
    "export class " +:+ model_name +:+ " extends BaseModel implements I" +:+ model_name +:+ " {";
    "  public id?: string";
    "  public createdAt?: Date";
    "  public updatedAt?: Date";
    "  ";
    "  // TODO: Add " +:+ model_name +:+ " properties";
    "  ";
    "  constructor(data?: Partial<I" +:+ model_name +:+ ">) {";
    "    super()";
    "    if (data) {";
    "      Object.assign(this, data)";
    "    }";
    "  }";
    "  ";
    "  // TODO: Add " +:+ model_name +:+ " methods";
    "  ";
    "  validate(): boolean {";
    "    // TODO: Implement validation logic";
    "    return true";
    "  }";
    "  ";
    "  toJSON(): I" +:+ model_name +:+ " {";
    "    return {";
    "      id: this.id,";
    "      createdAt: this.createdAt,";
    "      updatedAt: this.updatedAt,";
    "      // TODO: Add other properties";
    "    }";
    "  }";
    "}";
    ""
  ].

(** [RepositoryTemplate.generate] *)
Definition RepositoryTemplate (file_path : Path) : string :=
  let repo_name := get_class_name_from_filename (stem file_path) in
  let model_name := replace "Repository" "" repo_name in
  text [
    "import { BaseRepository } from './base/BaseRepository'";
    "import { " +:+ model_name +:+ ", I" +:+ model_name +:+ " } from '../models/" +:+ model_name +:+ "'";
    "";
    "export class " +:+ repo_name +:+ " extends BaseRepository<" +:+ model_name +:+ "> {";
    "  ";
    "  async findById(id: string): Promise<" +:+ model_name +:+ " | null> {";
    "    try {";
    "      // TODO: Implement database query";
    "      const data = await this.executeQuery('SELECT * FROM " +:+ lower model_name +:+ "s WHERE id = ?', [id])";
    "      return data ? new " +:+ model_name +:+ "(data) : null";
    "    } catch (error) {";
    "      this.handleError(error)";
    "    }";
    "  }";
    "  ";
    "  async findAll(): Promise<" +:+ model_name +:+ "[]> {";
    "    try {";
    "      // TODO: Implement database query";
    "      const results = await this.executeQuery('SELECT * FROM " +:+ lower model_name +:+ "s')";
    "      return results.map((data: any) => new " +:+ model_name +:+ "(data))";
    "    } catch (error) {";
    "      this.handleError(error)";
    "    }";
    "  }";
    "  ";
    "  async create(data: I" +:+ model_name +:+ "): Promise<" +:+ model_name +:+ "> {";
    "    try {";
    "      // TODO: Implement database insert";
    "      const result = await this.executeQuery(";
    "        'INSERT INTO " +:+ lower model_name +:+ "s (...) VALUES (...)',";
    "        Object.values(data)";
    "      )";
    "      return new " +:+ model_name +:+ "({ ...data, id: result.insertId })";
    "    } catch (error) {";
    "      this.handleError(error)";
    "    }";
    "  }";
    "  ";
    "  async update(id: string, data: Partial<I" +:+ model_name +:+ ">): Promise<" +:+ model_name +:+ " | null> {";
    "    try {";
    "      // TODO: Implement database update";
    "      await this.executeQuery(";
    "        'UPDATE " +:+ lower model_name +:+ "s SET ... WHERE id = ?',";
    "        [...Object.values(data), id]";
    "      )";
    "      return this.findById(id)";
    "    } catch (error) {";
    "      this.handleError(error)";
    "    }";
    "  }";
    "  ";
    "  async delete(id: string): Promise<boolean> {";
    "    try {";
    "      // TODO: Implement database delete";
    "      const result = await this.executeQuery('DELETE FROM " +:+ lower model_name +:+ "s WHERE id = ?', [id])";
    "      return result.affectedRows > 0";
    "    } catch (error) {";
    "      this.handleError(error)";
    "    }";
    "  }";
    "}";
    "";
    "export default new " +:+ repo_name +:+ "()";
    ""
  ].

(** ** templates/config_templates.py *)

(** [PackageJsonTemplate._generate_frontend_package] *)
Definition _generate_frontend_package : string :=
  text [
    "{";
    "  " +:+ q "name" +:+ ": " +:+ q "beepmyphone-frontend" +:+ ",";
    "  " +:+ q "version" +:+ ": " +:+ q "1.0.0" +:+ ",";
    "  " +:+ q "description" +:+ ": " +:+ q "BeepMyPhone React frontend application" +:+ ",";
    "  " +:+ q "type" +:+ ": " +:+ q "module" +:+ ",";
    "  " +:+ q "scripts" +:+ ": {";
    "    " +:+ q "dev" +:+ ": " +:+ q "vite" +:+ ",";
    "    " +:+ q "build" +:+ ": " +:+ q "tsc && vite build" +:+ ",";
    "    " +:+ q "preview" +:+ ": " +:+ q "vite preview" +:+ ",";
    "    " +:+ q "test" +:+ ": " +:+ q "jest" +:+ ",";
    "    " +:+ q "lint" +:+ ": " +:+ q "eslint src --ext ts,tsx" +:+ ",";
    "    " +:+ q "type-check" +:+ ": " +:+ q "tsc --noEmit";
    "  },";
    "  " +:+ q "dependencies" +:+ ": {";
    "    " +:+ q "react" +:+ ": " +:+ q "^18.2.0" +:+ ",";
    "    " +:+ q "react-dom" +:+ ": " +:+ q "^18.2.0" +:+ ",";
    "    " +:+ q "react-router-dom" +:+ ": " +:+ q "^6.8.0" +:+ ",";
    "    " +:+ q "@reduxjs/toolkit" +:+ ": " +:+ q "^1.9.0" +:+ ",";
    "    " +:+ q "react-redux" +:+ ": " +:+ q "^8.0.0" +:+ ",";
    "    " +:+ q "axios" +:+ ": " +:+ q "^1.3.0" +:+ ",";
    "    " +:+ q "socket.io-client" +:+ ": " +:+ q "^4.6.0";
    "  },";
    "  " +:+ q "devDependencies" +:+ ": {";
    "    " +:+ q "@types/react" +:+ ": " +:+ q "^18.2.0" +:+ ",";
    "    " +:+ q "@types/react-dom" +:+ ": " +:+ q "^18.2.0" +:+ ",";
    "    " +:+ q "@types/jest" +:+ ": " +:+ q "^29.0.0" +:+ ",";
    "    " +:+ q "@testing-library/react" +:+ ": " +:+ q "^14.0.0" +:+ ",";
    "    " +:+ q "@testing-library/jest-dom" +:+ ": " +:+ q "^5.16.0" +:+ ",";
    "    " +:+ q "@testing-library/user-event" +:+ ": " +:+ q "^14.0.0" +:+ ",";
    "    " +:+ q "@jest/globals" +:+ ": " +:+ q "^29.0.0" +:+ ",";
    "    " +:+ q "jest" +:+ ": " +:+ q "^29.0.0" +:+ ",";
    "    " +:+ q "jest-environment-jsdom" +:+ ": " +:+ q "^29.0.0" +:+ ",";
    "    " +:+ q "typescript" +:+ ": " +:+ q "^5.0.0" +:+ ",";
    "    " +:+ q "vite" +:+ ": " +:+ q "^4.4.0" +:+ ",";
    "    " +:+ q "@vitejs/plugin-react" +:+ ": " +:+ q "^4.0.0" +:+ ",";
    "    " +:+ q "eslint" +:+ ": " +:+ q "^8.0.0" +:+ ",";
    "    " +:+ q "@typescript-eslint/eslint-plugin" +:+ ": " +:+ q "^5.0.0" +:+ ",";
    "    " +:+ q "@typescript-eslint/parser" +:+ ": " +:+ q "^5.0.0" +:+ ",";
    "    " +:+ q "tailwindcss" +:+ ": " +:+ q "^3.3.0" +:+ ",";
    "    " +:+ q "autoprefixer" +:+ ": " +:+ q "^10.4.0" +:+ ",";
    "    " +:+ q "postcss" +:+ ": " +:+ q "^8.4.0";
    "  }";
    "}";
    ""
  ].

(** [PackageJsonTemplate._generate_backend_package] *)
Definition _generate_backend_package : string :=
  text [
    "{";
    "  " +:+ q "name" +:+ ": " +:+ q "beepmyphone-backend" +:+ ",";
    "  " +:+ q "version" +:+ ": " +:+ q "1.0.0" +:+ ",";
    "  " +:+ q "description" +:+ ": " +:+ q "BeepMyPhone Node.js backend server" +:+ ",";
    "  " +:+ q "main" +:+ ": " +:+ q "dist/index.js" +:+ ",";
    "  " +:+ q "scripts" +:+ ": {";
    "    " +:+ q "dev" +:+ ": " +:+ q "nodemon src/index.ts" +:+ ",";
    "    " +:+ q "build" +:+ ": " +:+ q "tsc" +:+ ",";
    "    " +:+ q "test" +:+ ": " +:+ q "jest" +:+ ",";
    "    " +:+ q "lint" +:+ ": " +:+ q "eslint src --ext ts" +:+ ",";
    "    " +:+ q "type-check" +:+ ": " +:+ q "tsc --noEmit";
    "  },";
    "  " +:+ q "dependencies" +:+ ": {";
    "    " +:+ q "express" +:+ ": " +:+ q "^4.18.0" +:+ ",";
    "    " +:+ q "socket.io" +:+ ": " +:+ q "^4.6.0" +:+ ",";
    "    " +:+ q "sqlite3" +:+ ": " +:+ q "^5.1.0" +:+ ",";
    "    " +:+ q "bcryptjs" +:+ ": " +:+ q "^2.4.0" +:+ ",";
    "    " +:+ q "jsonwebtoken" +:+ ": " +:+ q "^9.0.0" +:+ ",";
    "    " +:+ q "cors" +:+ ": " +:+ q "^2.8.0" +:+ ",";
    "    " +:+ q "helmet" +:+ ": " +:+ q "^6.1.0" +:+ ",";
    "    " +:+ q "express-rate-limit" +:+ ": " +:+ q "^6.7.0";
    "  },";
    "  " +:+ q "devDependencies" +:+ ": {";
    "    " +:+ q "@types/express" +:+ ": " +:+ q "^4.17.0" +:+ ",";
    "    " +:+ q "@types/node" +:+ ": " +:+ q "^18.15.0" +:+ ",";
    "    " +:+ q "@types/bcryptjs" +:+ ": " +:+ q "^2.4.0" +:+ ",";
    "    " +:+ q "@types/jsonwebtoken" +:+ ": " +:+ q "^9.0.0" +:+ ",";
    "    " +:+ q "@types/cors" +:+ ": " +:+ q "^2.8.0" +:+ ",";
    "    " +:+ q "@types/jest" +:+ ": " +:+ q "^29.5.0" +:+ ",";
    "    " +:+ q "jest" +:+ ": " +:+ q "^29.5.0" +:+ ",";
    "    " +:+ q "ts-jest" +:+ ": " +:+ q "^29.1.0" +:+ ",";
    "    " +:+ q "typescript" +:+ ": " +:+ q "^5.0.0" +:+ ",";
    "    " +:+ q "nodemon" +:+ ": " +:+ q "^3.0.0";
    "  }";
    "}";
    ""
  ].

(** [PackageJsonTemplate.generate] *)
Definition PackageJsonTemplate (file_path : Path) : string :=
  let is_frontend := contains "frontend" (to_string file_path) in
  if is_frontend then _generate_frontend_package
  else _generate_backend_package.

(** [TSConfigTemplate._generate_frontend_tsconfig] *)
Definition _generate_frontend_tsconfig : string :=
  text [
    "{";
    "  " +:+ q "compilerOptions" +:+ ": {";
    "    " +:+ q "target" +:+ ": " +:+ q "ES2020" +:+ ",";
    "    " +:+ q "lib" +:+ ": [" +:+ q "DOM" +:+ ", " +:+ q "DOM.Iterable" +:+ ", " +:+ q "ES6" +:+ "],";
    "    " +:+ q "allowJs" +:+ ": false,";
    "    " +:+ q "skipLibCheck" +:+ ": true,";
    "    " +:+ q "esModuleInterop" +:+ ": false,";
    "    " +:+ q "allowSyntheticDefaultImports" +:+ ": true,";
    "    " +:+ q "strict" +:+ ": true,";
    "    " +:+ q "forceConsistentCasingInFileNames" +:+ ": true,";
    "    " +:+ q "module" +:+ ": " +:+ q "ESNext" +:+ ",";
    "    " +:+ q "moduleResolution" +:+ ": " +:+ q "node" +:+ ",";
    "    " +:+ q "resolveJsonModule" +:+ ": true,";
    "    " +:+ q "isolatedModules" +:+ ": true,";
    "    " +:+ q "noEmit" +:+ ": true,";
    "    " +:+ q "jsx" +:+ ": " +:+ q "react-jsx";
    "  },";
    "  " +:+ q "include" +:+ ": [";
    "    " +:+ q "src";
    "  ],";
    "  " +:+ q "references" +:+ ": [{ " +:+ q "path" +:+ ": " +:+ q "./tsconfig.node.json" +:+ " }]";
    "}";
    ""
  ].

(** [TSConfigTemplate._generate_backend_tsconfig] *)
Definition _generate_backend_tsconfig : string :=
  text [
    "{";
    "  " +:+ q "compilerOptions" +:+ ": {";
    "    " +:+ q "target" +:+ ": " +:+ q "ES2020" +:+ ",";
    "    " +:+ q "module" +:+ ": " +:+ q "commonjs" +:+ ",";
    "    " +:+ q "lib" +:+ ": [" +:+ q "ES2020" +:+ "],";
    "    " +:+ q "outDir" +:+ ": " +:+ q "./dist" +:+ ",";
    "    " +:+ q "rootDir" +:+ ": " +:+ q "./src" +:+ ",";
    "    " +:+ q "strict" +:+ ": true,";
    "    " +:+ q "esModuleInterop" +:+ ": true,";
    "    " +:+ q "skipLibCheck" +:+ ": true,";
    "    " +:+ q "forceConsistentCasingInFileNames" +:+ ": true,";
    "    " +:+ q "resolveJsonModule" +:+ ": true,";
    "    " +:+ q "declaration" +:+ ": true,";
    "    " +:+ q "declarationMap" +:+ ": true,";
    "    " +:+ q "sourceMap" +:+ ": true";
    "  },";
    "  " +:+ q "include" +:+ ": [" +:+ q "src/**/*" +:+ "],";
    "  " +:+ q "exclude" +:+ ": [" +:+ q "node_modules" +:+ ", " +:+ q "dist" +:+ ", " +:+ q "tests" +:+ "]";
    "}";
    ""
  ].

(** [TSConfigTemplate.generate] *)
Definition TSConfigTemplate (file_path : Path) : string :=
  let is_frontend := contains "frontend" (to_string file_path) in
  if is_frontend then _generate_frontend_tsconfig
  else _generate_backend_tsconfig.

(** [TSConfigNodeTemplate.generate] *)
Definition TSConfigNodeTemplate (file_path : Path) : string :=
  text [
    "{";
    "  " +:+ q "compilerOptions" +:+ ": {";
    "    " +:+ q "composite" +:+ ": true,";
    "    " +:+ q "module" +:+ ": " +:+ q "ESNext" +:+ ",";
    "    " +:+ q "moduleResolution" +:+ ": " +:+ q "node" +:+ ",";
    "    " +:+ q "allowSyntheticDefaultImports" +:+ ": true";
    "  },";
    "  " +:+ q "include" +:+ ": [" +:+ q "vite.config.ts" +:+ "]";
    "}";
    ""
  ].

(** ** templates/react_templates.py *)

(** [ReactComponentTemplate.generate] *)
Definition ReactComponentTemplate (file_path : Path) : string :=
  let component_name := get_class_name_from_filename (stem file_path) in
  text [
    "import React from 'react'";
    "";
    "interface " +:+ component_name +:+ "Props {";
    "  // TODO: Define component props";
    "}";
    "";
    "export const " +:+ component_name +:+ ": React.FC<" +:+ component_name +:+ "Props> = (props) => {";
    "  return (";
    "    <div className=" +:+ dq +:+ lower component_name +:+ dq +:+ ">";
    "      {/* TODO: Implement " +:+ component_name +:+ " component */}";
    "      <h1>" +:+ component_name +:+ "</h1>";
    "    </div>";
    "  )";
    "}";
    "";
    "export default " +:+ component_name;
    ""
  ].

(** [ReactTestTemplate.generate] *)
Definition ReactTestTemplate (file_path : Path) : string :=
  let component_name := get_class_name_from_filename (replace ".test" "" (stem file_path)) in
  let import_path := calculate_component_import file_path component_name in
  text [
    "import React from 'react'";
    "import { render, screen } from '@testing-library/react'";
    "import { " +:+ component_name +:+ " } from '" +:+ import_path +:+ "'";
    "";
    "describe('" +:+ component_name +:+ "', () => {";
    "  it('renders correctly', () => {";
    "    render(<" +:+ component_name +:+ " />)";
    "    // TODO: Add test assertions";
    "    expect(screen.getByText('" +:+ component_name +:+ "')).toBeInTheDocument()";
    "  })";
    "  ";
    "  it('handles props correctly', () => {";
    "    // TODO: Test component props";
    "  })";
    "})";
    ""
  ].

(** [ReactHookTemplate.generate] *)
Definition ReactHookTemplate (file_path : Path) : string :=
  let hook_name := stem file_path in
  text [
    "import { useState, useEffect } from 'react'";
    "";
    "interface " +:+ capitalize hook_name +:+ "Return {";
    "  // TODO: Define hook return type";
    "  data: any";
    "  loading: boolean";
    "  error: string | null";
    "}";
    "";
    "export const " +:+ hook_name +:+ " = (): " +:+ capitalize hook_name +:+ "Return => {";
    "  const [data, setData] = useState<any>(null)";
    "  const [loading, setLoading] = useState<boolean>(false)";
    "  const [error, setError] = useState<string | null>(null)";
    "  ";
    "  useEffect(() => {";
    "    // TODO: Implement hook logic";
    "  }, [])";
    "  ";
    "  return {";
    "    data,";
    "    loading,";
    "    error";
    "  }";
    "}";
    "";
    "export default " +:+ hook_name;
    ""
  ].

(** [ServiceTemplate.generate] *)
Definition ServiceTemplate (file_path : Path) : string :=
  let service_name := get_class_name_from_filename (stem file_path) in
  text [
    "import { BaseService } from '../base/BaseService'";
    "";
    "export class " +:+ service_name +:+ " extends BaseService {";
    "  // TODO: Implement " +:+ service_name +:+ " methods";
    "  ";
    "  async process(data: any): Promise<any> {";
    "    try {";
    "      if (!this.validateInput(data)) {";
    "        throw new Error('Invalid input data')";
    "      }";
    "      ";
    "      // TODO: Implement processing logic";
    "      return { success: true, data }";
    "    } catch (error) {";
    "      this.handleError(error)";
    "    }";
    "  }";
    "  ";
    "  // TODO: Add specific service methods";
    "}";
    "";
    "export default new " +:+ service_name +:+ "()";
    ""
  ].

(** [BaseServiceTemplate.generate] *)
Definition BaseServiceTemplate (file_path : Path) : string :=
  text [
    "export abstract class BaseService {";
    "  // TODO: Implement base service methods";
    "  ";
    "  protected validateInput(input: any): boolean {";
    "    // TODO: Add validation logic";
    "    return input !== null && input !== undefined";
    "  }";
    "  ";
    "  protected handleError(error: any): never {";
    "    console.error('Service error:', error)";
    "    throw new Error(`Service error: ${error}`)";
    "  }";
    "  ";
    "  protected async makeRequest<T>(operation: () => Promise<T>): Promise<T> {";
    "    try {";
    "      return await operation()";
    "    } catch (error) {";
    "      this.handleError(error)";
    "    }";
    "  }";
    "}";
    ""
  ].

(** ** templates/test_templates.py *)

(** [BackendTestTemplate._calculate_backend_import_path] *)
Definition _calculate_backend_import_path (test_path : Path)
    (component_name : string) : string :=
  let path_parts := parts test_path in
  match index "tests" path_parts with
  | Some tests_index =>
      let relative_parts := slice_to_last (tests_index + 1) path_parts in
      match relative_parts with
      | _ :: _ =>
          let dots := repeat "../" (length relative_parts + 1) in
          dots +:+ "src/" +:+ join "/" relative_parts +:+ "/" +:+ component_name
      | [] => "../src/" +:+ component_name
      end
  | None => "./" +:+ component_name
  end.

(** [BackendTestTemplate.generate] *)
Definition BackendTestTemplate (file_path : Path) : string :=
  let test_name := replace ".spec" "" (replace ".test" "" (stem file_path)) in
  let class_name := get_class_name_from_filename test_name in
  let import_path := _calculate_backend_import_path file_path test_name in
  text [
    "import { describe, it, expect, beforeEach, afterEach } from '@jest/globals'";
    "import { " +:+ class_name +:+ " } from '" +:+ import_path +:+ "'";
    "";
    "describe('" +:+ class_name +:+ "', () => {";
    "  let instance: " +:+ class_name;
    "  ";
    "  beforeEach(() => {";
    "    instance = new " +:+ class_name +:+ "()";
    "  })";
    "  ";
    "  afterEach(() => {";
    "    // Cleanup";
    "  })";
    "  ";
    "  describe('constructor', () => {";
    "    it('should create instance correctly', () => {";
    "      expect(instance).toBeInstanceOf(" +:+ class_name +:+ ")";
    "    })";
    "  })";
    "  ";
    "  describe('basic functionality', () => {";
    "    it('should handle basic operations', async () => {";
    "      // TODO: Add test implementation";
    "      expect(true).toBe(true)";
    "    })";
    "    ";
    "    it('should handle error cases', async () => {";
    "      // TODO: Add error handling tests";
    "      expect(true).toBe(true)";
    "    })";
    "  })";
    "  ";
    "  // TODO: Add more specific test cases";
    "})";
    ""
  ].

(** [IntegrationTestTemplate._generate_frontend_integration_test] *)
Definition _generate_frontend_integration_test (feature_name : string) : string :=
  text [
    "import React from 'react'";
    "import { render, screen, fireEvent, waitFor } from '@testing-library/react'";
    "import { Provider } from 'react-redux'";
    "import { BrowserRouter } from 'react-router-dom'";
    "import { store } from '../../store'";
    "";
    "// TODO: Import the components/pages being tested";
    "// import { SomeComponent } from '../../components/...'";
    "";
    "const renderWithProviders = (component: React.ReactElement) => {";
    "  return render(";
    "    <Provider store={store}>";
    "      <BrowserRouter>";
    "        {component}";
    "      </BrowserRouter>";
    "    </Provider>";
    "  )";
    "}";
    "";
    "describe('" +:+ feature_name +:+ " Integration', () => {";
    "  beforeEach(() => {";
    "    // Reset any mocks or state";
    "  })";
    "  ";
    "  it('should complete the full " +:+ lower feature_name +:+ " workflow', async () => {";
    "    // TODO: Implement integration test";
    "    // 1. Render the main component";
    "    // 2. Simulate user interactions";
    "    // 3. Assert the expected outcomes";
    "    ";
    "    // Example:";
    "    // renderWithProviders(<SomeComponent />)";
    "    // fireEvent.click(screen.getByRole('button', { name: /submit/i }))";
    "    // await waitFor(() => expect(screen.getByText(/success/i)).toBeInTheDocument())";
    "    ";
    "    expect(true).toBe(true) // TODO: Replace with actual assertions";
    "  })";
    "  ";
    "  it('should handle error scenarios in " +:+ lower feature_name +:+ "', async () => {";
    "    // TODO: Test error handling";
    "    expect(true).toBe(true) // TODO: Replace with actual assertions";
    "  })";
    "  ";
    "  // TODO: Add more integration test scenarios";
    "})";
    ""
  ].

(** [IntegrationTestTemplate._generate_backend_integration_test] *)
Definition _generate_backend_integration_test (feature_name : string) : string :=
  text [
    "import { describe, it, expect, beforeAll, afterAll, beforeEach } from '@jest/globals'";
    "import request from 'supertest'";
    "import { app } from '../../src/app'";
    "// TODO: Import database setup utilities";
    "// import { setupTestDatabase, cleanupTestDatabase } from '../helpers/database'";
    "";
    "describe('" +:+ feature_name +:+ " Integration', () => {";
    "  beforeAll(async () => {";
    "    // Setup test database and server";
    "    // await setupTestDatabase()";
    "  })";
    "  ";
    "  afterAll(async () => {";
    "    // Cleanup test database";
    "    // await cleanupTestDatabase()";
    "  })";
    "  ";
    "  beforeEach(async () => {";
    "    // Reset database state for each test";
    "  })";
    "  ";
    "  describe('API Endpoints', () => {";
    "    it('should handle complete " +:+ lower feature_name +:+ " workflow via API', async () => {";
    "      // TODO: Test the full API workflow";
    "      // Example:";
    "      // const response = await request(app)";
    "      //   .post('/api/" +:+ replace " " "-" (lower feature_name) +:+ "')";
    "      //   .send({ data: 'test' })";
    "      //   .expect(200)";
    "      // ";
    "      // expect(response.body).toHaveProperty('success', true)";
    "      ";
    "      expect(true).toBe(true) // TODO: Replace with actual API tests";
    "    })";
    "    ";
    "    it('should validate input data properly', async () => {";
    "      // TODO: Test input validation";
    "      expect(true).toBe(true) // TODO: Replace with actual validation tests";
    "    })";
    "    ";
    "    it('should handle authentication and authorization', async () => {";
    "      // TODO: Test auth scenarios";
    "      expect(true).toBe(true) // TODO: Replace with actual auth tests";
    "    })";
    "  })";
    "  ";
    "  describe('Service Integration', () => {";
    "    it('should integrate services correctly for " +:+ lower feature_name +:+ "', async () => {";
    "      // TODO: Test service layer integration";
    "      expect(true).toBe(true) // TODO: Replace with actual service tests";
    "    })";
    "  })";
    "  ";
    "  // TODO: Add more integration test scenarios";
    "})";
    ""
  ].

(** [IntegrationTestTemplate.generate] *)
Definition IntegrationTestTemplate (file_path : Path) : string :=
  let test_name := replace ".spec" "" (replace ".test" "" (stem file_path)) in
  let feature_name := title (replace "-" " " test_name) in
  let is_frontend := contains "frontend" (to_string file_path) in
  if is_frontend then _generate_frontend_integration_test feature_name
  else _generate_backend_integration_test feature_name.

(** [E2ETestTemplate.generate] *)
Definition E2ETestTemplate (file_path : Path) : string :=
  let test_name := replace ".test" "" (replace ".e2e" "" (stem file_path)) in
  let feature_name := title (replace "-" " " test_name) in
  text [
    "import { describe, it, expect, beforeAll, afterAll, beforeEach } from '@jest/globals'";
    "// TODO: Import E2E testing framework (Playwright, Cypress, etc.)";
    "// import { Page, Browser } from 'playwright'";
    "";
    "describe('" +:+ feature_name +:+ " E2E', () => {";
    "  // let browser: Browser";
    "  // let page: Page";
    "  ";
    "  beforeAll(async () => {";
    "    // Setup browser and page";
    "    // browser = await playwright.chromium.launch()";
    "    // page = await browser.newPage()";
    "  })";
    "  ";
    "  afterAll(async () => {";
    "    // Cleanup browser";
    "    // await browser.close()";
    "  })";
    "  ";
    "  beforeEach(async () => {";
    "    // Navigate to test page";
    "    // await page.goto('http://localhost:3000')";
    "  })";
    "  ";
    "  it('should complete " +:+ lower feature_name +:+ " end-to-end', async () => {";
    "    // TODO: Implement E2E test scenario";
    "    // Example:";
    "    // await page.click('[data-testid=" +:+ q "login-button" +:+ "]')";
    "    // await page.fill('[data-testid=" +:+ q "username" +:+ "]', 'testuser')";
    "    // await page.fill('[data-testid=" +:+ q "password" +:+ "]', 'testpass')";
    "    // await page.click('[data-testid=" +:+ q "submit" +:+ "]')";
    "    // await expect(page.locator('[data-testid=" +:+ q "dashboard" +:+ "]')).toBeVisible()";
    "    ";
    "    expect(true).toBe(true) // TODO: Replace with actual E2E tests";
    "  })";
    "  ";
    "  it('should handle " +:+ lower feature_name +:+ " error scenarios', async () => {";
    "    // TODO: Test error scenarios in E2E context";
    "    expect(true).toBe(true) // TODO: Replace with actual error tests";
    "  })";
    "  ";
    "  it('should work across different devices and browsers', async () => {";
    "    // TODO: Test responsive design and cross-browser compatibility";
    "    expect(true).toBe(true) // TODO: Replace with actual compatibility tests";
    "  })";
    "  ";
    "  // TODO: Add more E2E test scenarios";
    "})";
    ""
  ].

(** [PerformanceTestTemplate.generate] *)
Definition PerformanceTestTemplate (file_path : Path) : string :=
  let test_name := replace ".spec" "" (replace ".test" "" (stem file_path)) in
  let component_name := title (replace "-" " " test_name) in
  text [
    "import { describe, it, expect, beforeEach } from '@jest/globals'";
    "// TODO: Import performance testing utilities";
    "// import { performance } from 'perf_hooks'";
    "";
    "describe('" +:+ component_name +:+ " Performance', () => {";
    "  beforeEach(() => {";
    "    // Reset performance counters";
    "  })";
    "  ";
    "  it('should complete operations within acceptable time limits', async () => {";
    "    const startTime = performance.now()";
    "    ";
    "    // TODO: Execute the operation being tested";
    "    // await someOperation()";
    "    ";
    "    const endTime = performance.now()";
    "    const duration = endTime - startTime";
    "    ";
    "    // TODO: Adjust time limits based on requirements";
    "    expect(duration).toBeLessThan(1000) // Should complete within 1 second";
    "  })";
    "  ";
    "  it('should handle concurrent operations efficiently', async () => {";
    "    const concurrentOperations = 10";
    "    const promises = []";
    "    ";
    "    const startTime = performance.now()";
    "    ";
    "    for (let i = 0; i < concurrentOperations; i++) {";
    "      // TODO: Add concurrent operations";
    "      // promises.push(someOperation())";
    "    }";
    "    ";
    "    await Promise.all(promises)";
    "    ";
    "    const endTime = performance.now()";
    "    const duration = endTime - startTime";
    "    ";
    "    // TODO: Adjust time limits based on requirements";
    "    expect(duration).toBeLessThan(5000) // Should handle 10 operations within 5 seconds";
    "  })";
    "  ";
    "  it('should have acceptable memory usage', async () => {";
    "    const initialMemory = process.memoryUsage().heapUsed";
    "    ";
    "    // TODO: Execute memory-intensive operation";
    "    // await memoryIntensiveOperation()";
    "    ";
    "    const finalMemory = process.memoryUsage().heapUsed";
    "    const memoryIncrease = finalMemory - initialMemory";
    "    ";
    "    // TODO: Adjust memory limits based on requirements";
    "    expect(memoryIncrease).toBeLessThan(50 * 1024 * 1024) // Should not increase memory by more than 50MB";
    "  })";
    "  ";
    "  it('should scale properly with increased load', async () => {";
    "    // TODO: Implement load scaling tests";
    "    const loads = [1, 10, 100, 1000]";
    "    ";
    "    for (const load of loads) {";
    "      const startTime = performance.now()";
    "      ";
    "      // TODO: Execute operation with specific load";
    "      // await operationWithLoad(load)";
    "      ";
    "      const endTime = performance.now()";
    "      const duration = endTime - startTime";
    "      ";
    "      // TODO: Define acceptable scaling limits";
    "      console.log(`Load ${load}: ${duration}ms`)";
    "      expect(duration).toBeLessThan(load * 10) // Linear scaling tolerance";
    "    }";
    "  })";
    "  ";
    "  // TODO: Add more performance test scenarios";
    "})";
    ""
  ].

(** ** templates/utility_templates.py *)

(** [UtilityTemplate.generate] *)
Definition UtilityTemplate (file_path : Path) : string :=
  let util_name := stem file_path in
  let class_name := get_class_name_from_filename util_name in
  text [
    "/**";
    " * " +:+ class_name +:+ " utility functions";
    " * TODO: Add description of what this utility does";
    " */";
    "";
    "// TODO: Add utility functions for " +:+ util_name;
    "";
    "export const " +:+ util_name +:+ " = {";
    "  // TODO: Implement utility methods";
    "  ";
    "  /**";
    "   * Example utility function";
    "   * @param input - Input parameter";
    "   * @returns Processed result";
    "   */";
    "  process(input: any): any {";
    "    // TODO: Implement processing logic";
    "    return input";
    "  },";
    "  ";
    "  /**";
    "   * Validation utility";
    "   * @param data - Data to validate";
    "   * @returns True if valid";
    "   */";
    "  validate(data: any): boolean {";
    "    // TODO: Implement validation logic";
    "    return data !== null && data !== undefined";
    "  },";
    "  ";
    "  /**";
    "   * Formatting utility";
    "   * @param value - Value to format";
    "   * @returns Formatted string";
    "   */";
    "  format(value: any): string {";
    "    // TODO: Implement formatting logic";
    "    return String(value)";
    "  }";
    "}";
    "";
    "// Individual utility functions can also be exported";
    "export function " +:+ util_name +:+ "Helper(data: any): any {";
    "  // TODO: Implement helper function";
    "  return data";
    "}";
    "";
    "export default " +:+ util_name;
    ""
  ].

(** [TypeDefinitionTemplate.generate] *)
Definition TypeDefinitionTemplate (file_path : Path) : string :=
  let type_name := stem file_path in
  let base_type := get_class_name_from_filename type_name in
  text [
    "/**";
    " * Type definitions for " +:+ base_type;
    " * TODO: Add description of these types";
    " */";
    "";
    "// Base interface";
    "export interface I" +:+ base_type +:+ " {";
    "  id: string";
    "  createdAt: Date";
    "  updatedAt: Date";
    "  // TODO: Add specific properties";
    "}";
    "";
    "// Create/Update types";
    "export interface Create" +:+ base_type +:+ "Request {";
    "  // TODO: Add required fields for creation";
    "}";
    "";
    "export interface Update" +:+ base_type +:+ "Request {";
    "  // TODO: Add fields that can be updated";
    "}";
    "";
    "// Response types";
    "export interface " +:+ base_type +:+ "Response {";
    "  success: boolean";
    "  data?: I" +:+ base_type;
    "  error?: string";
    "}";
    "";
    "export interface " +:+ base_type +:+ "ListResponse {";
    "  success: boolean";
    "  data?: I" +:+ base_type +:+ "[]";
    "  total?: number";
    "  page?: number";
    "  limit?: number";
    "  error?: string";
    "}";
    "";
    "// Filter and query types";
    "export interface " +:+ base_type +:+ "Filter {";
    "  // TODO: Add filter criteria";
    "  search?: string";
    "  status?: string";
    "  createdAfter?: Date";
    "  createdBefore?: Date";
    "}";
    "";
    "export interface " +:+ base_type +:+ "Sort {";
    "  field: keyof I" +:+ base_type;
    "  direction: 'asc' | 'desc'";
    "}";
    "";
    "export interface " +:+ base_type +:+ "Query {";
    "  filter?: " +:+ base_type +:+ "Filter";
    "  sort?: " +:+ base_type +:+ "Sort";
    "  page?: number";
    "  limit?: number";
    "}";
    "";
    "// Event types";
    "export interface " +:+ base_type +:+ "Event {";
    "  type: '" +:+ lower base_type +:+ "_created' | '" +:+ lower base_type +:+ "_updated' | '" +:+ lower base_type +:+ "_deleted'";
    "  data: I" +:+ base_type;
    "  timestamp: Date";
    "  userId?: string";
    "}";
    "";
    "// TODO: Add more specific types as needed";
    "export type " +:+ base_type +:+ "Status = 'active' | 'inactive' | 'pending' | 'archived'";
    "";
    "export type " +:+ base_type +:+ "Permission = 'read' | 'write' | 'delete' | 'admin'";
    ""
  ].

(** [ConstantsTemplate.generate] *)
Definition ConstantsTemplate (file_path : Path) : string :=
  text [
    "/**";
    " * Application constants";
    " * TODO: Add project-specific constants";
    " */";
    "";
    "// API Configuration";
    "export const API_CONFIG = {";
    "  BASE_URL: process.env.REACT_APP_API_URL || 'http://localhost:3001',";
    "  TIMEOUT: 30000,";
    "  RETRY_ATTEMPTS: 3,";
    "  RETRY_DELAY: 1000";
    "} as const";
    "";
    "// WebSocket Configuration";
    "export const WEBSOCKET_CONFIG = {";
    "  URL: process.env.REACT_APP_WS_URL || 'ws://localhost:3001',";
    "  RECONNECT_ATTEMPTS: 5,";
    "  RECONNECT_DELAY: 2000,";
    "  HEARTBEAT_INTERVAL: 30000";
    "} as const";
    "";
    "// Application Routes";
    "export const ROUTES = {";
    "  HOME: '/',";
    "  DASHBOARD: '/dashboard',";
    "  DEVICES: '/devices',";
    "  NOTIFICATIONS: '/notifications',";
    "  SETTINGS: '/settings',";
    "  LOGIN: '/login',";
    "  REGISTER: '/register'";
    "} as const";
    "";
    "// Storage Keys";
    "export const STORAGE_KEYS = {";
    "  AUTH_TOKEN: 'auth_token',";
    "  USER_PREFERENCES: 'user_preferences',";
    "  DEVICE_CONFIG: 'device_config',";
    "  NOTIFICATION_SETTINGS: 'notification_settings'";
    "} as const";
    "";
    "// Notification Types";
    "export const NOTIFICATION_TYPES = {";
    "  INFO: 'info',";
    "  SUCCESS: 'success',";
    "  WARNING: 'warning',";
    "  ERROR: 'error'";
    "} as const";
    "";
    "// Device Status";
    "export const DEVICE_STATUS = {";
    "  ONLINE: 'online',";
    "  OFFLINE: 'offline',";
    "  CONNECTING: 'connecting',";
    "  ERROR: 'error'";
    "} as const";
    "";
    "// Notification Priorities";
    "export const NOTIFICATION_PRIORITY = {";
    "  LOW: 'low',";
    "  NORMAL: 'normal',";
    "  HIGH: 'high',";
    "  URGENT: 'urgent'";
    "} as const";
    "";
    "// File Size Limits";
    "export const FILE_LIMITS = {";
    "  MAX_IMAGE_SIZE: 5 * 1024 * 1024, // 5MB";
    "  MAX_DOCUMENT_SIZE: 10 * 1024 * 1024, // 10MB";
    "  ALLOWED_IMAGE_TYPES: ['image/jpeg', 'image/png', 'image/gif', 'image/webp'],";
    "  ALLOWED_DOCUMENT_TYPES: ['application/pdf', 'text/plain']";
    "} as const";
    "";
    "// Validation Rules";
    "export const VALIDATION = {";
    "  PASSWORD_MIN_LENGTH: 8,";
    "  USERNAME_MIN_LENGTH: 3,";
    "  USERNAME_MAX_LENGTH: 50,";
    "  EMAIL_REGEX: /^[^" +:+ backslash +:+ "s@]+@[^" +:+ backslash +:+ "s@]+" +:+ backslash +:+ ".[^" +:+ backslash +:+ "s@]+$/,";
    "  PHONE_REGEX: /^" +:+ backslash +:+ "+?[1-9]" +:+ backslash +:+ "d{1,14}$/";
    "} as const";
    "";
    "// UI Configuration";
    "export const UI_CONFIG = {";
    "  DEFAULT_PAGE_SIZE: 20,";
    "  MAX_PAGE_SIZE: 100,";
    "  DEBOUNCE_DELAY: 300,";
    "  ANIMATION_DURATION: 200,";
    "  TOAST_DURATION: 5000";
    "} as const";
    "";
    "// Error Messages";
    "export const ERROR_MESSAGES = {";
    "  NETWORK_ERROR: 'Network connection failed. Please check your internet connection.',";
    "  UNAUTHORIZED: 'You are not authorized to perform this action.',";
    "  FORBIDDEN: 'Access denied.',";
    "  NOT_FOUND: 'The requested resource was not found.',";
    "  SERVER_ERROR: 'Internal server error. Please try again later.',";
    "  VALIDATION_ERROR: 'Please check your input and try again.',";
    "  TIMEOUT_ERROR: 'Request timed out. Please try again.'";
    "} as const";
    "";
    "// Success Messages";
    "export const SUCCESS_MESSAGES = {";
    "  SAVE_SUCCESS: 'Changes saved successfully.',";
    "  DELETE_SUCCESS: 'Item deleted successfully.',";
    "  UPDATE_SUCCESS: 'Item updated successfully.',";
    "  CREATE_SUCCESS: 'Item created successfully.',";
    "  LOGIN_SUCCESS: 'Login successful.',";
    "  LOGOUT_SUCCESS: 'Logout successful.'";
    "} as const";
    "";
    "// TODO: Add more constants as needed";
    ""
  ].

(** [IndexTemplate.generate] *)
Definition IndexTemplate (file_path : Path) : string :=
  let parent_dir := name (parent file_path) in
  text [
    "/**";
    " * " +:+ capitalize parent_dir +:+ " module exports";
    " * This file exports all public APIs from the " +:+ parent_dir +:+ " module";
    " */";
    "";
    "// TODO: Add exports for " +:+ parent_dir +:+ " module";
    "";
    "// Example exports:";
    "// export { SomeClass } from './SomeClass'";
    "// export { SomeFunction } from './utils'";
    "// export type { SomeType } from './types'";
    "";
    "// Export everything from submodules";
    "// export * from './submodule'";
    "";
    "// Default export (if applicable)";
    "// export { default as " +:+ capitalize parent_dir +:+ " } from './main'";
    "";
    "// TODO: Replace with actual exports for " +:+ parent_dir;
    "export {}";
    ""
  ].

(** [MiddlewareTemplate.generate] *)
Definition MiddlewareTemplate (file_path : Path) : string :=
  let middleware_name := stem file_path in
  let class_name := get_class_name_from_filename middleware_name in
  text [
    "import { Request, Response, NextFunction } from 'express'";
    "";
    "/**";
    " * " +:+ class_name +:+ " middleware";
    " * TODO: Add description of what this middleware does";
    " */";
    "";
    "export interface " +:+ class_name +:+ "Options {";
    "  // TODO: Add configuration options";
    "  enabled?: boolean";
    "}";
    "";
    "export function " +:+ middleware_name +:+ "(options: " +:+ class_name +:+ "Options = {}) {";
    "  return (req: Request, res: Response, next: NextFunction) => {";
    "    try {";
    "      // TODO: Implement middleware logic";
    "      ";
    "      // Example: Add custom properties to request";
    "      // (req as any)." +:+ middleware_name +:+ " = { /* custom data */ }";
    "      ";
    "      // Example: Validate request";
    "      // if (!isValidRequest(req)) {";
    "      //   return res.status(400).json({ error: 'Invalid request' })";
    "      // }";
    "      ";
    "      // Example: Log request";
    "      // console.log(`" +:+ class_name +:+ ": ${req.method} ${req.path}`)";
    "      ";
    "      // Continue to next middleware";
    "      next()";
    "    } catch (error) {";
    "      console.error(`" +:+ class_name +:+ " error:`, error)";
    "      res.status(500).json({ error: 'Internal server error' })";
    "    }";
    "  }";
    "}";
    "";
    "// Alternative function-based middleware";
    "export const " +:+ middleware_name +:+ "Sync = (req: Request, res: Response, next: NextFunction) => {";
    "  try {";
    "    // TODO: Implement synchronous middleware logic";
    "    next()";
    "  } catch (error) {";
    "    console.error(`" +:+ class_name +:+ " error:`, error)";
    "    res.status(500).json({ error: 'Internal server error' })";
    "  }";
    "}";
    "";
    "// Async middleware wrapper";
    "export const asyncMiddleware = (fn: (req: Request, res: Response, next: NextFunction) => Promise<void>) => {";
    "  return (req: Request, res: Response, next: NextFunction) => {";
    "    Promise.resolve(fn(req, res, next)).catch(next)";
    "  }";
    "}";
    "";
    "export default " +:+ middleware_name;
    ""
  ].

(** [RouteTemplate.generate] *)
Definition RouteTemplate (file_path : Path) : string :=
  let route_name := stem file_path in
  let controller_name := get_class_name_from_filename route_name in
  text [
    "import { Router } from 'express'";
    "import { " +:+ controller_name +:+ "Controller } from '../controllers/" +:+ controller_name +:+ "Controller'";
    "// TODO: Import middleware as needed";
    "// import { authMiddleware } from '../middleware/auth'";
    "// import { validateMiddleware } from '../middleware/validation'";
    "";
    "const router = Router()";
    "const controller = new " +:+ controller_name +:+ "Controller()";
    "";
    "/**";
    " * " +:+ controller_name +:+ " routes";
    " * TODO: Add description of these routes";
    " */";
    "";
    "// GET /" +:+ lower route_name;
    "router.get('/', ";
    "  // TODO: Add middleware if needed";
    "  // authMiddleware,";
    "  controller.index.bind(controller)";
    ")";
    "";
    "// GET /" +:+ lower route_name +:+ "/:id";
    "router.get('/:id',";
    "  // TODO: Add middleware if needed";
    "  // authMiddleware,";
    "  controller.show.bind(controller)";
    ")";
    "";
    "// POST /" +:+ lower route_name;
    "router.post('/',";
    "  // TODO: Add middleware if needed";
    "  // authMiddleware,";
    "  // validateMiddleware(createSchema),";
    "  controller.create.bind(controller)";
    ")";
    "";
    "// PUT /" +:+ lower route_name +:+ "/:id";
    "router.put('/:id',";
    "  // TODO: Add middleware if needed";
    "  // authMiddleware,";
    "  // validateMiddleware(updateSchema),";
    "  controller.update.bind(controller)";
    ")";
    "";
    "// DELETE /" +:+ lower route_name +:+ "/:id";
    "router.delete('/:id',";
    "  // TODO: Add middleware if needed";
    "  // authMiddleware,";
    "  controller.delete.bind(controller)";
    ")";
    "";
    "// TODO: Add custom routes specific to " +:+ route_name;
    "// router.post('/:id/custom-action', controller.customAction.bind(controller))";
    "";
    "export default router";
    ""
  ].
End Templates.

(* ===================================================================== *)
(** * tools/v2/template_factory.py: content generation                     *)
(* ===================================================================== *)

Module TemplateFactory.
Import PyStr PathLib Templates.

(** The templates of [_register_templates], in registration order. *)
Definition registered : list (string * (Path -> string)) :=
  [ ("react_component", ReactComponentTemplate);
    ("react_test", ReactTestTemplate);
    ("react_hook", ReactHookTemplate);
    ("frontend_service", ServiceTemplate);
    ("frontend_base_service", BaseServiceTemplate);
    ("controller", ControllerTemplate);
    ("base_controller", BaseControllerTemplate);
    ("backend_service", BackendServiceTemplate);
    ("backend_base_service", BackendBaseServiceTemplate);
    ("model", ModelTemplate);
    ("repository", RepositoryTemplate);
    ("package_json", PackageJsonTemplate);
    ("tsconfig", TSConfigTemplate);
    ("tsconfig_node", TSConfigNodeTemplate);
    ("backend_test", BackendTestTemplate);
    ("integration_test", IntegrationTestTemplate);
    ("e2e_test", E2ETestTemplate);
    ("performance_test", PerformanceTestTemplate);
    ("utility", UtilityTemplate);
    ("types", TypeDefinitionTemplate);
    ("constants", ConstantsTemplate);
    ("index", IndexTemplate);
    ("middleware", MiddlewareTemplate);
    ("route", RouteTemplate) ].

(** [self.templates] *)
Definition templates : gmap string (Path -> string) :=
  list_to_map registered.

(** [TemplateFactory.get_template] *)
Definition get_template (file_path : Path) (file_type : string)
  : option (Path -> string) :=
  templates !! TemplateKeys.template_key file_path file_type.

(** [TemplateFactory._generate_generic_template], extension '.ts' *)
Definition generic_ts (filename : string) : string :=
  text [
    "// " +:+ filename;
    "// TODO: Implement " +:+ filename;
    "";
    "export class " +:+ capitalize filename +:+ " {";
    "  // TODO: Add implementation";
    "}";
    "";
    "export default " +:+ capitalize filename;
    ""
  ].

(** [TemplateFactory._generate_generic_template], extension '.tsx' *)
Definition generic_tsx (filename : string) : string :=
  text [
    "import React from 'react'";
    "";
    "export const " +:+ capitalize filename +:+ " = () => {";
    "  return (";
    "    <div>";
    "      {/* TODO: Implement " +:+ filename +:+ " component */}";
    "      <h1>" +:+ filename +:+ "</h1>";
    "    </div>";
    "  )";
    "}";
    "";
    "export default " +:+ capitalize filename;
    ""
  ].

(** [TemplateFactory._generate_generic_template], extension '.json' *)
Definition generic_json : string :=
  text [
    "{";
    "  " +:+ q "TODO" +:+ ": " +:+ q "Add JSON configuration";
    "}";
    ""
  ].

(** [TemplateFactory._generate_generic_template], extension '.css' *)
Definition generic_css (filename : string) : string :=
  text [
    "/* " +:+ filename +:+ " */";
    "/* TODO: Add CSS styles for " +:+ filename +:+ " */";
    "";
    "." +:+ lower filename +:+ " {";
    "  /* Add styles here */";
    "}";
    ""
  ].

(** [TemplateFactory._generate_generic_template], extension '.sql' *)
Definition generic_sql (filename : string) : string :=
  text [
    "-- " +:+ filename;
    "-- TODO: Add SQL for " +:+ filename;
    "";
    "CREATE TABLE IF NOT EXISTS example (";
    "  id INTEGER PRIMARY KEY,";
    "  created_at DATETIME DEFAULT CURRENT_TIMESTAMP";
    ");";
    ""
  ].

(** [TemplateFactory._generate_generic_template], extension any other *)
Definition generic_other (filename : string) : string :=
  text [
    "# " +:+ filename;
    "# TODO: Implement " +:+ filename;
    ""
  ].

(** [TemplateFactory._generate_generic_template] *)
Definition _generate_generic_template (file_path : Path)
    (file_type : string) : string :=
  let filename := stem file_path in
  let extension := suffix file_path in
  if String.eqb extension ".ts" then generic_ts filename
  else if String.eqb extension ".tsx" then generic_tsx filename
  else if String.eqb extension ".json" then generic_json
  else if String.eqb extension ".css" then generic_css filename
  else if String.eqb extension ".sql" then generic_sql filename
  else generic_other filename.

(** [TemplateFactory.generate_content] *)
Definition generate_content (file_path : Path) (file_type : string)
  : string :=
  match get_template file_path file_type with
  | Some template => template file_path
  | None => _generate_generic_template file_path file_type
  end.

End TemplateFactory.

(* ===================================================================== *)
(** * tools/v2/generate_structure_v2.py: the driver                        *)
(* ===================================================================== *)

Module GeneratorV2.
Import PyStr PathLib FS.

(** What a [ProjectGenerator] changes while it runs: the file system
    and its two lists.  Console output is not modelled. *)
Record state := mkState {
  store : gmap (list string) node;
  created_files : list string;
  skipped_files : list string
}.

(** How a method call ends: it returns, or an exception leaves it. *)
Inductive run := Return (st : state) | Raise (e : exn) (st : state).

(** [StructureParser.parse_structure_file] *)
Definition parse_structure_file (pf : platform)
    (s : gmap (list string) node) (structure_file : Path)
  : result (list (string * string)) :=
  if negb (path_exists pf s structure_file) then Err FileNotFoundError
  else
    match read_text pf s structure_file with
    | Ok content => Ok (FileParser.parse_content content)
    | Err e => Err e
    end.

(** [ProjectGenerator._create_file]; [generate_content] is the method
    of [self.template_factory]. *)
Definition _create_file (generate_content : Path -> string -> string)
    (pf : platform) (st : state) (base_path : Path)
    (relative_path file_type : string) : run :=
  let full_path := join_str base_path relative_path in
  match mkdir_parents pf (store st) (parent full_path) with
  | Failed e s => Raise e (mkState s (created_files st) (skipped_files st))
  | Done s =>
      if path_exists pf s full_path && (0 <? st_size pf s full_path)
      then Return (mkState s (created_files st)
                     (skipped_files st ++ [to_string full_path]))
      else
        let content := generate_content full_path file_type in
        match write_text pf s full_path content with
        | Ok s' => Return (mkState s' (created_files st ++ [to_string full_path])
                             (skipped_files st))
        | Err _ => Return (mkState s (created_files st) (skipped_files st))
        end
  end.

(** The loop of [_generate_from_structure]: an exception ends it. *)
Fixpoint create_files (generate_content : Path -> string -> string)
    (pf : platform) (st : state) (base_path : Path)
    (files : list (string * string)) : run :=
  match files with
  | [] => Return st
  | (file_path, file_type) :: rest =>
      match _create_file generate_content pf st base_path file_path file_type with
      | Return st' => create_files generate_content pf st' base_path rest
      | Raise e st' => Raise e st'
      end
  end.

(** [ProjectGenerator._generate_from_structure] *)
Definition _generate_from_structure
    (generate_content : Path -> string -> string) (pf : platform)
    (st : state) (structure_file base_path : Path) : run :=
  match parse_structure_file pf (store st) structure_file with
  | Err _ => Return st
  | Ok files => create_files generate_content pf st base_path files
  end.

(** The structure document and the base directory of a project, as
    [_generate_frontend] and [_generate_backend] build them. *)
Definition structure_file_of (project_root : Path) (project : string) : Path :=
  join_str (join_str (join_str project_root project) "docs")
           "PROJECT_STRUCTURE_SIMPLE.md".

Definition base_path_of (project_root : Path) (project : string) : Path :=
  join_str (join_str project_root project) "app".

(** [ProjectGenerator._generate_frontend] *)
Definition _generate_frontend (generate_content : Path -> string -> string)
    (pf : platform) (st : state) (project_root : Path) : run :=
  _generate_from_structure generate_content pf st
    (structure_file_of project_root "frontend")
    (base_path_of project_root "frontend").

(** [ProjectGenerator._generate_backend] *)
Definition _generate_backend (generate_content : Path -> string -> string)
    (pf : platform) (st : state) (project_root : Path) : run :=
  _generate_from_structure generate_content pf st
    (structure_file_of project_root "backend")
    (base_path_of project_root "backend").

(** [ProjectGenerator.generate_project] *)
Definition generate_project (generate_content : Path -> string -> string)
    (pf : platform) (st : state) (project_root : Path)
    (project_type : string) : run :=
  if String.eqb project_type "frontend"
  then _generate_frontend generate_content pf st project_root
  else if String.eqb project_type "backend"
  then _generate_backend generate_content pf st project_root
  else if String.eqb project_type "all" then
    match _generate_frontend generate_content pf st project_root with
    | Return st' => _generate_backend generate_content pf st' project_root
    | Raise e st' => Raise e st'
    end
  else Raise ValueError st.


(** The command line after [parse_args]. *)
Record args := mkArgs {
  arg_backend : bool;
  arg_frontend : bool;
  arg_all : bool;
  arg_project_root : string
}.

Definition project_type_of (a : args) : string :=
  if arg_all a then "all"
  else if arg_frontend a then "frontend"
  else if arg_backend a then "backend"
  else "all".

(** [main], with the content method of the template factory as a
    parameter: the exit status and the state the process leaves. *)
Definition main_with (generate_content : Path -> string -> string)
    (pf : platform) (a : args) (s : gmap (list string) node)
  : nat * state :=
  match generate_project generate_content pf (mkState s [] [])
          (of_string (arg_project_root a)) (project_type_of a) with
  | Return st => (0, st)
  | Raise _ st => (1, st)
  end.

(** [main] *)
Definition main (pf : platform) (a : args) (s : gmap (list string) node)
  : nat * state :=
  main_with TemplateFactory.generate_content pf a s.

End GeneratorV2.

(* ===================================================================== *)
(** * tools/generate_structure.py: the loop of the first generator         *)
(* ===================================================================== *)

Module LegacyDriver.
Import PyStr PathLib FS GeneratorV2.

(** [ProjectStructureGenerator.create_file_structure]; the generator
    keeps the same two lists, and [_get_template_content] is its
    content function. *)
Fixpoint create_file_structure
    (_get_template_content : Path -> string -> string) (pf : platform)
    (st : state) (files : list (string * string)) (base_path : Path) : run :=
  match files with
  | [] => Return st
  | (file_path, file_type) :: rest =>
      let full_path := join_str base_path file_path in
      match mkdir_parents pf (store st) (parent full_path) with
      | Failed e s => Raise e (mkState s (created_files st) (skipped_files st))
      | Done s =>
          if path_exists pf s full_path && (0 <? st_size pf s full_path)
          then create_file_structure _get_template_content pf
                 (mkState s (created_files st)
                    (skipped_files st ++ [to_string full_path]))
                 rest base_path
          else
            let content := _get_template_content full_path file_type in
            match write_text pf s full_path content with
            | Ok s' =>
                create_file_structure _get_template_content pf
                  (mkState s' (created_files st ++ [to_string full_path])
                     (skipped_files st))
                  rest base_path
            | Err _ =>
                create_file_structure _get_template_content pf
                  (mkState s (created_files st) (skipped_files st))
                  rest base_path
            end
      end
  end.

End LegacyDriver.

(* ===================================================================== *)
(** * Vocabulary of the statements                                        *)
(* ===================================================================== *)

(** The wording of the specification where it is compared with the code
    ([spec_file_types], [spec_survives], [spec_parse]), and the
    predicates on paths, stores and runs the statements below use. *)

Module Spec.
Import PyStr PathLib FS.

(** The tags [_determine_file_type] can return. *)
Definition file_types : list string :=
  ["package"; "tsconfig"; "tsconfig_node"; "vite_config"; "jest_config";
   "tailwind_config"; "test"; "component"; "base_service"; "service";
   "hook"; "page"; "base_controller"; "controller"; "base_model"; "model";
   "base_repository"; "repository"; "middleware"; "route"; "migration";
   "generic"].

(** The tag set of the specification's data model, in the code's
    spelling: component, hook, service, baseService, controller,
    baseController, model, repository, middleware, route, migration,
    test, packageManifest, typeConfig, nodeTypeConfig, generic. *)
Definition spec_file_types : list string :=
  ["component"; "hook"; "service"; "base_service"; "controller";
   "base_controller"; "model"; "repository"; "middleware"; "route";
   "migration"; "test"; "package"; "tsconfig"; "tsconfig_node"; "generic"].

(** Some rule of [_determine_file_type] other than the fallback applies
    to the path. *)
Definition rule_matches (file_path : string) : bool :=
  let path_lower := lower file_path in
  let filename := lower (name (of_string file_path)) in
  mem filename ["package.json"; "tsconfig.json"; "tsconfig.node.json";
                "vite.config.ts"; "jest.config.js"; "tailwind.config.js"]
  || contains "/tests/" path_lower || contains ".test." filename
  || contains ".spec." filename
  || (contains "/components/" path_lower && endswith ".tsx" filename)
  || contains "/services/" path_lower || contains "/hooks/" path_lower
  || contains "/pages/" path_lower || contains "/controllers/" path_lower
  || contains "/models/" path_lower || contains "/repositories/" path_lower
  || contains "/middleware/" path_lower || contains "/routes/" path_lower
  || contains ".sql" filename.

(** A surviving line in the words of the specification: after trimming
    it is non-blank, does not begin with a heading marker, contains a
    ['/'] or a ['.'], and does not end with ['/']. *)
Definition spec_survives (line : string) : bool :=
  negb (String.eqb line "") && negb (startswith "#" line)
  && (contains "/" line || contains "." line)
  && negb (endswith "/" line).

(** Line-oriented parsing in the words of the specification: the
    document is split at newline characters and every surviving line
    yields one entry, in order. *)
Definition spec_parse (document : string) : list (string * string) :=
  map (fun line => (line, FileParser._determine_file_type line))
      (filter (fun line => spec_survives line = true)
              (map strip (split nl document))).

(** A line the loop of [parse_structure_file] turns into an entry. *)
Definition survives (line : string) : bool :=
  negb (String.eqb line "") && negb (startswith "#" line)
  && negb (startswith "This document" line)
  && (contains "/" line || contains "." line)
  && negb (endswith "/" line).

(** The last ['/']-separated segment of an entry. *)
Definition filename_of (entry : string) : string :=
  List.last (split "/" entry) "".

(** An entry the block-list of the first generator lets through. *)
Definition legacy_entry_ok (entry : string * string) : Prop :=
  ~ In (filename_of (fst entry)) Legacy.skip_items
  /\ startswith "." (filename_of (fst entry)) = false.

(** The projects a project type stands for, and the projects a run was
    asked to generate. *)
Definition projects_of (project_type : string) : list string :=
  if String.eqb project_type "frontend" then ["frontend"]
  else if String.eqb project_type "backend" then ["backend"]
  else ["frontend"; "backend"].

Definition requested_projects (a : GeneratorV2.args) : list string :=
  projects_of (GeneratorV2.project_type_of a).

(** The structure document of a project is absent. *)
Definition document_absent (pf : platform) (a : GeneratorV2.args)
    (s : gmap (list string) node) (project : string) : bool :=
  negb (path_exists pf s
          (GeneratorV2.structure_file_of
             (of_string (GeneratorV2.arg_project_root a)) project)).

(** The structure document of a project reads the same in two stores:
    the same content, or the same failure. *)
Definition document_fixed (pf : platform) (a : GeneratorV2.args)
    (s s' : gmap (list string) node) (project : string) : Prop :=
  let document :=
    GeneratorV2.structure_file_of
      (of_string (GeneratorV2.arg_project_root a)) project in
  read_text pf s document = read_text pf s' document.


(** Store [s'] extends store [s]: every directory of [s] is a directory
    of [s'], and every file of [s] that has content is the same file in
    [s']. *)
Definition extends (s s' : gmap (list string) node) : Prop :=
  forall loc : list string,
    (node_at s loc = Some Dir -> node_at s' loc = Some Dir)
    /\ (forall content : string,
          content <> "" ->
          node_at s loc = Some (File content) ->
          node_at s' loc = Some (File content)).

(** The ways a call of [_create_file] can return: the state it returns
    and the number of entries it adds to the two lists. *)
Inductive returned (generate_content : Path -> string -> string)
    (pf : platform) (st : GeneratorV2.state) (dest : Path)
    (file_type : string) : GeneratorV2.state -> nat -> Prop :=
| returned_skip s1 :
    mkdir_parents pf (GeneratorV2.store st) (parent dest) = Done s1 ->
    path_exists pf s1 dest && (0 <? st_size pf s1 dest) = true ->
    returned generate_content pf st dest file_type
      (GeneratorV2.mkState s1 (GeneratorV2.created_files st)
         (GeneratorV2.skipped_files st ++ [to_string dest])) 1
| returned_create s1 s2 :
    mkdir_parents pf (GeneratorV2.store st) (parent dest) = Done s1 ->
    path_exists pf s1 dest && (0 <? st_size pf s1 dest) = false ->
    write_text pf s1 dest (generate_content dest file_type) = Ok s2 ->
    returned generate_content pf st dest file_type
      (GeneratorV2.mkState s2 (GeneratorV2.created_files st ++ [to_string dest])
         (GeneratorV2.skipped_files st)) 1
| returned_error s1 e :
    mkdir_parents pf (GeneratorV2.store st) (parent dest) = Done s1 ->
    path_exists pf s1 dest && (0 <? st_size pf s1 dest) = false ->
    write_text pf s1 dest (generate_content dest file_type) = Err e ->
    returned generate_content pf st dest file_type
      (GeneratorV2.mkState s1 (GeneratorV2.created_files st)
         (GeneratorV2.skipped_files st)) 0.

(** The state a run leaves behind, whether it returned or raised. *)
Definition final_state (r : GeneratorV2.run) : GeneratorV2.state :=
  match r with
  | GeneratorV2.Return st => st
  | GeneratorV2.Raise _ st => st
  end.

(** The working directory of the process is a directory. *)
Definition cwd_is_dir (pf : platform) (s : gmap (list string) node) : Prop :=
  node_at s (cwd pf) = Some Dir.

End Spec.

(* ===================================================================== *)
(** * Concrete paths, documents and stores used below                      *)
(* ===================================================================== *)

Module Examples.
Import PyStr PathLib FS.

Definition login_test : Path :=
  of_string "frontend/app/src/tests/unit/components/auth/Login.test.tsx".

Definition base_service : Path :=
  of_string "frontend/app/src/services/BaseService.ts".

Definition user_service : Path :=
  of_string "backend/app/src/services/UserService.ts".

Definition user_controller : Path :=
  of_string "src/controllers/UserController.ts".

(** A Linux platform: the process runs in [/work], an empty directory
    has size 4096. *)
Definition linux : platform := mkPlatform ["work"] 4096.

Definition doc_location (project : string) : list string :=
  ["work"; project; "docs"; "PROJECT_STRUCTURE_SIMPLE.md"].

(** A project root holding only the two structure documents. *)
Definition fresh_root (frontend_doc backend_doc : string)
  : gmap (list string) node :=
  <[doc_location "backend" := File backend_doc]>
  (<[doc_location "frontend" := File frontend_doc]>
  (<[["work"; "backend"; "docs"] := Dir]>
  (<[["work"; "frontend"; "docs"] := Dir]>
  (<[["work"; "backend"] := Dir]>
  (<[["work"; "frontend"] := Dir]>
  (<[["work"] := Dir]> ∅)))))).

(** A project root with nothing in it. *)
Definition empty_root : gmap (list string) node := <[["work"] := Dir]> ∅.

Definition hand_written : string := "export const answer = 42".

(** A project root where [backend/app/index.ts] has been written by
    hand and [backend/app/src] does not exist. *)
Definition root_with_index (frontend_doc backend_doc : string)
  : gmap (list string) node :=
  <[["work"; "backend"; "app"; "index.ts"] := File hand_written]>
  (<[["work"; "backend"; "app"] := Dir]>
  (fresh_root frontend_doc backend_doc)).

(** A project root where [backend/app/src/a.b] is a regular file. *)
Definition root_with_file_in_the_way (backend_doc : string)
  : gmap (list string) node :=
  <[["work"; "backend"; "app"; "src"; "a.b"] := File hand_written]>
  (<[["work"; "backend"; "app"; "src"] := Dir]>
  (<[["work"; "backend"; "app"] := Dir]>
  (fresh_root "src/App.tsx" backend_doc))).

Definition run_all : GeneratorV2.args :=
  GeneratorV2.mkArgs false false true ".".

Definition run_backend : GeneratorV2.args :=
  GeneratorV2.mkArgs true false false ".".

Definition run_frontend : GeneratorV2.args :=
  GeneratorV2.mkArgs false true false ".".

End Examples.

(* ===================================================================== *)
(** * tools/v2/helpers/path_utils.py: names and relative imports           *)
(* ===================================================================== *)

Module PathNames.
Import PyStr PathLib.

(** [s.rstrip(c)] for a one-character argument. *)
Fixpoint rstrip_char (c : ascii) (s : string) : string :=
  match s with
  | EmptyString => EmptyString
  | String d s' =>
      match rstrip_char c s' with
      | EmptyString => if Ascii.eqb d c then EmptyString else String d EmptyString
      | r => String d r
      end
  end.

(** [p.with_suffix('')]: a path without a name raises [ValueError]. *)
Definition with_suffix_empty (p : Path) : FS.result Path :=
  if String.eqb (name p) "" then FS.Err FS.ValueError
  else FS.Ok (mkPath (anchor p) (removelast (names p) ++ [stem p])).

(** [normalize_filename] *)
Definition normalize_filename (filename : string) : string :=
  let clean := replace ".spec" "" (replace ".test" "" filename) in
  let clean := hd "" (split "." clean) in
  join "" (map capitalize (split "_" clean)).

(** [get_import_alias] *)
Definition get_import_alias (file_path : Path) : string :=
  let filename := stem file_path in
  if String.eqb filename "index" then name (parent file_path)
  else normalize_filename filename.

(** [calculate_relative_import]: the [try] block, where only
    [with_suffix] can raise, and the [except] branch. *)
Definition calculate_relative_import (from_path to_path : Path) : string :=
  let from_dir := parent from_path in
  let to_dir := parent to_path in
  let from_parts := parts from_dir in
  let to_parts := parts to_dir in
  match index "src" from_parts, index "src" to_parts with
  | Some src_index_from, Some src_index_to =>
      let from_rel := drop (src_index_from + 1) from_parts in
      let to_rel := drop (src_index_to + 1) to_parts in
      let up_levels := length from_rel in
      let up_path := repeat "../" up_levels in
      let down_path := join "/" to_rel in
      let file_name := stem to_path in
      let result := up_path +:+ down_path +:+ "/" +:+ file_name in
      rstrip_char "/" (replace "//" "/" result)
  | _, _ =>
      match with_suffix_empty to_path with
      | FS.Ok p => replace backslash "/" (to_string p)
      | FS.Err _ => "./" +:+ stem to_path
      end
  end.

End PathNames.

(* ===================================================================== *)
(** * tools/generate_structure.py: placing the files of a tree             *)
(* ===================================================================== *)

Module LegacyPaths.
Import PyStr PathLib.

(** [ProjectStructureGenerator._guess_file_path]; the two context
    arguments are not used by the body. *)
Definition _guess_file_path (all_lines : list string)
    (current_line filename : string) : string :=
  if endswith ".ts" filename || endswith ".tsx" filename then
    if contains "Controller" filename then "src/controllers/" +:+ filename
    else if contains "Service" filename then "src/services/" +:+ filename
    else if contains "Model" filename || contains "Entity" filename
      then "src/models/" +:+ filename
    else if mem filename ["index.ts"; "app.ts"; "server.ts"]
      then "src/" +:+ filename
    else if contains "test" (lower filename) || contains "spec" (lower filename)
      then "tests/" +:+ filename
    else "src/" +:+ filename
  else if String.eqb filename "package.json" then filename
  else if String.eqb filename "tsconfig.json" then filename
  else if String.eqb filename "tsconfig.node.json" then filename
  else filename.

End LegacyPaths.

(* ===================================================================== *)
(** * Vocabulary of the further properties                                *)
(* ===================================================================== *)

Module Names.
Import PyStr PathLib.

(** A plain path component: not empty, not [.], not [..], without a
    ['/']. *)
Definition plain (x : string) : bool :=
  negb (String.eqb x "") && negb (String.eqb x ".")
  && negb (String.eqb x "..") && negb (contains "/" x).

(** A segment: a component without a ['/']. *)
Definition segment (x : string) : Prop :=
  is_component x = true /\ contains "/" x = false.

(** Two nodes of the same kind: two files, or two directories. *)
Definition same_kind (n n' : FS.node) : bool :=
  match n, n' with
  | FS.File _, FS.File _ => true
  | FS.Dir, FS.Dir => true
  | _, _ => false
  end.

(** Every location of [s] is a location of [s'], with a node of the
    same kind. *)
Definition keeps_kinds (s s' : gmap (list string) FS.node) : Prop :=
  forall (loc : list string) (n : FS.node),
    FS.node_at s loc = Some n ->
    exists n', FS.node_at s' loc = Some n' /\ same_kind n n' = true.

(** The structure document of a project can be read, begins with a
    heading after trimming, and does not hold the two characters
    [parse_structure_file] splits at. *)
Definition headed_document (pf : FS.platform) (a : GeneratorV2.args)
    (s : gmap (list string) FS.node) (project : string) : Prop :=
  exists content : string,
    FS.read_text pf s
      (GeneratorV2.structure_file_of
         (of_string (GeneratorV2.arg_project_root a)) project) = FS.Ok content
    /\ startswith "#" (strip content) = true
    /\ contains FileParser.line_separator (strip content) = false.

(** The store an operation leaves, whether it completed or raised. *)
Definition outcome_store (o : FS.outcome) : gmap (list string) FS.node :=
  match o with FS.Done s => s | FS.Failed _ s => s end.

(** Following the segments of a module reference from a directory:
    [..] goes to the parent, a name goes down. *)
Definition follow (directory segments : list string) : list string :=
  fold_left FS.step segments directory.

End Names.

(* ===================================================================== *)
(** * Properties of the string methods                                    *)
(* ===================================================================== *)

#[local] Arguments Ascii.eqb : simpl never.
#[local] Arguments String.eqb : simpl never.

Section StringFacts.
Import PyStr.

Lemma lstrip_head (s : string) :
  lstrip s = EmptyString \/
  exists c r, lstrip s = String c r /\ is_space c = false.
Proof.
  induction s as [|c s IH]; simpl; [now left|].
  destruct (is_space c) eqn:E; [exact IH|].
  right. now exists c, s.
Qed.

Lemma lstrip_fixed (c : ascii) (r : string) :
  is_space c = false -> lstrip (String c r) = String c r.
Proof. intros E. simpl. now rewrite E. Qed.

Lemma rstrip_head (c : ascii) (r : string) :
  is_space c = false -> exists r', rstrip (String c r) = String c r'.
Proof.
  intros E. simpl. destruct (rstrip r); [rewrite E|]; eauto.
Qed.

Lemma rstrip_idempotent (s : string) : rstrip (rstrip s) = rstrip s.
Proof.
  induction s as [|c s IH]; simpl; [reflexivity|].
  destruct (rstrip s) as [|d r] eqn:E.
  - destruct (is_space c) eqn:Ec; simpl; [reflexivity|now rewrite Ec].
  - change (rstrip (String c (String d r))) with
      (match rstrip (String d r) with
       | EmptyString => if is_space c then EmptyString else String c EmptyString
       | String a b => String c (String a b)
       end).
    now rewrite IH.
Qed.

Lemma strip_idempotent (s : string) : strip (strip s) = strip s.
Proof.
  unfold strip.
  destruct (lstrip_head s) as [E|(c & r & E & Hc)]; rewrite E.
  - reflexivity.
  - destruct (rstrip_head c r Hc) as [r' E'].
    rewrite E', (lstrip_fixed c r' Hc), <- E'.
    apply rstrip_idempotent.
Qed.

Lemma startswith_hashes (s : string) :
  startswith "#" s = false ->
  startswith "###" s || startswith "##" s = false.
Proof.
  destruct s as [|c s]; simpl; [reflexivity|].
  destruct (Ascii.eqb "#" c); simpl; intros H; [discriminate H|reflexivity].
Qed.

Lemma mem_In (x : string) (l : list string) : mem x l = true <-> In x l.
Proof.
  unfold mem. rewrite existsb_exists. split.
  - intros (y & Hy & E). apply String.eqb_eq in E. now subst.
  - intros H. exists x. split; [exact H|apply String.eqb_refl].
Qed.


Lemma append_head_nonempty (c : ascii) (s t : string) :
  String c s +:+ t <> EmptyString.
Proof. change (String c (s +:+ t) <> EmptyString). discriminate. Qed.

End StringFacts.

(* ===================================================================== *)
(** * Import-path resolution                                              *)
(* ===================================================================== *)

Section ImportPaths.
Import PyStr PathLib.

Lemma index_app_fresh (x : string) (pre rest : list string) :
  ~ In x pre -> index x (pre ++ x :: rest) = Some (length pre).
Proof.
  induction pre as [|y pre IH]; simpl; intros Hn.
  - now rewrite String.eqb_refl.
  - destruct (String.eqb x y) eqn:E.
    + apply String.eqb_eq in E. subst y. exfalso. apply Hn. now left.
    + rewrite IH; [reflexivity|]. intros H. apply Hn. now right.
Qed.

Lemma slice_to_last_app (pre mid : list string) (x last : string) :
  slice_to_last (length pre + 1) (pre ++ x :: mid ++ [last]) = mid.
Proof.
  unfold slice_to_last.
  replace (length pre + 1) with (length (pre ++ [x])) by (rewrite length_app; reflexivity).
  replace (pre ++ x :: mid ++ [last]) with ((pre ++ [x]) ++ mid ++ [last])
    by (rewrite <- app_assoc; reflexivity).
  rewrite drop_app_length. apply removelast_last.
Qed.

(** The first generator's resolver on a test below [tests/unit/]: the
    [unit] segment is left out of the emitted segments, and the climb
    counts every path part after [tests], [unit] and the file name
    included. *)
Lemma legacy_import_path_under_unit (pre dirs : list string)
    (d file component_name : string) :
  ~ In "tests" pre ->
  Legacy._calculate_test_import_path
    (mkPath "" (pre ++ "tests" :: ("unit" :: d :: dirs) ++ [file])) component_name
  = repeat "../" (length (d :: dirs) + 2) +:+ join "/" (d :: dirs) +:+ "/"
    +:+ component_name.
Proof.
  intros Hpre. unfold Legacy._calculate_test_import_path, parts.
  cbn [anchor names].
  rewrite (index_app_fresh _ _ _ Hpre), slice_to_last_app.
  cbn [String.eqb]. rewrite String.eqb_refl.
  do 3 f_equal. rewrite length_app. cbn [length]. rewrite length_app. cbn [length]. lia.
Qed.

(** C1, counterexample: for the source path
    [frontend/app/src/tests/unit/components/auth/Login.test.tsx] and the
    stem [Login], neither resolver returns
    [../../../components/auth/Login]. *)
Lemma import_path_is_not_three_levels :
  Legacy._calculate_test_import_path Examples.login_test "Login"
    <> "../../../components/auth/Login"
  /\ BaseTemplates.calculate_component_import Examples.login_test "Login"
    <> "../../../components/auth/Login".
Proof. split; vm_compute; discriminate. Qed.

(** C1, amended: for that source path and stem the resolver of the first
    generator returns [../../../../components/auth/Login]: the [unit]
    segment is dropped from the result, and the climb has four [../]
    segments, one for each path part after [tests]. *)
Theorem import_path_drops_unit_and_climbs_four :
  Legacy._calculate_test_import_path Examples.login_test "Login"
    = repeat "../" 4 +:+ "components/auth/Login"
  /\ contains "unit" (Legacy._calculate_test_import_path Examples.login_test "Login")
     = false.
Proof. split; vm_compute; reflexivity. Qed.

(** The resolver of the second generator returns the three-level path
    on the example of its own comment, a test that is not below
    [unit]. *)
Lemma v2_import_path_without_unit :
  BaseTemplates.calculate_component_import
    (of_string "src/tests/components/auth/Login.test.tsx") "Login"
  = "../../../components/auth/Login".
Proof. vm_compute. reflexivity. Qed.

(** The resolver of the second generator has no case for [unit]: the
    segment stays in the result. *)
Lemma v2_import_path_keeps_unit :
  BaseTemplates.calculate_component_import Examples.login_test "Login"
  = "../../../../unit/components/auth/Login".
Proof. vm_compute. reflexivity. Qed.

End ImportPaths.

(* ===================================================================== *)
(** * Classification                                                      *)
(* ===================================================================== *)

Section Classification.
Import PyStr PathLib.

Ltac leftmost_atom b :=
  lazymatch b with
  | orb ?x _ => leftmost_atom x
  | andb ?x _ => leftmost_atom x
  | _ => destruct b
  end.

Lemma determine_file_type_cases (p : string) :
  In (FileParser._determine_file_type p) Spec.file_types
  /\ (Spec.rule_matches p = false <-> FileParser._determine_file_type p = "generic").
Proof.
  unfold FileParser._determine_file_type, Spec.rule_matches, Spec.file_types, mem.
  cbn [existsb].
  repeat (lazymatch goal with
          | |- In (if ?b then _ else _) _ /\ _ => leftmost_atom b
          end; cbn [orb andb]).
  all: split; [cbn [In]; repeat (first [left; reflexivity | right])
              | split; intros H; first [reflexivity | discriminate H]].
Qed.

(** C3, counterexample: [vite.config.ts] gets the tag [vite_config],
    which is not in the tag set of the specification. *)
Lemma classification_leaves_spec_tag_set :
  ~ In (FileParser._determine_file_type "vite.config.ts") Spec.spec_file_types.
Proof. vm_compute. intuition discriminate. Qed.

(** C3, amended: for every path string the classifier returns exactly
    one tag of the closed set [Spec.file_types] (the sixteen tags of the
    specification and [vite_config], [jest_config], [tailwind_config],
    [page], [base_model], [base_repository]); it is a total function, so
    it never raises; it returns [generic] exactly when no rule matches;
    and equal inputs give equal tags. *)
Theorem classification_total_and_deterministic (p : string) :
  In (FileParser._determine_file_type p) Spec.file_types
  /\ (Spec.rule_matches p = false <-> FileParser._determine_file_type p = "generic")
  /\ (forall q : string,
        q = p -> FileParser._determine_file_type q = FileParser._determine_file_type p).
Proof.
  destruct (determine_file_type_cases p) as [Hin Hgen].
  split; [exact Hin|]. split; [exact Hgen|].
  intros q ->. reflexivity.
Qed.

(** The tags outside the specification's set are all reachable. *)
Lemma classification_extra_tags :
  map FileParser._determine_file_type
    ["vite.config.ts"; "jest.config.js"; "tailwind.config.js";
     "src/pages/Home.ts"; "src/models/BaseModel.ts";
     "src/repositories/BaseRepository.ts"]
  = ["vite_config"; "jest_config"; "tailwind_config"; "page"; "base_model";
     "base_repository"].
Proof. vm_compute. reflexivity. Qed.

End Classification.

(* ===================================================================== *)
(** * Template keys and class names                                       *)
(* ===================================================================== *)

Section TemplateSelection.
Import PyStr PathLib.

(** C4, the code at the two paths: for
    [frontend/app/src/services/BaseService.ts] the project type is
    [unknown], because [get_project_type] looks for [/frontend/] with a
    slash on both sides, and the key is the backend base-service key
    whatever the file type; [backend/app/src/services/UserService.ts]
    resolves to the backend service key.  Run from the project root,
    the driver writes the backend base service into the frontend
    tree. *)
Theorem base_service_key_of_relative_frontend_path :
  PathUtils.get_project_type Examples.base_service = "unknown"
  /\ (forall file_type : string,
        TemplateKeys.template_key Examples.base_service file_type
        = "backend_base_service")
  /\ TemplateKeys.template_key Examples.user_service
       (FileParser._determine_file_type "src/services/UserService.ts")
     = "backend_service"
  /\ FS.node_at
       (GeneratorV2.store
          (snd (GeneratorV2.main Examples.linux Examples.run_frontend
                  (Examples.fresh_root "src/services/BaseService.ts" ""))))
       ["work"; "frontend"; "app"; "src"; "services"; "BaseService.ts"]
     = Some (FS.File (Templates.BackendBaseServiceTemplate Examples.base_service)).
Proof.
  split; [vm_compute; reflexivity|].
  split; [intros file_type; vm_compute; reflexivity|].
  split; vm_compute; reflexivity.
Qed.

(** With a directory in front of [frontend] the same file resolves to
    the frontend base-service key. *)
Lemma base_service_key_below_a_root (file_type : string) :
  TemplateKeys.template_key
    (of_string "/work/frontend/app/src/services/BaseService.ts") file_type
  = "frontend_base_service".
Proof. vm_compute. reflexivity. Qed.

(** C8, the code at the entry [src/controllers/UserController.ts]:
    [capitalize] lower-cases what follows the first letter, so the stem
    [UserController] becomes [Usercontroller], and that is the class the
    generated content declares; the name [UserController] does not occur
    in it.  The file the driver writes for the entry has this
    content. *)
Theorem controller_class_name_is_lowercased :
  BaseTemplates.get_class_name_from_filename "UserController" = "Usercontroller"
  /\ TemplateKeys.template_key Examples.user_controller
       (FileParser._determine_file_type "src/controllers/UserController.ts")
     = "controller"
  /\ contains "export class Usercontroller extends BaseController {"
       (TemplateFactory.generate_content Examples.user_controller "controller")
     = true
  /\ contains "UserController"
       (TemplateFactory.generate_content Examples.user_controller "controller")
     = false
  /\ FS.node_at
       (GeneratorV2.store
          (snd (GeneratorV2.main Examples.linux Examples.run_backend
                  (Examples.fresh_root "" "src/controllers/UserController.ts"))))
       ["work"; "backend"; "app"; "src"; "controllers"; "UserController.ts"]
     = Some (FS.File (TemplateFactory.generate_content Examples.user_controller
                        "controller")).
Proof. repeat split; vm_compute; reflexivity. Qed.

(** A stem written with underscores is turned into the capitalized-word
    form. *)
Lemma class_name_of_snake_case :
  BaseTemplates.get_class_name_from_filename "user_controller" = "UserController".
Proof. vm_compute. reflexivity. Qed.

End TemplateSelection.

(* ===================================================================== *)
(** * The two parsers                                                     *)
(* ===================================================================== *)

Section Parsers.
Import PyStr PathLib.

Lemma v2_parse_line_spec (files : list (string * string)) (line : string) :
  FileParser.parse_line files line
  = files ++ (if Spec.survives (strip line)
              then [(strip line, FileParser._determine_file_type (strip line))]
              else []).
Proof.
  unfold FileParser.parse_line, Spec.survives.
  rewrite strip_idempotent.
  destruct (String.eqb (strip line) "") eqn:E1; cbn [orb negb andb];
    [now rewrite app_nil_r|].
  destruct (startswith "#" (strip line)) eqn:E2; cbn [orb negb andb];
    [now rewrite app_nil_r|].
  rewrite (startswith_hashes _ E2).
  destruct (startswith "This document" (strip line)); cbn [orb negb andb];
    [now rewrite app_nil_r|].
  destruct (contains "/" (strip line)); cbn [orb negb andb].
  - destruct (endswith "/" (strip line)); cbn [negb]; [now rewrite app_nil_r|reflexivity].
  - destruct (contains "." (strip line)); cbn [orb negb andb];
      [|now rewrite app_nil_r].
    destruct (endswith "/" (strip line)); cbn [negb]; [now rewrite app_nil_r|reflexivity].
Qed.

Lemma v2_fold_parse_line (lines : list string) (files : list (string * string)) :
  fold_left FileParser.parse_line lines files
  = files ++ map (fun line => (line, FileParser._determine_file_type line))
               (filter (fun line => Spec.survives line = true) (map strip lines)).
Proof.
  revert files. induction lines as [|line lines IH]; intros files; cbn [fold_left map].
  - cbn. now rewrite app_nil_r.
  - rewrite IH, v2_parse_line_spec, filter_cons.
    destruct (Spec.survives (strip line)) eqn:E.
    + rewrite decide_True by reflexivity. cbn [map]. now rewrite <- app_assoc.
    + rewrite decide_False by discriminate. now rewrite app_nil_r.
Qed.

(** A line of prose: the only line of the document
    [This document lists src/a.ts] survives in the sense of
    [Spec.spec_survives], and the parser emits nothing for it. *)
Lemma prose_line_is_discarded :
  Spec.spec_parse "This document lists src/a.ts"
    = [("This document lists src/a.ts", "generic")]
  /\ FileParser.parse_content "This document lists src/a.ts" = [].
Proof. split; vm_compute; reflexivity. Qed.

(** From the lines it is given, the loop of the parser emits exactly
    one entry per line that after trimming is non-blank, does not begin
    with [#], does not begin with [This document], contains a ['/'] or
    a ['.'], and does not end with ['/']; the entries are in the order
    of the lines, and nothing is de-duplicated (the result is a [map]
    over a [filter] of the lines). *)
Theorem parse_lines_emits_surviving_lines_in_order (lines : list string) :
  FileParser.parse_lines lines
  = map (fun line => (line, FileParser._determine_file_type line))
        (filter (fun line => Spec.survives line = true) (map strip lines)).
Proof. unfold FileParser.parse_lines. now rewrite v2_fold_parse_line. Qed.

(** A line listed twice yields two entries. *)
Lemma parse_lines_keeps_duplicates :
  FileParser.parse_lines ["src/a.ts"; "src/b.ts"; "src/a.ts"]
  = [("src/a.ts", "generic"); ("src/b.ts", "generic"); ("src/a.ts", "generic")].
Proof. vm_compute. reflexivity. Qed.

(** C5, the code at the document of the two lines [src/a.ts] and
    [src/b.ts] with a newline character between them: both lines
    survive, and line-oriented parsing in the words of the
    specification yields the two entries in order; the separator
    [parse_structure_file] hands to [split] is a backslash followed by
    [n], so the document is not split, the parser returns one entry
    whose path is the whole document, and a run for the backend creates
    one file of that name and no other. *)
Theorem newline_separated_document_is_one_entry :
  let document := "src/a.ts" +:+ nl +:+ "src/b.ts" in
  let st :=
    snd (GeneratorV2.main Examples.linux Examples.run_backend
           (Examples.fresh_root "" document)) in
  map strip (split nl document) = ["src/a.ts"; "src/b.ts"]
  /\ Forall (fun line => Spec.spec_survives line = true)
            (map strip (split nl document))
  /\ Spec.spec_parse document
     = [("src/a.ts", "generic"); ("src/b.ts", "generic")]
  /\ split FileParser.line_separator (strip document) = [document]
  /\ FileParser.parse_content document = [(document, "generic")]
  /\ GeneratorV2.created_files st = ["backend/app/" +:+ document]
  /\ GeneratorV2.skipped_files st = [].
Proof.
  cbv zeta. split; [vm_compute; reflexivity|]. split.
  - repeat (apply List.Forall_cons; [vm_compute; reflexivity|]).
    apply List.Forall_nil.
  - repeat split; vm_compute; reflexivity.
Qed.

(** The separator handed to [split] is a backslash followed by [n]: a
    document whose lines end in newline characters is not split. *)
Lemma parse_content_does_not_split_at_newlines :
  FileParser.parse_content ("src/a.ts" +:+ nl +:+ "src/b.ts")
    = [("src/a.ts" +:+ nl +:+ "src/b.ts", "generic")]
  /\ FileParser.parse_content ("src/a.ts" +:+ backslash +:+ "nsrc/b.ts")
    = [("src/a.ts", "generic"); ("src/b.ts", "generic")].
Proof. split; vm_compute; reflexivity. Qed.

(** C7, counterexample: the parser of the second generator emits the
    line [README.md], a block-listed file name. *)
Lemma structure_parser_emits_readme :
  In "README.md" Legacy.skip_items
  /\ FileParser.parse_content "README.md" = [("README.md", "generic")].
Proof. split; [now left|vm_compute; reflexivity]. Qed.

Lemma legacy_parse_line_ok (st : Legacy.parse_state) (line : string) :
  Forall Spec.legacy_entry_ok (Legacy.files st) ->
  Forall Spec.legacy_entry_ok (Legacy.files (Legacy.parse_line st line)).
Proof.
  intros Hst. unfold Legacy.parse_line.
  repeat lazymatch goal with
         | |- Forall _ (Legacy.files (if ?b then _ else _)) => destruct b eqn:?
         end;
    cbn [Legacy.files]; try exact Hst.
  apply Forall_app. split; [exact Hst|]. constructor; [|constructor].
  unfold Spec.legacy_entry_ok, Spec.filename_of. cbn [fst].
  match goal with
  | H : mem _ Legacy.skip_items = false |- _ =>
      split; [rewrite <- mem_In, H; discriminate|]
  end.
  match goal with
  | H : _ && negb (startswith "." _) = true |- _ =>
      apply andb_true_iff in H; destruct H as [_ H];
      apply negb_true_iff in H; exact H
  end.
Qed.

Lemma legacy_fold_ok (lines : list string) (st : Legacy.parse_state) :
  Forall Spec.legacy_entry_ok (Legacy.files st) ->
  Forall Spec.legacy_entry_ok (Legacy.files (fold_left Legacy.parse_line lines st)).
Proof.
  revert st. induction lines as [|line lines IH]; intros st Hst; cbn [fold_left].
  - exact Hst.
  - apply IH, legacy_parse_line_ok, Hst.
Qed.

(** C7, amended: the line-list parser of the first generator
    ([_parse_simple_format]) never emits an entry whose file name is on
    the block-list ([README.md], [package-lock.json], [.env],
    [.env.example], [.gitignore], [.eslintrc.js], [.prettierrc]), nor
    one whose file name begins with a dot, wherever the line stands in
    the document. *)
Theorem simple_format_never_emits_blocked_file
    (content path file_type : string) :
  In (path, file_type) (Legacy._parse_simple_format content) ->
  ~ In (Spec.filename_of path) Legacy.skip_items
  /\ startswith "." (Spec.filename_of path) = false.
Proof.
  intros Hin.
  assert (H : Forall Spec.legacy_entry_ok (Legacy._parse_simple_format content)).
  { apply legacy_fold_ok. constructor. }
  rewrite Forall_forall in H. apply list_elem_of_In in Hin. exact (H _ Hin).
Qed.

End Parsers.

(* ===================================================================== *)
(** * The file system: resolution, mkdir and write                         *)
(* ===================================================================== *)

Section FileSystemFacts.
Import PyStr PathLib FS.
Implicit Types (s : gmap (list string) node) (pf : platform) (p : Path).

Lemma node_at_insert_ne s (loc loc' : list string) (n : node) :
  loc <> loc' -> node_at (<[loc := n]> s) loc' = node_at s loc'.
Proof.
  intros Hne. destruct loc' as [|c l]; [reflexivity|].
  cbn [node_at]. now apply lookup_insert_ne.
Qed.

Lemma node_at_insert_eq s (loc : list string) (n : node) :
  loc <> [] -> node_at (<[loc := n]> s) loc = Some n.
Proof.
  intros Hne. destruct loc as [|c l]; [congruence|].
  cbn [node_at]. apply lookup_insert_eq.
Qed.

Lemma extends_refl s : Spec.extends s s.
Proof. intros loc. split; auto. Qed.

Lemma extends_trans s1 s2 s3 :
  Spec.extends s1 s2 -> Spec.extends s2 s3 -> Spec.extends s1 s3.
Proof.
  intros H12 H23 loc. destruct (H12 loc) as [Hd Hf], (H23 loc) as [Hd' Hf'].
  split; auto.
Qed.

Lemma extends_insert_dir s (loc : list string) :
  node_at s loc = None -> Spec.extends s (<[loc := Dir]> s).
Proof.
  intros Hnone loc'. destruct (decide (loc = loc')) as [<-|Hne].
  - rewrite Hnone. split; [discriminate|intros; discriminate].
  - rewrite (node_at_insert_ne _ _ _ _ Hne). split; auto.
Qed.

Lemma extends_insert_file s (loc : list string) (content : string) :
  node_at s loc <> Some Dir ->
  (forall c, node_at s loc = Some (File c) -> c = "") ->
  Spec.extends s (<[loc := File content]> s).
Proof.
  intros Hnd Hempty loc'. destruct (decide (loc = loc')) as [<-|Hne].
  - split; [intros H; contradiction|].
    intros c Hc H. apply Hempty in H. contradiction.
  - rewrite (node_at_insert_ne _ _ _ _ Hne). split; auto.
Qed.

Lemma walk_extends s s' (ns cur loc : list string) :
  Spec.extends s s' -> walk s cur ns = Ok loc -> walk s' cur ns = Ok loc.
Proof.
  intros Hext. revert cur. induction ns as [|c ns IH]; intros cur; cbn [walk].
  - auto.
  - destruct (node_at s cur) as [[content|]|] eqn:E; try discriminate.
    rewrite (proj1 (Hext cur) E). apply IH.
Qed.

Lemma walk_snoc s (ns cur : list string) (c : string) :
  walk s cur (ns ++ [c])
  = match walk s cur ns with
    | Ok loc =>
        match node_at s loc with
        | Some Dir => Ok (step loc c)
        | Some (File _) => Err NotADirectoryError
        | None => Err FileNotFoundError
        end
    | Err e => Err e
    end.
Proof.
  revert cur. induction ns as [|d ns IH]; intros cur; cbn [walk app].
  - destruct (node_at s cur) as [[content|]|]; reflexivity.
  - destruct (node_at s cur) as [[content|]|]; auto.
Qed.

Lemma resolve_walk pf s p (loc : list string) :
  resolve pf s p = Ok loc
  <-> embedded_null p = false /\ walk s (start pf p) (names p) = Ok loc.
Proof.
  unfold resolve. destruct (embedded_null p); split;
    try discriminate; try tauto.
  intros [H _]. discriminate H.
Qed.

Lemma resolve_extends pf s s' p (loc : list string) :
  Spec.extends s s' -> resolve pf s p = Ok loc -> resolve pf s' p = Ok loc.
Proof.
  intros Hext H. apply resolve_walk in H. destruct H as [Hnull Hwalk].
  apply resolve_walk. split; [exact Hnull|].
  eapply walk_extends; eassumption.
Qed.

Lemma stat_dir_extends pf s s' p :
  Spec.extends s s' -> stat pf s p = Ok Dir -> stat pf s' p = Ok Dir.
Proof.
  intros Hext. unfold stat.
  destruct (resolve pf s p) as [loc|e] eqn:E; [|discriminate].
  rewrite (resolve_extends _ _ _ _ _ Hext E).
  destruct (node_at s loc) as [[content|]|] eqn:En; try discriminate.
  now rewrite (proj1 (Hext loc) En).
Qed.

Lemma stat_file_extends pf s s' p (content : string) :
  Spec.extends s s' -> content <> "" ->
  stat pf s p = Ok (File content) -> stat pf s' p = Ok (File content).
Proof.
  intros Hext Hc. unfold stat.
  destruct (resolve pf s p) as [loc|e] eqn:E; [|discriminate].
  rewrite (resolve_extends _ _ _ _ _ Hext E).
  destruct (node_at s loc) as [[c|]|] eqn:En; try discriminate.
  intros [= ->]. now rewrite (proj2 (Hext loc) _ Hc En).
Qed.

Lemma is_dir_stat pf s p : is_dir pf s p = true <-> stat pf s p = Ok Dir.
Proof.
  unfold is_dir. destruct (stat pf s p) as [[c|]|e]; split; congruence.
Qed.

Lemma is_dir_extends pf s s' p :
  Spec.extends s s' -> is_dir pf s p = true -> is_dir pf s' p = true.
Proof. rewrite !is_dir_stat. apply stat_dir_extends. Qed.

Lemma length_zero_empty (c : string) : (0 <? String.length c) = false -> c = "".
Proof. destruct c; [reflexivity|discriminate]. Qed.



(** [os.mkdir]: a successful call adds one directory. *)
Lemma os_mkdir_ok pf s s' p :
  os_mkdir pf s p = Ok s' -> Spec.extends s s' /\ is_dir pf s' p = true.
Proof.
  unfold os_mkdir.
  destruct (resolve pf s p) as [loc|e] eqn:E; [|discriminate].
  destruct (node_at s loc) as [n|] eqn:En; [discriminate|].
  intros [= <-].
  assert (Hext : Spec.extends s (<[loc := Dir]> s)) by now apply extends_insert_dir.
  split; [exact Hext|].
  apply is_dir_stat. unfold stat.
  rewrite (resolve_extends _ _ _ _ _ Hext E), node_at_insert_eq; [reflexivity|].
  intros ->. discriminate.
Qed.

Lemma mkdir_exist_ok_ok pf s s' p :
  mkdir_exist_ok pf s p = Ok s' -> Spec.extends s s' /\ is_dir pf s' p = true.
Proof.
  unfold mkdir_exist_ok.
  destruct (os_mkdir pf s p) as [s0|e] eqn:E.
  - intros [= <-]. now apply os_mkdir_ok.
  - destruct e; try discriminate;
      (destruct (is_dir pf s p) eqn:Ed; [|discriminate]);
      intros [= <-]; split; auto using extends_refl.
Qed.

Lemma mkdir_parents_rev_done pf (a : string) (rnames : list string) s s' :
  mkdir_parents_rev pf s a rnames = Done s' ->
  Spec.extends s s' /\ is_dir pf s' (mkPath a (List.rev rnames)) = true.
Proof.
  revert s s'. induction rnames as [|c rparent IH]; intros s s';
    cbn [mkdir_parents_rev].
  - destruct (os_mkdir pf s (mkPath a (List.rev []))) as [s0|e] eqn:E.
    + intros [= <-]. now apply os_mkdir_ok.
    + destruct e; try discriminate;
        (destruct (is_dir pf s (mkPath a (List.rev []))) eqn:Ed; [|discriminate]);
        intros [= <-]; split; auto using extends_refl.
  - destruct (os_mkdir pf s (mkPath a (List.rev (c :: rparent)))) as [s0|e] eqn:E.
    + intros [= <-]. now apply os_mkdir_ok.
    + destruct e;
        try ((destruct (is_dir pf s (mkPath a (List.rev (c :: rparent)))) eqn:Ed;
              [|discriminate]);
             intros [= <-]; split; auto using extends_refl).
      destruct (mkdir_parents_rev pf s a rparent) as [s1|e1 s1] eqn:Ep;
        [|discriminate].
      destruct (mkdir_exist_ok pf s1 (mkPath a (List.rev (c :: rparent)))) as [s2|e2] eqn:Em;
        [|discriminate].
      intros [= <-].
      destruct (IH _ _ Ep) as [Hext1 _].
      destruct (mkdir_exist_ok_ok _ _ _ _ Em) as [Hext2 Hdir].
      split; [eapply extends_trans; eassumption|exact Hdir].
Qed.

Lemma mkdir_parents_done pf s s' p :
  mkdir_parents pf s p = Done s' ->
  Spec.extends s s' /\ is_dir pf s' p = true.
Proof.
  unfold mkdir_parents. intros H.
  apply mkdir_parents_rev_done in H. rewrite rev_involutive in H.
  destruct p as [a ns]. exact H.
Qed.

Lemma mkdir_parents_rev_existing pf s (a : string) (rnames : list string) :
  is_dir pf s (mkPath a (List.rev rnames)) = true ->
  mkdir_parents_rev pf s a rnames = Done s.
Proof.
  intros Hdir.
  assert (Hmk : os_mkdir pf s (mkPath a (List.rev rnames)) = Err FileExistsError).
  { apply is_dir_stat in Hdir. unfold stat in Hdir. unfold os_mkdir.
    destruct (resolve pf s (mkPath a (List.rev rnames))) as [loc|e]; [|discriminate].
    destruct (node_at s loc); [reflexivity|discriminate]. }
  destruct rnames as [|c rparent]; cbn [mkdir_parents_rev];
    rewrite Hmk, Hdir; reflexivity.
Qed.

(** [mkdir(parents=True, exist_ok=True)] on a directory that exists
    changes nothing. *)
Lemma mkdir_parents_existing pf s p :
  is_dir pf s p = true -> mkdir_parents pf s p = Done s.
Proof.
  intros Hdir. unfold mkdir_parents. apply mkdir_parents_rev_existing.
  rewrite rev_involutive. now destruct p.
Qed.

(** The character 0 in a prefix of the names is in the names. *)
Lemma embedded_null_snoc (a : string) (ns : list string) (c : string) :
  embedded_null (mkPath a (ns ++ [c]))
  = embedded_null (mkPath a ns) || has_null c.
Proof.
  unfold embedded_null. cbn [anchor names existsb].
  rewrite existsb_app. cbn [existsb]. now rewrite orb_false_r, orb_assoc.
Qed.

Lemma embedded_null_parent p :
  embedded_null p = false -> embedded_null (parent p) = false.
Proof.
  unfold parent. destruct p as [a ns]. cbn [anchor names].
  destruct ns as [|c ns _] using rev_ind; [auto|].
  rewrite removelast_last, embedded_null_snoc. intros H.
  now apply orb_false_iff in H.
Qed.

(** Whatever exists lies in a directory. *)
Lemma parent_of_existing_is_dir pf s p (n : node) :
  Spec.cwd_is_dir pf s -> stat pf s p = Ok n -> is_dir pf s (parent p) = true.
Proof.
  intros Hcwd Hstat. apply is_dir_stat.
  unfold stat in *.
  destruct (resolve pf s p) as [loc0|e0] eqn:Eres; [|discriminate].
  apply resolve_walk in Eres. destruct Eres as [Hnull Hwalk].
  unfold resolve. rewrite (embedded_null_parent _ Hnull).
  unfold parent in *. cbn [anchor names].
  change (start pf (mkPath (anchor p) (removelast (names p)))) with (start pf p).
  destruct (names p) as [|c ns] eqn:En using rev_ind.
  - cbn [removelast walk] in *.
    unfold start. destruct (anchor p); [now rewrite Hcwd|reflexivity].
  - clear IHns. rewrite removelast_last. rewrite walk_snoc in Hwalk.
    destruct (walk s (start pf p) ns) as [loc|e]; [|discriminate].
    destruct (node_at s loc) as [[content|]|]; try discriminate. reflexivity.
Qed.

(** Below an existing parent directory, a path without the character 0
    resolves. *)
Lemma resolve_below_dir pf s p :
  embedded_null p = false ->
  is_dir pf s (parent p) = true -> exists loc, resolve pf s p = Ok loc.
Proof.
  intros Hnull Hdir. apply is_dir_stat in Hdir. unfold stat in Hdir.
  destruct (resolve pf s (parent p)) as [loc0|e0] eqn:Eres; [|discriminate].
  apply resolve_walk in Eres. destruct Eres as [_ Hwalk].
  unfold resolve. rewrite Hnull.
  unfold parent in *. cbn [anchor names] in *.
  change (start pf (mkPath (anchor p) (removelast (names p)))) with (start pf p)
    in Hwalk.
  destruct (names p) as [|c ns] eqn:En using rev_ind.
  - cbn [walk]. eauto.
  - clear IHns. rewrite removelast_last in Hwalk. rewrite walk_snoc, Hwalk.
    destruct (node_at s loc0) as [[content|]|]; try discriminate. eauto.
Qed.

(** A path that holds the character 0 is refused. *)
Lemma resolve_null pf s p :
  embedded_null p = true -> resolve pf s p = Err ValueError.
Proof. intros H. unfold resolve. now rewrite H. Qed.

End FileSystemFacts.

(* ===================================================================== *)
(** * The driver: one entry                                               *)
(* ===================================================================== *)

Section CreateFile.
Import PyStr PathLib FS GeneratorV2.
Implicit Types (s : gmap (list string) node) (pf : platform) (p : Path).
Implicit Types (st : state).

Variable generate_content : Path -> string -> string.

Lemma occupied_spec pf s p :
  path_exists pf s p && (0 <? st_size pf s p) = true
  <-> exists n, stat pf s p = Ok n /\ 0 < node_size pf n.
Proof.
  unfold path_exists, st_size. destruct (stat pf s p) as [n|e]; cbn [andb].
  - rewrite Nat.ltb_lt. split; [eauto|]. now intros (n' & [= <-] & H).
  - split; [discriminate|]. now intros (n' & [=] & _).
Qed.

Lemma write_text_ok pf s s' p (content : string) :
  path_exists pf s p && (0 <? st_size pf s p) = false ->
  write_text pf s p content = Ok s' ->
  Spec.extends s s' /\ stat pf s' p = Ok (File content).
Proof.
  unfold write_text, path_exists, st_size, stat.
  destruct (resolve pf s p) as [loc|e] eqn:E; [|discriminate].
  intros Hfree Hw.
  assert (Hnd : node_at s loc <> Some Dir)
    by (destruct (node_at s loc) as [[c|]|]; congruence).
  assert (Hloc : loc <> []) by (intros ->; now apply Hnd).
  assert (Hs' : s' = <[loc := File content]> s)
    by (destruct (node_at s loc) as [[c|]|]; congruence).
  subst s'.
  assert (Hext : Spec.extends s (<[loc := File content]> s)).
  { apply extends_insert_file; [exact Hnd|].
    intros c Hc. rewrite Hc in Hfree. cbn in Hfree. now apply length_zero_empty. }
  split; [exact Hext|].
  rewrite (resolve_extends _ _ _ _ _ Hext E).
  now rewrite node_at_insert_eq.
Qed.


Lemma create_file_returned pf st st' (base_path : Path)
    (relative_path file_type : string) :
  _create_file generate_content pf st base_path relative_path file_type
    = Return st' ->
  exists k, Spec.returned generate_content pf st (join_str base_path relative_path) file_type st' k.
Proof.
  unfold _create_file. cbv zeta.
  destruct (mkdir_parents pf (store st) (parent (join_str base_path relative_path)))
    as [s1|e s1] eqn:Em; [|discriminate].
  destruct (path_exists pf s1 (join_str base_path relative_path)
            && (0 <? st_size pf s1 (join_str base_path relative_path))) eqn:Eo.
  - intros [= <-]. eexists. now eapply Spec.returned_skip.
  - destruct (write_text pf s1 (join_str base_path relative_path)
                (generate_content (join_str base_path relative_path) file_type))
      as [s2|e] eqn:Ew; intros [= <-]; eexists.
    + eapply Spec.returned_create; eassumption.
    + eapply Spec.returned_error; eassumption.
Qed.


Lemma returned_extends pf st dest (file_type : string) st' (k : nat) :
  Spec.returned generate_content pf st dest file_type st' k ->
  Spec.extends (store st) (store st')
  /\ is_dir pf (store st') (parent dest) = true.
Proof.
  intros H. destruct H as [s1 Hm Ho|s1 s2 Hm Ho Hw|s1 e Hm Ho Hw];
    cbn [store]; destruct (mkdir_parents_done _ _ _ _ Hm) as [Hext Hdir];
    try (split; assumption).
  destruct (write_text_ok _ _ _ _ _ Ho Hw) as [Hext2 _].
  split; [eapply extends_trans; eassumption|].
  eapply is_dir_extends; eassumption.
Qed.

Hypothesis content_nonempty :
  forall (p : Path) (file_type : string), generate_content p file_type <> "".



Lemma create_file_extends pf st st' (base_path : Path)
    (relative_path file_type : string) :
  _create_file generate_content pf st base_path relative_path file_type
    = Return st' ->
  Spec.extends (store st) (store st').
Proof.
  intros Hrun. destruct (create_file_returned _ _ _ _ _ _ Hrun) as [k Hret].
  now destruct (returned_extends _ _ _ _ _ _ Hret).
Qed.

End CreateFile.

(* ===================================================================== *)
(** * The driver: a whole run                                              *)
(* ===================================================================== *)

Section Run.
Import PyStr PathLib FS GeneratorV2.
Implicit Types (s : gmap (list string) node) (pf : platform) (p : Path).
Implicit Types (st : state).

Variable generate_content : Path -> string -> string.

Lemma mkdir_parents_rev_failed pf (a : string) (rnames : list string) s s'
    (e : exn) :
  mkdir_parents_rev pf s a rnames = Failed e s' -> Spec.extends s s'.
Proof.
  revert s s' e. induction rnames as [|c rparent IH]; intros s s' e;
    cbn [mkdir_parents_rev].
  - destruct (os_mkdir pf s (mkPath a (List.rev []))) as [s0|e0]; [discriminate|].
    destruct e0; try (destruct (is_dir pf s (mkPath a (List.rev []))));
      intros [= _ <-] || discriminate; apply extends_refl.
  - destruct (os_mkdir pf s (mkPath a (List.rev (c :: rparent)))) as [s0|e0];
      [discriminate|].
    destruct e0;
      try (destruct (is_dir pf s (mkPath a (List.rev (c :: rparent))));
           (intros [= _ <-] || discriminate); apply extends_refl).
    destruct (mkdir_parents_rev pf s a rparent) as [s1|e1 s1] eqn:Ep.
    + destruct (mkdir_exist_ok pf s1 (mkPath a (List.rev (c :: rparent))));
        [discriminate|].
      intros [= _ <-]. now destruct (mkdir_parents_rev_done _ _ _ _ _ Ep).
    + intros [= _ <-]. eapply IH, Ep.
Qed.

Lemma create_file_final_extends pf st (base_path : Path)
    (relative_path file_type : string) :
  Spec.extends (store st)
    (store (Spec.final_state
       (_create_file generate_content pf st base_path relative_path file_type))).
Proof.
  destruct (_create_file generate_content pf st base_path relative_path file_type)
    as [st'|e st'] eqn:E; cbn [Spec.final_state].
  - eapply create_file_extends, E.
  - unfold _create_file in E. cbv zeta in E.
    destruct (mkdir_parents pf (store st) (parent (join_str base_path relative_path)))
      as [s1|e1 s1] eqn:Em.
    + destruct (path_exists pf s1 (join_str base_path relative_path)
                && (0 <? st_size pf s1 (join_str base_path relative_path)));
        [discriminate|].
      destruct (write_text pf s1 (join_str base_path relative_path)
                  (generate_content (join_str base_path relative_path) file_type));
        discriminate.
    + injection E as _ <-. cbn [store].
      unfold mkdir_parents in Em. eapply mkdir_parents_rev_failed, Em.
Qed.

Lemma create_files_final_extends pf (base_path : Path)
    (files : list (string * string)) st :
  Spec.extends (store st)
    (store (Spec.final_state (create_files generate_content pf st base_path files))).
Proof.
  revert st. induction files as [|[file_path file_type] rest IH]; intros st;
    cbn [create_files].
  - apply extends_refl.
  - pose proof (create_file_final_extends pf st base_path file_path file_type) as H1.
    destruct (_create_file generate_content pf st base_path file_path file_type)
      as [st1|e st1]; cbn [Spec.final_state] in *.
    + eapply extends_trans; [exact H1|apply IH].
    + exact H1.
Qed.

Lemma generate_from_structure_final_extends pf st (structure_file base_path : Path) :
  Spec.extends (store st)
    (store (Spec.final_state
       (_generate_from_structure generate_content pf st structure_file base_path))).
Proof.
  unfold _generate_from_structure.
  destruct (parse_structure_file pf (store st) structure_file) as [files|e].
  - apply create_files_final_extends.
  - apply extends_refl.
Qed.

Lemma generate_project_final_extends pf st (project_root : Path)
    (project_type : string) :
  Spec.extends (store st)
    (store (Spec.final_state
       (generate_project generate_content pf st project_root project_type))).
Proof.
  unfold generate_project, _generate_frontend, _generate_backend.
  repeat lazymatch goal with
         | |- context [if String.eqb project_type ?x then _ else _] =>
             destruct (String.eqb project_type x)
         end;
    try apply generate_from_structure_final_extends;
    [|apply extends_refl].
  pose proof (generate_from_structure_final_extends pf st
                (structure_file_of project_root "frontend")
                (base_path_of project_root "frontend")) as H1.
  destruct (_generate_from_structure generate_content pf st
              (structure_file_of project_root "frontend")
              (base_path_of project_root "frontend")) as [st1|e st1];
    cbn [Spec.final_state] in *; [|exact H1].
  eapply extends_trans; [exact H1|apply generate_from_structure_final_extends].
Qed.

(** A run, whether it completes or raises, leaves every file that has
    content as it found it. *)
Lemma main_keeps_files_with_content pf (a : args) s :
  Spec.extends s (store (snd (main_with generate_content pf a s))).
Proof.
  unfold main_with.
  pose proof (generate_project_final_extends pf (mkState s [] [])
                (of_string (arg_project_root a)) (project_type_of a)) as H.
  destruct (generate_project generate_content pf (mkState s [] [])
              (of_string (arg_project_root a)) (project_type_of a));
    exact H.
Qed.

(** The loop of the first generator is the loop of the second one. *)
Lemma legacy_loop_is_the_same_loop pf st (files : list (string * string))
    (base_path : Path) :
  LegacyDriver.create_file_structure generate_content pf st files base_path
  = create_files generate_content pf st base_path files.
Proof.
  revert st. induction files as [|[file_path file_type] rest IH]; intros st;
    cbn [LegacyDriver.create_file_structure create_files]; [reflexivity|].
  unfold _create_file. cbv zeta.
  destruct (mkdir_parents pf (store st) (parent (join_str base_path file_path)))
    as [s1|e s1]; [|reflexivity].
  destruct (path_exists pf s1 (join_str base_path file_path)
            && (0 <? st_size pf s1 (join_str base_path file_path)));
    [apply IH|].
  destruct (write_text pf s1 (join_str base_path file_path)
              (generate_content (join_str base_path file_path) file_type));
    apply IH.
Qed.

Hypothesis content_nonempty :
  forall (p : Path) (file_type : string), generate_content p file_type <> "".


Lemma read_text_extends pf s s' p (content : string) :
  Spec.extends s s' -> content <> "" ->
  read_text pf s p = Ok content -> read_text pf s' p = Ok content.
Proof.
  intros Hext Hc. unfold read_text.
  destruct (stat pf s p) as [[c|]|e] eqn:E; try discriminate.
  intros [= ->]. now rewrite (stat_file_extends _ _ _ _ _ Hext Hc E).
Qed.

End Run.

(* ===================================================================== *)
(** * Generated content is never empty                                     *)
(* ===================================================================== *)

Section TemplateContent.
Import PyStr PathLib Templates TemplateFactory.

Lemma text_cons_nonempty (first : string) (rest : list string) :
  first <> "" -> text (first :: rest) <> "".
Proof.
  intros Hf. unfold text. destruct first as [|c f]; [contradiction|].
  destruct rest; cbn [join]; [discriminate|apply append_head_nonempty].
Qed.

Ltac nonempty_body :=
  cbv beta delta
    [ReactComponentTemplate ReactTestTemplate ReactHookTemplate ServiceTemplate
     BaseServiceTemplate ControllerTemplate BaseControllerTemplate
     BackendServiceTemplate BackendBaseServiceTemplate ModelTemplate
     RepositoryTemplate PackageJsonTemplate TSConfigTemplate
     TSConfigNodeTemplate BackendTestTemplate IntegrationTestTemplate
     E2ETestTemplate PerformanceTestTemplate UtilityTemplate
     TypeDefinitionTemplate ConstantsTemplate IndexTemplate MiddlewareTemplate
     RouteTemplate _generate_frontend_package _generate_backend_package
     _generate_frontend_tsconfig _generate_backend_tsconfig
     _generate_frontend_integration_test _generate_backend_integration_test
     _generate_generic_template generic_ts generic_tsx generic_json
     generic_css generic_sql generic_other];
  cbv zeta beta;
  repeat lazymatch goal with
         | |- (if ?b then _ else _) <> _ => destruct b
         end;
  apply text_cons_nonempty; first [discriminate | apply append_head_nonempty].

Lemma registered_templates_nonempty :
  Forall (fun entry : string * (Path -> string) =>
            forall p : Path, snd entry p <> "") registered.
Proof.
  unfold registered.
  repeat (apply List.Forall_cons; [cbn [snd]; intros p; nonempty_body|]).
  apply List.Forall_nil.
Qed.

Lemma generic_template_nonempty (p : Path) (file_type : string) :
  _generate_generic_template p file_type <> "".
Proof. nonempty_body. Qed.

(** Whatever the path and the file type, the factory produces
    non-empty content. *)
Lemma generate_content_nonempty (p : Path) (file_type : string) :
  generate_content p file_type <> "".
Proof.
  unfold generate_content, get_template, templates.
  destruct (list_to_map registered !! TemplateKeys.template_key p file_type)
    as [template|] eqn:E.
  - apply elem_of_list_to_map_2 in E.
    pose proof registered_templates_nonempty as H.
    rewrite Forall_forall in H. exact (H _ E p).
  - apply generic_template_nonempty.
Qed.

End TemplateContent.

(* ===================================================================== *)
(** * The driver: no clobbering, directories, exit status, idempotence     *)
(* ===================================================================== *)

Section Driver.
Import PyStr PathLib FS GeneratorV2.
Implicit Types (s : gmap (list string) node) (pf : platform) (p : Path).
Implicit Types (st : state).

(** C2: when the destination of an entry exists with a size greater
    than zero, [_create_file] returns with the path appended to the
    skipped list, the created list and the store as they were, whatever
    the content generator is (nothing is rendered, nothing is written);
    and over a whole run, completed or not, every file that had content
    keeps it. *)
Theorem existing_file_is_skipped_and_kept :
  (forall (generate_content : Path -> string -> string) pf st
          (base_path : Path) (relative_path file_type : string) (n : node),
      Spec.cwd_is_dir pf (store st) ->
      stat pf (store st) (join_str base_path relative_path) = Ok n ->
      0 < node_size pf n ->
      _create_file generate_content pf st base_path relative_path file_type
      = Return (mkState (store st) (created_files st)
                  (skipped_files st
                   ++ [to_string (join_str base_path relative_path)])))
  /\ (forall (generate_content : Path -> string -> string) pf (a : args) s
             (loc : list string) (content : string),
        content <> "" ->
        node_at s loc = Some (File content) ->
        node_at (store (snd (main_with generate_content pf a s))) loc
        = Some (File content)).
Proof.
  split.
  - intros generate_content pf st base_path relative_path file_type n
      Hcwd Hstat Hsize.
    unfold _create_file. cbv zeta.
    rewrite (mkdir_parents_existing _ _ _
               (parent_of_existing_is_dir _ _ _ _ Hcwd Hstat)).
    rewrite (proj2 (occupied_spec _ _ _)) by eauto.
    reflexivity.
  - intros generate_content pf a s loc content Hc Hloc.
    exact (proj2 (main_keeps_files_with_content generate_content pf a s loc)
             content Hc Hloc).
Qed.

(** C10: when [_create_file] returns, the parent of the destination is
    a directory, also when the entry was skipped; and there is a run
    that skips its only entry, creates no file, and still changes the
    file system: with [backend/app/index.ts] written by hand and the
    entry [src/../index.ts], the run creates the directory
    [backend/app/src]. *)
Theorem parent_directories_are_created_before_the_skip :
  (forall (generate_content : Path -> string -> string) pf st st'
          (base_path : Path) (relative_path file_type : string),
      _create_file generate_content pf st base_path relative_path file_type
      = Return st' ->
      is_dir pf (store st') (parent (join_str base_path relative_path)) = true)
  /\ (let s := Examples.root_with_index "" "src/../index.ts" in
      let st := snd (main Examples.linux Examples.run_backend s) in
      fst (main Examples.linux Examples.run_backend s) = 0
      /\ created_files st = []
      /\ skipped_files st = ["backend/app/src/../index.ts"]
      /\ node_at s ["work"; "backend"; "app"; "src"] = None
      /\ store st = <[["work"; "backend"; "app"; "src"] := Dir]> s
      /\ store st <> s).
Proof.
  split.
  - intros generate_content pf st st' base_path relative_path file_type Hrun.
    destruct (create_file_returned _ _ _ _ _ _ _ Hrun) as [k Hret].
    now destruct (returned_extends _ _ _ _ _ _ _ Hret).
  - cbv zeta. repeat split; try (vm_compute; reflexivity).
    intros H.
    apply (f_equal (fun m => m !! ["work"; "backend"; "app"; "src"])) in H.
    vm_compute in H. discriminate H.
Qed.

Lemma generate_from_structure_absent
    (generate_content : Path -> string -> string) pf st
    (structure_file base_path : Path) :
  path_exists pf (store st) structure_file = false ->
  _generate_from_structure generate_content pf st structure_file base_path
  = Return st.
Proof.
  intros H. unfold _generate_from_structure, parse_structure_file.
  now rewrite H.
Qed.

(** C9, counterexample: in an empty project root the structure document
    is absent for both requested projects, and the process exits 0. *)
Lemma exit_status_zero_with_no_document :
  Spec.requested_projects Examples.run_all = ["frontend"; "backend"]
  /\ Forall (fun project =>
               Spec.document_absent Examples.linux Examples.run_all
                 Examples.empty_root project = true)
            (Spec.requested_projects Examples.run_all)
  /\ fst (main Examples.linux Examples.run_all Examples.empty_root) = 0.
Proof.
  split; [reflexivity|]. split; [|vm_compute; reflexivity].
  repeat constructor.
Qed.

(** C9, amended: a project whose structure document is absent is
    skipped; the run continues with the other requested project and
    ends exactly as a run for that project alone (same files, same
    lists, same exit status); and a run in which the document of every
    requested project is absent changes nothing and exits 0.  A missing
    document never makes the exit status non-zero. *)
Theorem missing_document_is_contained_and_exit_is_zero :
  (forall (generate_content : Path -> string -> string) pf (a a' : args) s,
      project_type_of a = "all" ->
      project_type_of a' = "backend" ->
      arg_project_root a' = arg_project_root a ->
      Spec.document_absent pf a s "frontend" = true ->
      main_with generate_content pf a s = main_with generate_content pf a' s)
  /\ (forall (generate_content : Path -> string -> string) pf (a a' : args) s,
        project_type_of a = "all" ->
        project_type_of a' = "frontend" ->
        arg_project_root a' = arg_project_root a ->
        Spec.document_absent pf a
          (store (snd (main_with generate_content pf a' s))) "backend" = true ->
        main_with generate_content pf a s = main_with generate_content pf a' s)
  /\ (forall pf (a : args) s,
        (forall project : string,
            In project (Spec.requested_projects a) ->
            Spec.document_absent pf a s project = true) ->
        main pf a s = (0, mkState s [] [])).
Proof.
  split; [|split].
  - intros generate_content pf a a' s Ha Ha' Hroot Habs.
    unfold Spec.document_absent in Habs. apply negb_true_iff in Habs.
    unfold main_with. rewrite Ha, Ha', Hroot.
    change (generate_project generate_content pf (mkState s [] [])
              (of_string (arg_project_root a)) "all")
      with (match _generate_frontend generate_content pf (mkState s [] [])
                    (of_string (arg_project_root a)) with
            | Return st' =>
                _generate_backend generate_content pf st'
                  (of_string (arg_project_root a))
            | Raise e st' => Raise e st'
            end).
    unfold _generate_frontend.
    now rewrite (generate_from_structure_absent _ _ (mkState s [] []) _ _ Habs).
  - intros generate_content pf a a' s Ha Ha' Hroot Habs.
    unfold Spec.document_absent in Habs. apply negb_true_iff in Habs.
    unfold main_with in *. rewrite Ha, Ha', Hroot in *.
    change (generate_project generate_content pf (mkState s [] [])
              (of_string (arg_project_root a)) "all")
      with (match generate_project generate_content pf (mkState s [] [])
                    (of_string (arg_project_root a)) "frontend" with
            | Return st' =>
                _generate_backend generate_content pf st'
                  (of_string (arg_project_root a))
            | Raise e st' => Raise e st'
            end).
    destruct (generate_project generate_content pf (mkState s [] [])
                (of_string (arg_project_root a)) "frontend") as [st'|e st'];
      [|reflexivity].
    cbn [snd] in Habs. unfold _generate_backend.
    now rewrite (generate_from_structure_absent _ _ _ _ _ Habs).
  - intros pf a s Habs. unfold main, main_with. unfold Spec.requested_projects in Habs.
    assert (Hdoc : forall project,
               In project (Spec.projects_of (project_type_of a)) ->
               path_exists pf s
                 (structure_file_of (of_string (arg_project_root a)) project)
               = false).
    { intros project Hin. apply Habs in Hin. unfold Spec.document_absent in Hin.
      now apply negb_true_iff in Hin. }
    clear Habs. unfold project_type_of in *.
    destruct (arg_all a), (arg_frontend a), (arg_backend a);
      cbv [Spec.projects_of] in Hdoc;
      repeat match type of Hdoc with
             | context [String.eqb ?x ?y] =>
                 let b := eval vm_compute in (String.eqb x y) in
                 change (String.eqb x y) with b in Hdoc
             end;
      cbv iota in Hdoc;
      unfold generate_project, _generate_frontend, _generate_backend;
      repeat match goal with
             | |- context [String.eqb ?x ?y] =>
                 let b := eval vm_compute in (String.eqb x y) in
                 change (String.eqb x y) with b
             end;
      cbv iota;
      repeat (rewrite generate_from_structure_absent;
              [|cbn [store]; apply Hdoc; cbn [In]; tauto]);
      reflexivity.
Qed.

(** A run can also exit 1 with both documents present: here the entry
    [src/a.b/c.ts] needs a directory where a regular file stands, and
    the exception of [mkdir] ends the run. *)
Lemma exit_status_one_when_mkdir_raises :
  let s := Examples.root_with_file_in_the_way "src/a.b/c.ts" in
  Forall (fun project =>
            Spec.document_absent Examples.linux Examples.run_all s project = false)
         ["frontend"; "backend"]
  /\ fst (main Examples.linux Examples.run_all s) = 1.
Proof. cbv zeta. split; [repeat constructor|vm_compute; reflexivity]. Qed.

End Driver.

Section Idempotence.
Import PyStr PathLib FS GeneratorV2.
Implicit Types (s : gmap (list string) node) (pf : platform) (p : Path).
Implicit Types (st : state).

Variable generate_content : Path -> string -> string.
Hypothesis content_nonempty :
  forall (p : Path) (file_type : string), generate_content p file_type <> "".







End Idempotence.

Section SecondRun.
Import PyStr PathLib FS GeneratorV2.



(** A structure document with content is never changed by a run, so it
    reads the same before and after. *)
Lemma document_with_content_is_fixed (pf : platform) (a : args)
    (s : gmap (list string) node) (project content : string) :
  read_text pf s
    (structure_file_of (of_string (arg_project_root a)) project) = Ok content ->
  content <> "" ->
  Spec.document_fixed pf a s (store (snd (main pf a s))) project.
Proof.
  intros Hread Hc. unfold Spec.document_fixed. cbv zeta. rewrite Hread.
  symmetry. eapply read_text_extends; [|exact Hc|exact Hread].
  apply main_keeps_files_with_content.
Qed.

End SecondRun.

(* ===================================================================== *)
(** * The theorems at concrete inputs                                      *)
(* ===================================================================== *)

Section Witnesses.
Import PyStr PathLib FS GeneratorV2.

(** [notes.txt] matches no rule and is classified [generic]. *)
Lemma classification_at_notes_txt :
  Spec.rule_matches "notes.txt" = false
  /\ FileParser._determine_file_type "notes.txt" = "generic"
  /\ FileParser._determine_file_type "notes.txt"
     = FileParser._determine_file_type "notes.txt".
Proof.
  split; [vm_compute; reflexivity|]. split.
  - apply (proj1 (proj1 (proj2 (classification_total_and_deterministic "notes.txt")))).
    vm_compute. reflexivity.
  - apply (proj2 (proj2 (classification_total_and_deterministic "notes.txt"))).
    reflexivity.
Defined.

(** In a file list that names [README.md] and [src/app.ts], the entry
    that is emitted is not block-listed. *)
Lemma simple_format_at_a_file_list :
  let content :=
    "## FILE_LIST" +:+ nl +:+ "- README.md" +:+ nl +:+ "- src/app.ts" in
  Legacy._parse_simple_format content = [("src/app.ts", "generic")]
  /\ ~ In (Spec.filename_of "src/app.ts") Legacy.skip_items
  /\ startswith "." (Spec.filename_of "src/app.ts") = false.
Proof.
  cbv zeta. split; [vm_compute; reflexivity|].
  apply (simple_format_never_emits_blocked_file
           ("## FILE_LIST" +:+ nl +:+ "- README.md" +:+ nl +:+ "- src/app.ts")
           "src/app.ts" "generic").
  vm_compute. left. reflexivity.
Defined.

(** The hand-written [backend/app/index.ts] is skipped when its entry
    is processed, and has its content after a whole run. *)
Lemma no_clobber_at_hand_written_index :
  let s := Examples.root_with_index "src/App.tsx" "index.ts" in
  _create_file TemplateFactory.generate_content Examples.linux
    (mkState s [] []) (of_string "backend/app") "index.ts" "generic"
  = Return (mkState s [] ["backend/app/index.ts"])
  /\ node_at (store (snd (main Examples.linux Examples.run_all s)))
       ["work"; "backend"; "app"; "index.ts"]
     = Some (File Examples.hand_written).
Proof.
  cbv zeta. split.
  - apply (proj1 existing_file_is_skipped_and_kept
             TemplateFactory.generate_content Examples.linux
             (mkState (Examples.root_with_index "src/App.tsx" "index.ts") [] [])
             (of_string "backend/app") "index.ts" "generic"
             (File Examples.hand_written)).
    + vm_compute. reflexivity.
    + vm_compute. reflexivity.
    + vm_compute. lia.
  - apply (proj2 existing_file_is_skipped_and_kept
             TemplateFactory.generate_content Examples.linux Examples.run_all
             (Examples.root_with_index "src/App.tsx" "index.ts")).
    + discriminate.
    + vm_compute. reflexivity.
Defined.

(** After the entry [src/../index.ts] has been skipped, its parent
    [backend/app/src/..] is a directory. *)
Lemma parent_directory_at_skipped_entry :
  let s := Examples.root_with_index "" "src/../index.ts" in
  let st' :=
    mkState (<[["work"; "backend"; "app"; "src"] := Dir]> s) []
      ["backend/app/src/../index.ts"] in
  _create_file TemplateFactory.generate_content Examples.linux
    (mkState s [] []) (of_string "backend/app") "src/../index.ts" "generic"
  = Return st'
  /\ is_dir Examples.linux (store st')
       (parent (join_str (of_string "backend/app") "src/../index.ts")) = true.
Proof.
  cbv zeta. split; [vm_compute; reflexivity|].
  apply (proj1 parent_directories_are_created_before_the_skip
           TemplateFactory.generate_content Examples.linux
           (mkState (Examples.root_with_index "" "src/../index.ts") [] [])
           (mkState (<[["work"; "backend"; "app"; "src"] := Dir]>
                       (Examples.root_with_index "" "src/../index.ts"))
              [] ["backend/app/src/../index.ts"])
           (of_string "backend/app") "src/../index.ts" "generic").
  vm_compute. reflexivity.
Defined.

(** With only the backend document in place, a run for both projects
    ends as the run for the backend; with only the frontend document,
    as the run for the frontend; with neither, nothing happens and the
    exit status is 0. *)
Lemma missing_documents_at_three_roots :
  let backend_only :=
    delete (Examples.doc_location "frontend")
      (Examples.fresh_root "" "src/index.ts") in
  let frontend_only :=
    delete (Examples.doc_location "backend")
      (Examples.fresh_root "src/App.tsx" "") in
  main Examples.linux Examples.run_all backend_only
  = main Examples.linux Examples.run_backend backend_only
  /\ main Examples.linux Examples.run_all frontend_only
     = main Examples.linux Examples.run_frontend frontend_only
  /\ main Examples.linux Examples.run_all Examples.empty_root
     = (0, mkState Examples.empty_root [] []).
Proof.
  cbv zeta. split; [|split].
  - apply (proj1 missing_document_is_contained_and_exit_is_zero
             TemplateFactory.generate_content Examples.linux
             Examples.run_all Examples.run_backend);
      vm_compute; reflexivity.
  - apply (proj1 (proj2 missing_document_is_contained_and_exit_is_zero)
             TemplateFactory.generate_content Examples.linux
             Examples.run_all Examples.run_frontend);
      vm_compute; reflexivity.
  - apply (proj2 (proj2 missing_document_is_contained_and_exit_is_zero)
             Examples.linux Examples.run_all Examples.empty_root).
    intros project Hin. vm_compute in Hin.
    destruct Hin as [<-|[<-|[]]]; vm_compute; reflexivity.
Defined.


End Witnesses.

(* ===================================================================== *)
(** * The three import-path resolvers on every test path                   *)
(* ===================================================================== *)

Section Resolvers.
Import PyStr PathLib.

Lemma index_absent (x : string) (l : list string) :
  ~ In x l -> index x l = None.
Proof.
  induction l as [|y l IH]; cbn [index]; intros Hn; [reflexivity|].
  destruct (String.eqb x y) eqn:E.
  - apply String.eqb_eq in E. subst y. exfalso. apply Hn. now left.
  - rewrite IH; [reflexivity|]. intros H. apply Hn. now right.
Qed.

Lemma slice_to_last_end (pre : list string) (x : string) :
  slice_to_last (length pre + 1) (pre ++ [x]) = [].
Proof.
  unfold slice_to_last.
  replace (length pre + 1) with (length (pre ++ [x]))
    by (rewrite length_app; reflexivity).
  now rewrite drop_all.
Qed.

(** The resolver of the test templates, on any path with a [tests]
    part: one [../] for every directory between [tests] and the file
    and one more for [tests] itself, then those directories, then the
    name.  A test directly under [tests] gets [..//Name]. *)
Lemma component_import_formula (p : Path) (pre dirs : list string)
    (file component_name : string) :
  parts p = pre ++ "tests" :: dirs ++ [file] ->
  ~ In "tests" pre ->
  BaseTemplates.calculate_component_import p component_name
  = repeat "../" (length dirs + 1) +:+ join "/" dirs +:+ "/" +:+ component_name.
Proof.
  intros Hparts Hpre. unfold BaseTemplates.calculate_component_import.
  now rewrite Hparts, (index_app_fresh _ _ _ Hpre), slice_to_last_app.
Qed.

(** The directories the first generator keeps after [tests]: a leading
    [unit] is left out. *)
Lemma legacy_import_path_cases (p : Path) (pre mid : list string)
    (file component_name : string) :
  parts p = pre ++ "tests" :: mid ++ [file] ->
  ~ In "tests" pre ->
  Legacy._calculate_test_import_path p component_name
  = match (match mid with
           | first :: rest => if String.eqb first "unit" then rest else mid
           | [] => mid
           end) with
    | [] => "./" +:+ component_name
    | kept =>
        repeat "../" (length mid + 1) +:+ join "/" kept +:+ "/" +:+ component_name
    end.
Proof.
  intros Hparts Hpre. unfold Legacy._calculate_test_import_path.
  rewrite Hparts, (index_app_fresh _ _ _ Hpre), slice_to_last_app.
  replace (length (pre ++ "tests" :: mid ++ [file]) - length pre - 1)
    with (length mid + 1)
    by (rewrite length_app; cbn [length]; rewrite length_app; cbn [length]; lia).
  destruct mid as [|first rest]; [reflexivity|].
  destruct (String.eqb first "unit"); [destruct rest|]; reflexivity.
Qed.

(** The resolver of the first generator, on any path with a directory
    below [tests] other than a leading [unit]: the climb has one [../]
    for every part after [tests], a leading [unit] included, and the
    emitted directories leave that [unit] out. *)
Lemma legacy_import_formula (p : Path) (pre dirs : list string)
    (first file component_name : string) :
  parts p = pre ++ "tests" :: (first :: dirs) ++ [file] ->
  ~ In "tests" pre ->
  (first = "unit" -> dirs <> []) ->
  Legacy._calculate_test_import_path p component_name
  = repeat "../" (length dirs + 2)
    +:+ join "/" (if String.eqb first "unit" then dirs else first :: dirs)
    +:+ "/" +:+ component_name.
Proof.
  intros Hparts Hpre Hunit.
  rewrite (legacy_import_path_cases _ _ _ _ _ Hparts Hpre).
  replace (length (first :: dirs) + 1) with (length dirs + 2) by (cbn [length]; lia).
  destruct (String.eqb first "unit") eqn:E; [|reflexivity].
  apply String.eqb_eq in E. destruct dirs; [now elim (Hunit E)|reflexivity].
Qed.

(** A test directly under [tests] or under [tests/unit] has nothing to
    climb to: the first generator falls back to the current
    directory. *)
Lemma legacy_import_fallback (p : Path) (pre : list string)
    (file component_name : string) :
  (parts p = pre ++ ["tests"; file] \/ parts p = pre ++ ["tests"; "unit"; file]) ->
  ~ In "tests" pre ->
  Legacy._calculate_test_import_path p component_name = "./" +:+ component_name.
Proof.
  intros [Hparts|Hparts] Hpre.
  - now rewrite (legacy_import_path_cases p pre [] file component_name Hparts Hpre).
  - now rewrite (legacy_import_path_cases p pre ["unit"] file component_name Hparts Hpre).
Qed.

(** The resolver of the backend tests, on any path with a [tests] part:
    up to the parent of [tests], then [src/], then the directories that
    were below [tests]; directly under [tests] it is [../src/Name]. *)
Lemma backend_import_formula (p : Path) (pre dirs : list string)
    (file component_name : string) :
  parts p = pre ++ "tests" :: dirs ++ [file] ->
  ~ In "tests" pre ->
  Templates._calculate_backend_import_path p component_name
  = match dirs with
    | [] => "../src/" +:+ component_name
    | _ :: _ =>
        repeat "../" (length dirs + 1) +:+ "src/" +:+ join "/" dirs +:+ "/"
        +:+ component_name
    end.
Proof.
  intros Hparts Hpre. unfold Templates._calculate_backend_import_path.
  rewrite Hparts, (index_app_fresh _ _ _ Hpre), slice_to_last_app.
  now destruct dirs.
Qed.

(** X6: without a part named [tests], the three resolvers return the
    current-directory reference. *)
Theorem import_without_tests_part (p : Path) (component_name : string) :
  ~ In "tests" (parts p) ->
  BaseTemplates.calculate_component_import p component_name
    = "./" +:+ component_name
  /\ Legacy._calculate_test_import_path p component_name
    = "./" +:+ component_name
  /\ Templates._calculate_backend_import_path p component_name
    = "./" +:+ component_name.
Proof.
  intros Hn. unfold BaseTemplates.calculate_component_import,
    Legacy._calculate_test_import_path, Templates._calculate_backend_import_path.
  now rewrite (index_absent _ _ Hn).
Qed.

End Resolvers.

(* ===================================================================== *)
(** * Splitting and joining                                               *)
(* ===================================================================== *)

Section SplitJoin.
Import PyStr PathLib.

Lemma append_cons (c : ascii) (s t : string) :
  String c s +:+ t = String c (s +:+ t).
Proof. reflexivity. Qed.

Lemma append_nil_l (s : string) : "" +:+ s = s.
Proof. reflexivity. Qed.

Lemma append_nil_r (s : string) : s +:+ "" = s.
Proof.
  induction s as [|c s IH]; [reflexivity|]. now rewrite append_cons, IH.
Qed.

Lemma append_assoc (a b c : string) : (a +:+ b) +:+ c = a +:+ (b +:+ c).
Proof.
  induction a as [|x a IH]; [reflexivity|]. now rewrite !append_cons, IH.
Qed.

Lemma rev_onto_append (s acc : string) : rev_onto s acc = rev s +:+ acc.
Proof.
  unfold rev. revert acc. induction s as [|c s IH]; intros acc; cbn [rev_onto].
  - reflexivity.
  - rewrite (IH (String c acc)), (IH (String c "")), append_assoc. reflexivity.
Qed.

Lemma rev_cons (c : ascii) (s : string) : rev (String c s) = rev s +:+ String c "".
Proof. unfold rev at 1. cbn [rev_onto]. apply rev_onto_append. Qed.

Lemma contains_char_cons (c a : ascii) (s : string) :
  contains (String c "") (String a s)
  = Ascii.eqb c a || contains (String c "") s.
Proof. cbn [contains startswith]. now rewrite andb_true_r. Qed.

Lemma contains_char_append (c : ascii) (s t : string) :
  contains (String c "") (s +:+ t)
  = contains (String c "") s || contains (String c "") t.
Proof.
  induction s as [|a s IH].
  - rewrite append_nil_l. destruct t; reflexivity.
  - rewrite append_cons, !contains_char_cons, IH. now rewrite orb_assoc.
Qed.

Lemma join_cons_cons (sep x y : string) (l : list string) :
  join sep (x :: y :: l) = x +:+ sep +:+ join sep (y :: l).
Proof. reflexivity. Qed.

(** Splitting what was joined gives the fields back, when no field
    holds the separator character. *)
Lemma split_from_join (c : ascii) (l : list string) (x cur : string) :
  Forall (fun f => contains (String c "") f = false) (x :: l) ->
  split_from (String c "") 0 cur (join (String c "") (x :: l))
  = (rev cur +:+ x) :: l.
Proof.
  revert x cur. induction l as [|y l IHl]; intros x cur Hall;
    apply Forall_cons_1 in Hall; destruct Hall as [Hx Hl].
  - cbn [join]. clear Hl. revert cur. induction x as [|a x IHx]; intros cur.
    + cbn [split_from]. now rewrite append_nil_r.
    + rewrite contains_char_cons in Hx. apply orb_false_iff in Hx.
      destruct Hx as [Ha Hx].
      cbn [split_from startswith]. rewrite Ha. cbn [andb].
      rewrite (IHx Hx), rev_cons, append_assoc. reflexivity.
  - rewrite join_cons_cons. revert cur. induction x as [|a x IHx]; intros cur.
    + rewrite append_nil_l, append_cons.
      cbn [split_from startswith String.length].
      rewrite Ascii.eqb_refl. cbn [andb Nat.sub].
      rewrite append_nil_l, (IHl y "" Hl). now rewrite append_nil_r.
    + rewrite contains_char_cons in Hx. apply orb_false_iff in Hx.
      destruct Hx as [Ha Hx].
      rewrite append_cons.
      cbn [split_from startswith]. rewrite Ha. cbn [andb].
      rewrite (IHx Hx), rev_cons, append_assoc. reflexivity.
Qed.

Lemma split_join (c : ascii) (l : list string) (x : string) :
  Forall (fun f => contains (String c "") f = false) (x :: l) ->
  split (String c "") (join (String c "") (x :: l)) = x :: l.
Proof. intros H. unfold split. now rewrite split_from_join. Qed.

Lemma join_app (sep : string) (l1 l2 : list string) :
  l1 <> [] -> l2 <> [] ->
  join sep (l1 ++ l2) = join sep l1 +:+ sep +:+ join sep l2.
Proof.
  intros H1 H2. induction l1 as [|x l1 IH]; [congruence|].
  destruct l1 as [|y l1].
  - destruct l2; [congruence|reflexivity].
  - change ((x :: y :: l1) ++ l2) with (x :: (y :: l1) ++ l2).
    cbn [app]. rewrite join_cons_cons. cbn [app] in IH. rewrite IH by congruence.
    rewrite join_cons_cons, !append_assoc. reflexivity.
Qed.

Lemma repeat_dots_join (n : nat) (l : list string) :
  l <> [] ->
  repeat "../" n +:+ join "/" l = join "/" (List.repeat ".." n ++ l).
Proof.
  intros Hl. induction n as [|n IH]; [reflexivity|].
  cbn [repeat List.repeat app]. rewrite append_assoc, IH.
  destruct (List.repeat ".." n ++ l) eqn:E.
  - apply app_eq_nil in E. tauto.
  - reflexivity.
Qed.

End SplitJoin.

(* ===================================================================== *)
(** * Where the import references lead                                    *)
(* ===================================================================== *)

Section ImportTargets.
Import PyStr PathLib Names.

Lemma plain_spec (x : string) :
  plain x = true ->
  contains "/" x = false /\ is_component x = true /\ String.eqb x ".." = false.
Proof.
  unfold plain, is_component. intros H.
  repeat (apply andb_true_iff in H; destruct H as [H ?]).
  repeat match goal with
         | Hn : negb _ = true |- _ => apply negb_true_iff in Hn
         end.
  repeat split; try assumption. apply andb_true_iff. split; now apply negb_true_iff.
Qed.

Lemma follow_app (cur a b : list string) :
  follow cur (a ++ b) = follow (follow cur a) b.
Proof. apply fold_left_app. Qed.

Lemma follow_up (l m : list string) :
  follow (l ++ m) (List.repeat ".." (length m)) = l.
Proof.
  induction m as [|x m IH] using rev_ind.
  - cbn. now rewrite app_nil_r.
  - rewrite length_app. cbn [length]. rewrite Nat.add_1_r. cbn [List.repeat].
    unfold follow in *. cbn [fold_left]. unfold FS.step at 2.
    rewrite String.eqb_refl, app_assoc, removelast_last. exact IH.
Qed.

Lemma follow_down (cur ns : list string) :
  Forall (fun x => plain x = true) ns -> follow cur ns = cur ++ ns.
Proof.
  intros H. revert cur. induction H as [|x ns Hx _ IH]; intros cur.
  - cbn. now rewrite app_nil_r.
  - unfold follow in *. cbn [fold_left]. unfold FS.step at 2.
    destruct (plain_spec _ Hx) as (_ & _ & ->).
    rewrite IH, <- app_assoc. reflexivity.
Qed.

Lemma follow_up_down (l m ns : list string) :
  Forall (fun x => plain x = true) ns ->
  follow (l ++ m) (List.repeat ".." (length m) ++ ns) = l ++ ns.
Proof. intros H. now rewrite follow_app, follow_up, follow_down. Qed.

Lemma filter_components_dots (k : nat) (l : list string) :
  filter (fun x => is_component x = true) (List.repeat ".." k ++ l)
  = List.repeat ".." k ++ filter (fun x => is_component x = true) l.
Proof. induction k as [|k IH]; [reflexivity|]. cbn [List.repeat app]. now rewrite filter_cons_True, IH. Qed.

Lemma filter_components_plain (l : list string) :
  Forall (fun x => plain x = true) l ->
  filter (fun x => is_component x = true) l = l.
Proof.
  induction 1 as [|x l Hx _ IH]; [reflexivity|].
  rewrite filter_cons_True by apply (plain_spec _ Hx). now rewrite IH.
Qed.

Lemma no_slash_dots (k : nat) (l : list string) :
  Forall (fun f => contains "/" f = false) l ->
  Forall (fun f => contains "/" f = false) (List.repeat ".." k ++ l).
Proof.
  intros H. induction k as [|k IH]; [exact H|].
  cbn [List.repeat app]. apply List.Forall_cons; [reflexivity|exact IH].
Qed.

Lemma no_slash_plain (l : list string) :
  Forall (fun x => plain x = true) l ->
  Forall (fun f => contains "/" f = false) l.
Proof.
  induction 1 as [|x l Hx _ IH]; [apply List.Forall_nil|].
  apply List.Forall_cons; [apply (plain_spec _ Hx)|exact IH].
Qed.

(** The path of a reference [../ ... ../d1/.../dn/name]. *)
Lemma reference_names (k : nat) (ds : list string) (nm : string) :
  Forall (fun x => plain x = true) ds -> plain nm = true ->
  of_string (repeat "../" (S k) +:+ join "/" ds +:+ "/" +:+ nm)
  = mkPath "" (List.repeat ".." (S k) ++ ds ++ [nm]).
Proof.
  intros Hds Hnm.
  set (fields := match ds with [] => [""] | _ :: _ => ds end ++ [nm]).
  assert (Hjoin : join "/" ds +:+ "/" +:+ nm = join "/" fields).
  { subst fields. destruct ds as [|d ds]; [reflexivity|].
    now rewrite join_app by congruence. }
  assert (Hslash : Forall (fun f => contains "/" f = false) fields).
  { subst fields. apply Forall_app. split.
    - destruct ds; [now apply List.Forall_cons|now apply no_slash_plain].
    - apply List.Forall_cons; [apply (plain_spec _ Hnm)|apply List.Forall_nil]. }
  assert (Hfilter : filter (fun x => is_component x = true) fields = ds ++ [nm]).
  { subst fields. rewrite filter_app.
    rewrite (filter_components_plain [nm])
      by (apply List.Forall_cons; [exact Hnm|apply List.Forall_nil]).
    destruct ds; [reflexivity|]. now rewrite filter_components_plain. }
  rewrite Hjoin, repeat_dots_join by (subst fields; now destruct ds).
  unfold of_string. f_equal.
  - cbn [List.repeat app]. now destruct (List.repeat ".." k ++ fields).
  - change "/" with (String "/"%char "") in *.
    cbn [List.repeat app]. rewrite split_join.
    + change (".." :: List.repeat ".." k ++ fields)
        with (List.repeat ".." (S k) ++ fields).
      now rewrite filter_components_dots, Hfilter.
    + change (".." :: List.repeat ".." k ++ fields)
        with (List.repeat ".." (S k) ++ fields).
      now apply no_slash_dots.
Qed.

(** X1: for a test at [<pre>/tests/<dirs>/<file>], the reference of the
    test templates is one [../] per directory below [tests] plus one,
    then the directories, then the name; it is a relative path, and
    followed from the directory of the test it leads to
    [<pre>/<dirs>/<name>]: the module that mirrors the test beside
    [tests]. *)
Theorem component_import_reaches_mirror (p : Path) (pre dirs : list string)
    (file component_name : string) :
  parts p = pre ++ "tests" :: dirs ++ [file] ->
  ~ In "tests" pre ->
  Forall (fun x => plain x = true) dirs ->
  plain component_name = true ->
  let reference := BaseTemplates.calculate_component_import p component_name in
  reference
    = repeat "../" (length dirs + 1) +:+ join "/" dirs +:+ "/" +:+ component_name
  /\ anchor (of_string reference) = ""
  /\ follow (pre ++ "tests" :: dirs) (names (of_string reference))
     = pre ++ dirs ++ [component_name].
Proof.
  intros Hparts Hpre Hdirs Hname reference. subst reference.
  rewrite (component_import_formula _ _ _ _ _ Hparts Hpre).
  split; [reflexivity|].
  rewrite Nat.add_1_r, reference_names by assumption.
  split; [reflexivity|]. cbn [names].
  change (S (length dirs)) with (length ("tests" :: dirs)).
  apply follow_up_down. apply Forall_app. split; [assumption|].
  apply List.Forall_cons; [assumption|apply List.Forall_nil].
Qed.

(** X2: the first generator, for a test with a directory below [tests]
    that is not only [unit]: the climb counts every part after [tests],
    a leading [unit] included, the emitted directories leave that
    [unit] out, and the reference followed from the directory of the
    test leads to [<pre>/<kept directories>/<name>]. *)
Theorem legacy_import_reaches_mirror (p : Path) (pre dirs : list string)
    (first file component_name : string) :
  parts p = pre ++ "tests" :: (first :: dirs) ++ [file] ->
  ~ In "tests" pre ->
  (first = "unit" -> dirs <> []) ->
  Forall (fun x => plain x = true) (first :: dirs) ->
  plain component_name = true ->
  let kept := if String.eqb first "unit" then dirs else first :: dirs in
  let reference := Legacy._calculate_test_import_path p component_name in
  reference
    = repeat "../" (length dirs + 2) +:+ join "/" kept +:+ "/" +:+ component_name
  /\ anchor (of_string reference) = ""
  /\ follow (pre ++ "tests" :: first :: dirs) (names (of_string reference))
     = pre ++ kept ++ [component_name].
Proof.
  intros Hparts Hpre Hunit Hdirs Hname kept reference. subst reference.
  rewrite (legacy_import_formula _ _ _ _ _ _ Hparts Hpre Hunit).
  fold kept. split; [reflexivity|].
  assert (Hkept : Forall (fun x => plain x = true) kept).
  { subst kept. destruct (String.eqb first "unit"); [|assumption].
    now apply Forall_cons_1 in Hdirs. }
  replace (length dirs + 2) with (S (S (length dirs))) by lia.
  rewrite reference_names by assumption.
  split; [reflexivity|]. cbn [names].
  change (S (S (length dirs))) with (length ("tests" :: first :: dirs)).
  apply follow_up_down. apply Forall_app. split; [assumption|].
  apply List.Forall_cons; [assumption|apply List.Forall_nil].
Qed.

(** X3: a test directly under [tests]: the reference of the first
    generator is the name alone, in the directory of the test itself,
    where the reference of the test templates of the second generator
    climbs out of [tests]. *)
Theorem legacy_import_directly_below_tests (p : Path) (pre : list string)
    (file component_name : string) :
  parts p = pre ++ ["tests"; file] ->
  ~ In "tests" pre ->
  plain component_name = true ->
  names (of_string (Legacy._calculate_test_import_path p component_name))
    = [component_name]
  /\ names (of_string (BaseTemplates.calculate_component_import p component_name))
    = [".."; component_name].
Proof.
  intros Hparts Hpre Hname.
  rewrite (legacy_import_fallback p pre file component_name (or_introl Hparts) Hpre).
  rewrite (component_import_formula p pre [] file component_name Hparts Hpre).
  split.
  - destruct (plain_spec _ Hname) as (Hslash & Hcomp & _).
    unfold of_string. cbn [names].
    change ("./" +:+ component_name) with (join "/" ["."; component_name]).
    change "/" with (String "/"%char "") in *.
    rewrite split_join
      by (repeat apply List.Forall_cons; try apply List.Forall_nil; auto).
    rewrite filter_cons_False by (vm_compute; congruence).
    rewrite filter_cons_True by assumption. reflexivity.
  - change (length (@nil string) + 1) with 1.
    now rewrite (reference_names 0 [] component_name) by (auto using List.Forall_nil).
Qed.

(** X4: the resolver of the backend tests, for a test at
    [<pre>/tests/<dirs>/<file>]: the reference followed from the
    directory of the test leads to [<pre>/src/<dirs>/<name>], the
    source tree beside [tests]. *)
Theorem backend_import_reaches_src (p : Path) (pre dirs : list string)
    (file component_name : string) :
  parts p = pre ++ "tests" :: dirs ++ [file] ->
  ~ In "tests" pre ->
  Forall (fun x => plain x = true) dirs ->
  plain component_name = true ->
  let reference := Templates._calculate_backend_import_path p component_name in
  reference
    = repeat "../" (length dirs + 1) +:+ "src/" +:+ join "/" dirs
      +:+ (match dirs with [] => "" | _ :: _ => "/" end) +:+ component_name
  /\ anchor (of_string reference) = ""
  /\ follow (pre ++ "tests" :: dirs) (names (of_string reference))
     = pre ++ "src" :: dirs ++ [component_name].
Proof.
  intros Hparts Hpre Hdirs Hname reference. subst reference.
  rewrite (backend_import_formula _ _ _ _ _ Hparts Hpre).
  split; [now destruct dirs|].
  assert (E : match dirs with
              | [] => "../src/" +:+ component_name
              | _ :: _ =>
                  repeat "../" (length dirs + 1) +:+ "src/" +:+ join "/" dirs
                  +:+ "/" +:+ component_name
              end
              = repeat "../" (S (length dirs)) +:+ join "/" ("src" :: dirs)
                +:+ "/" +:+ component_name).
  { destruct dirs as [|d dirs]; [reflexivity|].
    rewrite Nat.add_1_r, join_cons_cons, !append_assoc. reflexivity. }
  rewrite E, reference_names by (try apply List.Forall_cons; auto).
  split; [reflexivity|]. cbn [names].
  change (S (length dirs)) with (length ("tests" :: dirs)).
  apply (follow_up_down pre ("tests" :: dirs) ("src" :: dirs ++ [component_name])).
  apply List.Forall_cons; [reflexivity|].
  apply Forall_app. split; [assumption|].
  apply List.Forall_cons; [assumption|apply List.Forall_nil].
Qed.

(** X5: where the test is in a directory below [tests] that is not
    [unit], the two generators write the same reference. *)
Theorem generators_agree_without_unit (p : Path) (pre dirs : list string)
    (first file component_name : string) :
  parts p = pre ++ "tests" :: (first :: dirs) ++ [file] ->
  ~ In "tests" pre ->
  first <> "unit" ->
  Legacy._calculate_test_import_path p component_name
  = BaseTemplates.calculate_component_import p component_name.
Proof.
  intros Hparts Hpre Hfirst.
  rewrite (legacy_import_formula _ _ _ _ _ _ Hparts Hpre) by congruence.
  rewrite (component_import_formula _ _ _ _ _ Hparts Hpre).
  apply String.eqb_neq in Hfirst. rewrite Hfirst. cbn [length].
  now replace (length dirs + 2) with (S (length dirs) + 1) by lia.
Qed.

End ImportTargets.

(* ===================================================================== *)
(** * Substrings                                                          *)
(* ===================================================================== *)

Section Substrings.
Import PyStr PathLib.

Lemma startswith_append (p b : string) : startswith p (p +:+ b) = true.
Proof.
  induction p as [|c p IH]; [reflexivity|].
  rewrite append_cons. cbn [startswith]. now rewrite Ascii.eqb_refl, IH.
Qed.

Lemma startswith_elim (p s : string) :
  startswith p s = true -> exists b, s = p +:+ b.
Proof.
  revert s. induction p as [|c p IH]; intros s H.
  - now exists s.
  - destruct s as [|d s]; [discriminate|]. cbn [startswith] in H.
    apply andb_true_iff in H. destruct H as [Hc Hp].
    apply Ascii.eqb_eq in Hc. subst d.
    destruct (IH _ Hp) as [b ->]. now exists b.
Qed.

Lemma contains_unfold (sub s : string) :
  contains sub s
  = startswith sub s
    || match s with EmptyString => false | String _ s' => contains sub s' end.
Proof. destruct s; reflexivity. Qed.

Lemma contains_intro (a sub b : string) : contains sub (a +:+ sub +:+ b) = true.
Proof.
  induction a as [|c a IH].
  - rewrite append_nil_l, contains_unfold, startswith_append. reflexivity.
  - rewrite append_cons, contains_unfold, IH. apply orb_true_r.
Qed.

Lemma contains_elim (sub s : string) :
  contains sub s = true -> exists a b, s = a +:+ sub +:+ b.
Proof.
  induction s as [|c s IH]; rewrite contains_unfold; intros H;
    apply orb_true_iff in H; destruct H as [H|H]; try discriminate.
  - destruct (startswith_elim _ _ H) as [b ->]. now exists "", b.
  - destruct (startswith_elim _ _ H) as [b ->]. now exists "", b.
  - destruct (IH H) as (a & b & ->). now exists (String c a), b.
Qed.

Lemma contains_append_l (sub s t : string) :
  contains sub s = true -> contains sub (s +:+ t) = true.
Proof.
  intros H. destruct (contains_elim _ _ H) as (a & b & ->).
  rewrite !append_assoc. apply contains_intro.
Qed.

Lemma contains_append_r (sub s t : string) :
  contains sub t = true -> contains sub (s +:+ t) = true.
Proof.
  intros H. destruct (contains_elim _ _ H) as (a & b & ->).
  rewrite <- append_assoc. apply contains_intro.
Qed.

Lemma contains_trans (a b c : string) :
  contains a b = true -> contains b c = true -> contains a c = true.
Proof.
  intros Hab Hbc. destruct (contains_elim _ _ Hbc) as (x & y & ->).
  apply contains_append_r, contains_append_l, Hab.
Qed.

(** A string without the separator is one field. *)
Lemma split_from_no_sep (sep cur s : string) :
  contains sep s = false ->
  split_from sep 0 cur s = [rev cur +:+ s].
Proof.
  revert cur. induction s as [|c s IH]; intros cur H.
  - cbn [split_from]. now rewrite append_nil_r.
  - rewrite contains_unfold in H. apply orb_false_iff in H. destruct H as [H1 H2].
    cbn [split_from]. rewrite H1, (IH _ H2), rev_cons, append_assoc. reflexivity.
Qed.

Lemma split_no_sep (sep s : string) :
  contains sep s = false -> split sep s = [s].
Proof. intros H. unfold split. now rewrite split_from_no_sep. Qed.

(** Replacing a substring that does not occur changes nothing. *)
Lemma replace_no_match (old new s : string) :
  contains old s = false -> replace old new s = s.
Proof.
  unfold replace. induction s as [|c s IH]; intros H; [reflexivity|].
  rewrite contains_unfold in H. apply orb_false_iff in H. destruct H as [H1 H2].
  cbn [replace_from]. now rewrite H1, (IH H2).
Qed.

End Substrings.

(* ===================================================================== *)
(** * What the two parsers read                                           *)
(* ===================================================================== *)

Section Documents.
Import PyStr PathLib.

Lemma lstrip_suffix (s : string) : exists a, s = a +:+ lstrip s.
Proof.
  induction s as [|c s [a IH]]; [now exists ""|].
  cbn [lstrip]. destruct (is_space c).
  - exists (String c a). now rewrite append_cons, <- IH.
  - now exists "".
Qed.

Lemma rstrip_prefix (s : string) : exists b, s = rstrip s +:+ b.
Proof.
  induction s as [|c s [b IH]]; [now exists ""|].
  cbn [rstrip]. destruct (rstrip s) as [|d r].
  - rewrite append_nil_l in IH. subst b. destruct (is_space c).
    + now exists (String c s).
    + now exists s.
  - exists b. now rewrite append_cons, <- IH.
Qed.

Lemma contains_strip (sub s : string) :
  contains sub (strip s) = true -> contains sub s = true.
Proof.
  intros H. unfold strip in H.
  destruct (lstrip_suffix s) as [a Ha].
  destruct (rstrip_prefix (lstrip s)) as [b Hb].
  rewrite Ha, Hb. now apply contains_append_r, contains_append_l.
Qed.

(** Every field of a split at a one-character separator is a part of
    the string that was split. *)
Lemma split_from_field (c : ascii) (x cur s : string) :
  In x (split_from (String c "") 0 cur s) ->
  contains x (rev cur +:+ s) = true.
Proof.
  revert cur. induction s as [|d s IH]; intros cur Hin.
  - cbn [split_from] in Hin. destruct Hin as [<-|[]].
    apply (contains_intro "" (rev cur) "").
  - cbn [split_from startswith String.length Nat.sub] in Hin.
    destruct (Ascii.eqb c d); cbn [andb] in Hin.
    + destruct Hin as [<-|Hin].
      * apply (contains_intro "" (rev cur) (String d s)).
      * apply IH in Hin. rewrite append_nil_l in Hin.
        apply contains_append_r.
        change (String d s) with (String d "" +:+ s).
        now apply contains_append_r.
    + apply IH in Hin. now rewrite rev_cons, append_assoc in Hin.
Qed.

Lemma split_field (c : ascii) (x s : string) :
  In x (split (String c "") s) -> contains x s = true.
Proof. intros H. apply split_from_field in H. exact H. Qed.

Lemma legacy_fold_before_marker (lines : list string)
    (files : list (string * string)) :
  Forall (fun line => contains "## FILE_LIST" (strip line) = false) lines ->
  fold_left Legacy.parse_line lines (Legacy.mkParseState false files)
  = Legacy.mkParseState false files.
Proof.
  induction 1 as [|line lines Hline _ IH]; [reflexivity|].
  cbn [fold_left]. unfold Legacy.parse_line at 2.
  rewrite Hline. cbn [Legacy.in_file_list negb orb]. exact IH.
Qed.

(** X7: the line-list parser of the first generator reads nothing from
    a document that does not hold the marker [## FILE_LIST]: whatever
    paths the document lists, no entry comes out. *)
Theorem simple_format_needs_the_marker (content : string) :
  contains "## FILE_LIST" content = false ->
  Legacy._parse_simple_format content = [].
Proof.
  intros Hmarker. unfold Legacy._parse_simple_format.
  rewrite legacy_fold_before_marker; [reflexivity|].
  apply Forall_forall. intros line Hin. apply list_elem_of_In in Hin.
  destruct (contains "## FILE_LIST" (strip line)) eqn:E; [|reflexivity].
  apply contains_strip in E. apply split_field in Hin.
  now rewrite (contains_trans _ _ _ E Hin) in Hmarker.
Qed.

Lemma legacy_parse_line_typed (st : Legacy.parse_state) (line : string) :
  Forall (fun entry : string * string =>
            snd entry = Legacy._determine_file_type (Spec.filename_of (fst entry))
            /\ contains "." (Spec.filename_of (fst entry)) = true)
         (Legacy.files st) ->
  Forall (fun entry : string * string =>
            snd entry = Legacy._determine_file_type (Spec.filename_of (fst entry))
            /\ contains "." (Spec.filename_of (fst entry)) = true)
         (Legacy.files (Legacy.parse_line st line)).
Proof.
  intros Hst. unfold Legacy.parse_line.
  repeat lazymatch goal with
         | |- Forall _ (Legacy.files (if ?b then _ else _)) => destruct b eqn:?
         end;
    cbn [Legacy.files]; try exact Hst.
  apply Forall_app. split; [exact Hst|]. constructor; [|constructor].
  unfold Spec.filename_of. cbn [fst snd]. split; [reflexivity|].
  match goal with
  | H : contains "." _ && _ = true |- _ =>
      apply andb_true_iff in H; destruct H as [H _]; exact H
  end.
Qed.

(** X8: in the first generator the type of an entry is decided by its
    file name alone, the last ['/']-separated segment of the path, and
    that name always holds a dot: the directories of the path play no
    part, and a name without an extension is never emitted. *)
Theorem simple_format_types_come_from_file_names
    (content path file_type : string) :
  In (path, file_type) (Legacy._parse_simple_format content) ->
  file_type = Legacy._determine_file_type (Spec.filename_of path)
  /\ contains "." (Spec.filename_of path) = true.
Proof.
  intros Hin.
  assert (H : forall (lines : list string) (st : Legacy.parse_state),
             Forall (fun entry : string * string =>
               snd entry = Legacy._determine_file_type (Spec.filename_of (fst entry))
               /\ contains "." (Spec.filename_of (fst entry)) = true)
               (Legacy.files st) ->
             Forall (fun entry : string * string =>
               snd entry = Legacy._determine_file_type (Spec.filename_of (fst entry))
               /\ contains "." (Spec.filename_of (fst entry)) = true)
               (Legacy.files (fold_left Legacy.parse_line lines st))).
  { induction lines as [|line lines IH]; intros st Hst; cbn [fold_left].
    - exact Hst.
    - apply IH, legacy_parse_line_typed, Hst. }
  specialize (H (split nl content) (Legacy.mkParseState false [])
                (List.Forall_nil _)).
  rewrite Forall_forall in H. apply list_elem_of_In in Hin.
  exact (H _ Hin).
Qed.

(** A document without the two separator characters is one line. *)
Lemma parse_content_one_line (content : string) :
  contains FileParser.line_separator (strip content) = false ->
  FileParser.parse_content content
  = if Spec.survives (strip content)
    then [(strip content, FileParser._determine_file_type (strip content))]
    else [].
Proof.
  intros Hsep. unfold FileParser.parse_content, FileParser.parse_lines.
  rewrite (split_no_sep _ _ Hsep). cbn [fold_left].
  now rewrite v2_parse_line_spec, strip_idempotent.
Qed.

Lemma parse_content_headed (content : string) :
  contains FileParser.line_separator (strip content) = false ->
  startswith "#" (strip content) = true ->
  FileParser.parse_content content = [].
Proof.
  intros Hsep Hhash. rewrite (parse_content_one_line _ Hsep).
  unfold Spec.survives. rewrite Hhash. now rewrite andb_false_r.
Qed.

(** X9: the parser of the second generator splits at a backslash followed
    by [n].  A document that does not hold these two characters, however
    many newline characters it has, is read as one line: it yields at
    most one entry, whose path is the whole trimmed document, and none
    when the document begins with a heading. *)
Theorem document_without_literal_separator (content : string) :
  contains FileParser.line_separator (strip content) = false ->
  FileParser.parse_content content
  = (if Spec.survives (strip content)
     then [(strip content, FileParser._determine_file_type (strip content))]
     else [])
  /\ (startswith "#" (strip content) = true ->
      FileParser.parse_content content = []).
Proof.
  intros Hsep. split.
  - now apply parse_content_one_line.
  - now apply parse_content_headed.
Qed.

End Documents.

(* ===================================================================== *)
(** * What a run reports and how it can end                               *)
(* ===================================================================== *)

Section Outcomes.
Import PyStr PathLib FS GeneratorV2.
Implicit Types (s : gmap (list string) node) (pf : platform) (p : Path).
Implicit Types (st : state).

Variable generate_content : Path -> string -> string.

(** How [os.mkdir] fails: on the character 0 with [ValueError];
    otherwise because the path exists, or because it does not
    resolve. *)
Lemma os_mkdir_error pf s p (e : exn) :
  os_mkdir pf s p = Err e ->
  if embedded_null p then e = ValueError
  else e = FileExistsError
       \/ (resolve pf s p = Err e
           /\ (e = NotADirectoryError \/ e = FileNotFoundError)).
Proof.
  unfold os_mkdir, resolve. destruct (embedded_null p);
    [now intros [= <-]|].
  generalize (start pf p). generalize (names p).
  intros ns. induction ns as [|c ns IH]; intros cur; cbn [walk].
  - destruct (node_at s cur); [|discriminate]. intros [= <-]. now left.
  - destruct (node_at s cur) as [[content|]|].
    + intros [= <-]. right. split; [reflexivity|now left].
    + apply IH.
    + intros [= <-]. right. split; [reflexivity|now right].
Qed.

Lemma not_dir_null pf s p : embedded_null p = true -> is_dir pf s p = false.
Proof. intros H. unfold is_dir, stat. now rewrite (resolve_null _ _ _ H). Qed.

Lemma not_dir_below pf s (a : string) (ns : list string) (c : string) :
  is_dir pf s (mkPath a ns) = false ->
  is_dir pf s (mkPath a (ns ++ [c])) = false.
Proof.
  destruct (embedded_null (mkPath a (ns ++ [c]))) eqn:Hnull;
    [intros _; now apply not_dir_null|].
  rewrite embedded_null_snoc in Hnull. apply orb_false_iff in Hnull.
  destruct Hnull as [Hns Hc].
  unfold is_dir, stat, resolve. rewrite Hns, embedded_null_snoc, Hns, Hc.
  cbn [orb names].
  change (start pf (mkPath a (ns ++ [c]))) with (start pf (mkPath a ns)).
  rewrite walk_snoc.
  destruct (walk s (start pf (mkPath a ns)) ns) as [loc|e]; [|reflexivity].
  destruct (node_at s loc) as [[content|]|]; [reflexivity|discriminate|reflexivity].
Qed.

(** The only ways [mkdir(parents=True, exist_ok=True)] fails: the text
    of the path holds the character 0, or something that is not a
    directory stands where a directory is needed. *)
Lemma mkdir_parents_rev_failure pf (a : string) (rnames : list string) s s'
    (e : exn) :
  mkdir_parents_rev pf s a rnames = Failed e s' ->
  (if embedded_null (mkPath a (List.rev rnames)) then e = ValueError
   else e = FileExistsError \/ e = NotADirectoryError)
  /\ is_dir pf s' (mkPath a (List.rev rnames)) = false.
Proof.
  revert s' e. induction rnames as [|x rparent IH]; intros s' e;
    cbn [mkdir_parents_rev].
  - destruct (os_mkdir pf s (mkPath a (List.rev []))) as [s1|e1] eqn:Emk;
      [discriminate|].
    pose proof (os_mkdir_error _ _ _ _ Emk) as Herr.
    destruct (embedded_null (mkPath a (List.rev []))) eqn:Hnull.
    + subst e1. intros [= <- <-]. split; [reflexivity|now apply not_dir_null].
    + destruct Herr as [->|[Hres _]].
      * destruct (is_dir pf s (mkPath a (List.rev []))) eqn:Ed; [discriminate|].
        intros [= <- <-]. split; [now left|exact Ed].
      * unfold resolve in Hres. rewrite Hnull in Hres. discriminate Hres.
  - destruct (os_mkdir pf s (mkPath a (List.rev (x :: rparent)))) as [s1|e1] eqn:Emk;
      [discriminate|].
    pose proof (os_mkdir_error _ _ _ _ Emk) as Herr.
    destruct (embedded_null (mkPath a (List.rev (x :: rparent)))) eqn:Hnull.
    + subst e1. intros [= <- <-]. split; [reflexivity|now apply not_dir_null].
    + destruct Herr as [->|[Hres [->| ->]]].
      * destruct (is_dir pf s (mkPath a (List.rev (x :: rparent)))) eqn:Ed;
          [discriminate|].
        intros [= <- <-]. split; [now left|exact Ed].
      * destruct (is_dir pf s (mkPath a (List.rev (x :: rparent)))) eqn:Ed;
          [discriminate|].
        intros [= <- <-]. split; [now right|exact Ed].
      * assert (Hparent : embedded_null (mkPath a (List.rev rparent)) = false).
        { cbn [List.rev] in Hnull. rewrite embedded_null_snoc in Hnull.
          now apply orb_false_iff in Hnull. }
        destruct (mkdir_parents_rev pf s a rparent) as [s1|e1 s1] eqn:Erec.
        -- destruct (mkdir_parents_rev_done _ _ _ _ _ Erec) as [_ Hdir].
           unfold mkdir_exist_ok.
           destruct (os_mkdir pf s1 (mkPath a (List.rev (x :: rparent))))
             as [s2|e2] eqn:Emk2; [discriminate|].
           pose proof (os_mkdir_error _ _ _ _ Emk2) as Herr2.
           rewrite Hnull in Herr2. destruct Herr2 as [->|[Hres2 _]].
           ++ destruct (is_dir pf s1 (mkPath a (List.rev (x :: rparent)))) eqn:Ed;
                [discriminate|].
              intros [= <- <-]. split; [now left|exact Ed].
           ++ destruct (resolve_below_dir pf s1
                          (mkPath a (List.rev (x :: rparent))) Hnull)
                as [loc Hloc].
              { unfold parent. cbn [anchor names List.rev].
                now rewrite removelast_last. }
              rewrite Hloc in Hres2. discriminate.
        -- intros [= <- <-]. destruct (IH _ _ eq_refl) as [Hkind Hnot].
           rewrite Hparent in Hkind.
           split; [exact Hkind|]. cbn [List.rev]. now apply not_dir_below.
Qed.

Lemma create_file_raised pf st st' (base_path : Path)
    (relative_path file_type : string) (e : exn) :
  _create_file generate_content pf st base_path relative_path file_type
    = Raise e st' ->
  (if embedded_null (parent (join_str base_path relative_path))
   then e = ValueError
   else e = FileExistsError \/ e = NotADirectoryError)
  /\ is_dir pf (store st') (parent (join_str base_path relative_path)) = false
  /\ created_files st' = created_files st
  /\ skipped_files st' = skipped_files st.
Proof.
  unfold _create_file. cbv zeta.
  destruct (mkdir_parents pf (store st)
              (parent (join_str base_path relative_path))) as [s1|e1 s1] eqn:Em.
  - destruct (path_exists pf s1 (join_str base_path relative_path)
              && (0 <? st_size pf s1 (join_str base_path relative_path)));
      [discriminate|].
    destruct (write_text pf s1 (join_str base_path relative_path) _);
      discriminate.
  - intros [= <- <-]. cbn [store created_files skipped_files].
    unfold mkdir_parents in Em.
    destruct (mkdir_parents_rev_failure _ _ _ _ _ _ Em) as [Hkind Hnot].
    rewrite rev_involutive in Hkind, Hnot.
    destruct (parent (join_str base_path relative_path)) as [a ns].
    repeat split; assumption.
Qed.



(** X12: what a loop reports, whether it completes or is ended by an
    exception: the two lists only grow at their ends, what is added to
    each is a sub-sequence of the destinations of the entries, in
    document order, and no entry is counted twice. *)
Theorem reports_follow_the_document pf st (base_path : Path)
    (files : list (string * string)) :
  let st' :=
    Spec.final_state (create_files generate_content pf st base_path files) in
  let destinations :=
    map (fun entry : string * string =>
           to_string (join_str base_path (fst entry))) files in
  exists created skipped : list string,
    created_files st' = created_files st ++ created
    /\ skipped_files st' = skipped_files st ++ skipped
    /\ sublist created destinations
    /\ sublist skipped destinations
    /\ length created + length skipped <= length files.
Proof.
  cbv zeta. revert st.
  induction files as [|[file_path file_type] rest IH]; intros st.
  - exists [], []. cbn. rewrite !app_nil_r. repeat split; try constructor.
  - cbn [create_files map fst].
    destruct (_create_file generate_content pf st base_path file_path file_type)
      as [st1|e1 st1] eqn:Ecf.
    + destruct (IH st1) as (c & k & Hc & Hk & Hsc & Hsk & Hlen).
      destruct (create_file_returned _ _ _ _ _ _ _ Ecf) as [n Hret].
      rewrite Hc, Hk.
      destruct Hret as [s1 Hm Ho|s1 s2 Hm Ho Hw|s1 e2 Hm Ho Hw];
        cbn [created_files skipped_files].
      * exists c, (to_string (join_str base_path file_path) :: k).
        rewrite <- app_assoc. cbn [app length].
        repeat split; try reflexivity;
          [now apply sublist_cons|now apply sublist_skip|lia].
      * exists (to_string (join_str base_path file_path) :: c), k.
        rewrite <- app_assoc. cbn [app length].
        repeat split; try reflexivity;
          [now apply sublist_skip|now apply sublist_cons|lia].
      * exists c, k. cbn [length].
        repeat split; try reflexivity;
          [now apply sublist_cons|now apply sublist_cons|lia].
    + cbn [Spec.final_state].
      destruct (create_file_raised _ _ _ _ _ _ _ Ecf) as (_ & _ & Hc & Hs).
      exists [], []. rewrite Hc, Hs, !app_nil_r. cbn [length].
      repeat split; try apply sublist_nil_l. lia.
Qed.

Hypothesis content_nonempty :
  forall (p : Path) (file_type : string), generate_content p file_type <> "".



End Outcomes.

Section Generators.
Import PyStr PathLib FS GeneratorV2.

(** X14: the loop of the first generator ([create_file_structure]) and
    the loop of the second ([_generate_from_structure] calling
    [_create_file]) are the same function of the store, the two lists,
    the entries and the content method: they create, skip and fail on
    the same entries and leave the same store. *)
Theorem first_generator_runs_the_same_loop
    (content_of : Path -> string -> string) (pf : platform) (st : state)
    (files : list (string * string)) (base_path : Path) :
  LegacyDriver.create_file_structure content_of pf st files base_path
  = create_files content_of pf st base_path files.
Proof.
  revert st. induction files as [|[file_path file_type] rest IH]; intros st;
    [reflexivity|].
  cbn [LegacyDriver.create_file_structure create_files].
  unfold _create_file. cbv zeta.
  destruct (mkdir_parents pf (store st) (parent (join_str base_path file_path)))
    as [s1|e s1]; [|reflexivity].
  destruct (path_exists pf s1 (join_str base_path file_path)
            && (0 <? st_size pf s1 (join_str base_path file_path)));
    [apply IH|].
  destruct (write_text pf s1 (join_str base_path file_path)
              (content_of (join_str base_path file_path) file_type));
    apply IH.
Qed.

End Generators.

(* ===================================================================== *)
(** * Letter case                                                         *)
(* ===================================================================== *)

Section LetterCase.
Import PyStr PathLib.

Lemma lower_char_idempotent (c : ascii) : lower_char (lower_char c) = lower_char c.
Proof. destruct c as [[] [] [] [] [] [] [] []]; reflexivity. Qed.

Lemma lower_char_eqb_slash (c : ascii) :
  Ascii.eqb "/" (lower_char c) = Ascii.eqb "/" c.
Proof. destruct c as [[] [] [] [] [] [] [] []]; reflexivity. Qed.

Lemma lower_char_eqb_dot (c : ascii) :
  Ascii.eqb (lower_char c) "." = Ascii.eqb c ".".
Proof. destruct c as [[] [] [] [] [] [] [] []]; reflexivity. Qed.

Lemma lower_idempotent (s : string) : lower (lower s) = lower s.
Proof.
  induction s as [|c s IH]; [reflexivity|].
  cbn [lower]. now rewrite lower_char_idempotent, IH.
Qed.

Lemma lower_append (s t : string) : lower (s +:+ t) = lower s +:+ lower t.
Proof.
  induction s as [|c s IH]; [reflexivity|].
  rewrite append_cons. cbn [lower]. now rewrite IH, append_cons.
Qed.

Lemma lower_rev (s : string) : lower (rev s) = rev (lower s).
Proof.
  induction s as [|c s IH]; [reflexivity|].
  cbn [lower]. now rewrite !rev_cons, lower_append, IH.
Qed.

Lemma split_slash_lower (cur s : string) :
  split_from "/" 0 (lower cur) (lower s) = map lower (split_from "/" 0 cur s).
Proof.
  revert cur. induction s as [|c s IH]; intros cur.
  - cbn [lower split_from map]. now rewrite lower_rev.
  - cbn [lower split_from startswith String.length Nat.sub].
    rewrite lower_char_eqb_slash. destruct (Ascii.eqb "/" c); cbn [andb].
    + cbn [map]. rewrite lower_rev. f_equal. apply (IH "").
    + apply (IH (String c cur)).
Qed.

Lemma is_component_lower (x : string) : is_component (lower x) = is_component x.
Proof.
  assert (Hcons : forall (a b : ascii) (u v : string),
             String.eqb (String a u) (String b v)
             = Ascii.eqb a b && String.eqb u v) by reflexivity.
  unfold is_component. destruct x as [|c x]; [reflexivity|].
  cbn [lower]. rewrite !Hcons, lower_char_eqb_dot.
  now destruct x.
Qed.

Lemma filter_components_lower (l : list string) :
  filter (fun x => is_component x = true) (map lower l)
  = map lower (filter (fun x => is_component x = true) l).
Proof.
  induction l as [|x l IH]; [reflexivity|].
  cbn [map]. rewrite !filter_cons, IH, is_component_lower.
  now destruct (decide (is_component x = true)).
Qed.

Lemma last_lower (l : list string) :
  List.last (map lower l) "" = lower (List.last l "").
Proof.
  induction l as [|x [|y l] IH]; [reflexivity|reflexivity|].
  exact IH.
Qed.

(** The lower-cased file name of a path is the file name of the
    lower-cased path. *)
Lemma name_lower (s : string) :
  lower (name (of_string s)) = name (of_string (lower s)).
Proof.
  unfold name, of_string, split. cbn [names].
  change (split_from "/" 0 "" (lower s))
    with (split_from "/" 0 (lower "") (lower s)).
  rewrite split_slash_lower, filter_components_lower, last_lower.
  reflexivity.
Qed.

(** X15: the classifier of the second generator does not look at letter
    case: two paths that differ only in the case of their letters get
    the same type, so [SRC/Components/Login.TSX] is a component as
    [src/components/login.tsx] is. *)
Theorem classification_ignores_case (p q : string) :
  lower p = lower q ->
  FileParser._determine_file_type p = FileParser._determine_file_type q.
Proof.
  intros H. unfold FileParser._determine_file_type.
  now rewrite !name_lower, H.
Qed.

End LetterCase.

(* ===================================================================== *)
(** * Keys, templates and class names                                     *)
(* ===================================================================== *)

Section Factory.
Import PyStr PathLib.

Ltac pick_key := cbn [In map fst]; repeat first [left; reflexivity | right].

(** Every key [_resolve_template_key] can return is [generic] or one of
    the keys of [_register_templates]. *)
Lemma resolved_key_range (p : Path) (file_type project_type : string) :
  In (TemplateKeys._resolve_template_key p file_type project_type)
     ("generic" :: map fst TemplateFactory.registered).
Proof.
  unfold TemplateKeys._resolve_template_key, TemplateFactory.registered.
  cbv zeta.
  repeat lazymatch goal with
         | |- In (if ?b then _ else _) _ => destruct b
         end;
    pick_key.
Qed.

Lemma generic_is_not_registered :
  ~ In "generic" (map fst TemplateFactory.registered).
Proof.
  unfold TemplateFactory.registered. cbn [In map fst].
  intros H. repeat (destruct H as [H|H]; [discriminate H|]). exact H.
Qed.

(** X16: the keys the factory resolves and the keys it registers fit
    together: a file gets no template exactly when its key is
    [generic], and then the content is the fallback chosen by the
    extension. *)
Theorem no_template_only_for_the_generic_key (p : Path) (file_type : string) :
  (TemplateFactory.get_template p file_type = None
   <-> TemplateKeys.template_key p file_type = "generic")
  /\ (TemplateKeys.template_key p file_type = "generic" ->
      TemplateFactory.generate_content p file_type
      = TemplateFactory._generate_generic_template p file_type).
Proof.
  assert (Hiff : TemplateFactory.get_template p file_type = None
                 <-> TemplateKeys.template_key p file_type = "generic").
  { unfold TemplateFactory.get_template, TemplateFactory.templates.
    rewrite <- not_elem_of_list_to_map, list_elem_of_In.
    change (TemplateFactory.registered.*1) with (map fst TemplateFactory.registered).
    split.
    - intros Hnot.
      destruct (resolved_key_range p file_type (PathUtils.get_project_type p))
        as [E|Hin]; [now symmetry|contradiction].
    - intros ->. exact generic_is_not_registered. }
  split; [exact Hiff|]. intros Hkey. apply Hiff in Hkey.
  unfold TemplateFactory.generate_content. now rewrite Hkey.
Qed.

(** X17: whatever the path and the file type, also where no template is
    registered, the content the factory produces is not empty, so a
    file written from it has a positive size. *)
Theorem factory_content_is_never_empty (pf : FS.platform) (p : Path)
    (file_type : string) :
  TemplateFactory.generate_content p file_type <> ""
  /\ 0 < FS.node_size pf (FS.File (TemplateFactory.generate_content p file_type)).
Proof.
  pose proof (generate_content_nonempty p file_type) as H.
  split; [exact H|]. cbn [FS.node_size].
  destruct (TemplateFactory.generate_content p file_type);
    [contradiction|cbn; lia].
Qed.

(** X18: a stem without an underscore and without [.test] or [.spec] is
    capitalized as one word: its first letter is upper-cased and every
    other letter is lower-cased, so capitals inside the stem are
    lost. *)
Theorem class_name_of_one_word (filename : string) :
  contains "_" filename = false ->
  contains ".test" filename = false ->
  contains ".spec" filename = false ->
  BaseTemplates.get_class_name_from_filename filename = capitalize filename.
Proof.
  intros Hu Ht Hs. unfold BaseTemplates.get_class_name_from_filename.
  rewrite (replace_no_match _ _ _ Ht), (replace_no_match _ _ _ Hs).
  now rewrite (split_no_sep _ _ Hu).
Qed.

Lemma upper_char_eqb_underscore (c : ascii) :
  Ascii.eqb "_" (upper_char c) = Ascii.eqb "_" c.
Proof. destruct c as [[] [] [] [] [] [] [] []]; reflexivity. Qed.

Lemma lower_char_eqb_underscore (c : ascii) :
  Ascii.eqb "_" (lower_char c) = Ascii.eqb "_" c.
Proof. destruct c as [[] [] [] [] [] [] [] []]; reflexivity. Qed.

Lemma lower_keeps_no_underscore (s : string) :
  contains "_" (lower s) = contains "_" s.
Proof.
  induction s as [|c s IH]; [reflexivity|]. cbn [lower].
  change "_" with (String "_"%char "") in *.
  now rewrite !contains_char_cons, lower_char_eqb_underscore, IH.
Qed.

Lemma capitalize_keeps_no_underscore (s : string) :
  contains "_" (capitalize s) = contains "_" s.
Proof.
  destruct s as [|c s]; [reflexivity|]. cbn [capitalize].
  pose proof (lower_keeps_no_underscore s) as H.
  change "_" with (String "_"%char "") in *.
  now rewrite !contains_char_cons, upper_char_eqb_underscore, H.
Qed.

Lemma rev_keeps_no_char (c : ascii) (s : string) :
  contains (String c "") (rev s) = contains (String c "") s.
Proof.
  induction s as [|d s IH]; [reflexivity|].
  rewrite rev_cons, contains_char_append, IH, !contains_char_cons.
  cbn [contains startswith]. now rewrite !orb_false_r, orb_comm.
Qed.

(** The fields of a split at a one-character separator do not hold
    it. *)
Lemma split_from_fields_free (c : ascii) (cur s : string) :
  contains (String c "") cur = false ->
  Forall (fun f => contains (String c "") f = false)
         (split_from (String c "") 0 cur s).
Proof.
  revert cur. induction s as [|d s IH]; intros cur Hcur.
  - cbn [split_from]. apply List.Forall_cons; [|apply List.Forall_nil].
    now rewrite rev_keeps_no_char.
  - cbn [split_from startswith String.length Nat.sub].
    destruct (Ascii.eqb c d) eqn:E; cbn [andb].
    + apply List.Forall_cons; [now rewrite rev_keeps_no_char|].
      now apply IH.
    + apply IH. rewrite contains_char_cons, E. exact Hcur.
Qed.

Lemma join_empty_free (c : ascii) (l : list string) :
  Forall (fun f => contains (String c "") f = false) l ->
  contains (String c "") (join "" l) = false.
Proof.
  induction 1 as [|x l Hx Hl IH]; [reflexivity|].
  destruct l as [|y l]; [exact Hx|].
  change (join "" (x :: y :: l)) with (x +:+ "" +:+ join "" (y :: l)).
  rewrite append_nil_l, contains_char_append, Hx, IH. reflexivity.
Qed.

(** X19: the class name made from a file name never holds an underscore,
    whatever the file name. *)
Theorem class_name_has_no_underscore (filename : string) :
  contains "_" (BaseTemplates.get_class_name_from_filename filename) = false.
Proof.
  unfold BaseTemplates.get_class_name_from_filename.
  change "_" with (String "_"%char "").
  apply join_empty_free. unfold split.
  generalize (split_from_fields_free "_" ""
                (replace ".spec" "" (replace ".test" "" filename)) eq_refl).
  generalize (split_from (String "_"%char "") 0 ""
                (replace ".spec" "" (replace ".test" "" filename))).
  intros l. induction 1 as [|x l Hx _ IH]; [apply List.Forall_nil|].
  cbn [map]. apply List.Forall_cons; [|exact IH].
  change (String "_"%char "") with "_". now rewrite capitalize_keeps_no_underscore.
Qed.

End Factory.

(* ===================================================================== *)
(** * The project of a destination                                        *)
(* ===================================================================== *)

Section Projects.
Import PyStr PathLib.

Lemma parse_anchor_cases (s : string) :
  parse_anchor s = "" \/ parse_anchor s = "/" \/ parse_anchor s = "//".
Proof.
  unfold parse_anchor. destruct (leading_slashes s) as [|[|[|n]]]; auto.
Qed.

Lemma join_cons_nonempty (sep x : string) (l : list string) :
  l <> [] -> join sep (x :: l) = x +:+ sep +:+ join sep l.
Proof. destruct l; [congruence|reflexivity]. Qed.

Lemma to_string_names (a : string) (ns : list string) :
  ns <> [] -> to_string (mkPath a ns) = a +:+ join "/" ns.
Proof. unfold to_string. cbn [anchor names]. destruct a, ns; congruence. Qed.

(** The text of a destination [<root>/<project>/app/<entry>] when the
    root has an anchor or a name: the project directory stands between
    two slashes. *)
Lemma destination_text (root_arg project entry : string) :
  of_string project = mkPath "" [project] ->
  anchor (of_string entry) = "" ->
  anchor (of_string root_arg) <> "" \/ names (of_string root_arg) <> [] ->
  exists before after,
    to_string (join_str (GeneratorV2.base_path_of (of_string root_arg) project)
                 entry)
    = before +:+ ("/" +:+ project +:+ "/") +:+ after.
Proof.
  intros Hproject Hrel Hroot.
  unfold GeneratorV2.base_path_of, join_str, joinpath.
  rewrite Hrel, Hproject. cbn [anchor names].
  change (anchor (of_string "app")) with "".
  change (names (of_string "app")) with ["app"].
  cbn [anchor names].
  set (rest := names (of_string entry)).
  rewrite <- !app_assoc. cbn [app].
  rewrite to_string_names by (destruct (names (of_string root_arg)); discriminate).
  destruct (names (of_string root_arg)) as [|x nr] eqn:En.
  - cbn [app]. rewrite join_cons_nonempty by discriminate.
    destruct Hroot as [Ha|Hn]; [|congruence].
    unfold of_string in Ha. cbn [anchor] in Ha.
    destruct (parse_anchor_cases root_arg) as [E|[E|E]];
      unfold of_string; cbn [anchor]; rewrite E in *; [congruence| |].
    + exists "", (join "/" ("app" :: rest)).
      now rewrite append_nil_l, !append_assoc.
    + exists "/", (join "/" ("app" :: rest)).
      now rewrite !append_assoc.
  - rewrite join_app by discriminate.
    rewrite (join_cons_nonempty "/" project) by discriminate.
    exists (anchor (of_string root_arg) +:+ join "/" (x :: nr)),
           (join "/" ("app" :: rest)).
    now rewrite !append_assoc.
Qed.

(** X20: when the project root given on the command line has an anchor or
    at least one name, every destination of the frontend loop is taken
    for a frontend file, whatever the entry, and a destination of the
    backend loop is taken for a backend file unless its path also holds
    a directory named frontend. *)
Theorem destination_project_under_a_root (root_arg entry : string) :
  anchor (of_string entry) = "" ->
  anchor (of_string root_arg) <> "" \/ names (of_string root_arg) <> [] ->
  PathUtils.get_project_type
    (join_str (GeneratorV2.base_path_of (of_string root_arg) "frontend") entry)
  = "frontend"
  /\ (contains "/frontend/"
        (lower (to_string
           (join_str (GeneratorV2.base_path_of (of_string root_arg) "backend")
              entry))) = false ->
      PathUtils.get_project_type
        (join_str (GeneratorV2.base_path_of (of_string root_arg) "backend") entry)
      = "backend").
Proof.
  intros Hrel Hroot. split.
  - destruct (destination_text root_arg "frontend" entry eq_refl Hrel Hroot)
      as (before & after & E).
    unfold PathUtils.get_project_type. cbv zeta.
    rewrite E, !lower_append.
    change (lower ("/" +:+ "frontend" +:+ "/")) with "/frontend/".
    now rewrite contains_intro.
  - intros Hnot.
    destruct (destination_text root_arg "backend" entry eq_refl Hrel Hroot)
      as (before & after & E).
    unfold PathUtils.get_project_type. cbv zeta. rewrite Hnot.
    rewrite E, !lower_append.
    change (lower ("/" +:+ "backend" +:+ "/")) with "/backend/".
    now rewrite contains_intro.
Qed.

End Projects.

(* ===================================================================== *)
(** * Paths built from segments                                           *)
(* ===================================================================== *)

Section Segments.
Import PyStr PathLib Names.

Lemma plain_segment (x : string) : plain x = true -> segment x.
Proof. intros H. destruct (plain_spec _ H) as (? & ? & _). now split. Qed.

Lemma dots_segment : segment "..".
Proof. now split. Qed.

Lemma segments_dots (k : nat) (l : list string) :
  Forall segment l -> Forall segment (List.repeat ".." k ++ l).
Proof.
  intros H. induction k as [|k IH]; [exact H|].
  cbn [List.repeat app]. apply List.Forall_cons; [exact dots_segment|exact IH].
Qed.

Lemma segments_plain (l : list string) :
  Forall (fun x => plain x = true) l -> Forall segment l.
Proof.
  induction 1 as [|x l Hx _ IH]; [apply List.Forall_nil|].
  apply List.Forall_cons; [now apply plain_segment|exact IH].
Qed.

Lemma segment_head (x : string) :
  segment x -> exists c r, x = String c r /\ Ascii.eqb "/" c = false.
Proof.
  intros [Hc Hs]. destruct x as [|c r]; [discriminate Hc|].
  exists c, r. split; [reflexivity|].
  change "/" with (String "/"%char "") in Hs.
  rewrite contains_char_cons in Hs. now apply orb_false_iff in Hs.
Qed.

Lemma join_segments_head (x : string) (l : list string) :
  segment x ->
  exists c r, join "/" (x :: l) = String c r /\ Ascii.eqb "/" c = false.
Proof.
  intros Hx. destruct (segment_head _ Hx) as (c & r & -> & Hc).
  destruct l as [|y l].
  - now exists c, r.
  - rewrite join_cons_cons, append_cons. eauto.
Qed.

Lemma filter_segments (l : list string) :
  Forall segment l -> filter (fun x => is_component x = true) l = l.
Proof.
  induction 1 as [|x l [Hx _] _ IH]; [reflexivity|].
  now rewrite filter_cons_True, IH.
Qed.

(** Parsing the text of a relative path made of segments gives the
    segments back. *)
Lemma of_string_join_segments (l : list string) :
  l <> [] -> Forall segment l -> of_string (join "/" l) = mkPath "" l.
Proof.
  intros Hne Hall. destruct l as [|x l]; [congruence|].
  unfold of_string. f_equal.
  - apply Forall_cons_1 in Hall. destruct Hall as [Hx _].
    destruct (join_segments_head x l Hx) as (c & r & -> & Hc).
    unfold parse_anchor. cbn [leading_slashes].
    destruct c as [[] [] [] [] [] [] [] []]; try reflexivity; discriminate Hc.
  - change "/" with (String "/"%char "") in *.
    rewrite split_join.
    + now apply filter_segments.
    + clear Hne. induction Hall as [|y l' [_ Hy] _ IH];
        [apply List.Forall_nil|apply List.Forall_cons; assumption].
Qed.

Lemma no_slash_no_double (x : string) :
  contains "/" x = false -> contains "//" x = false.
Proof.
  intros H. destruct (contains "//" x) eqn:E; [|reflexivity].
  assert (Hs : contains "/" "//" = true) by reflexivity.
  now rewrite (contains_trans _ _ _ Hs E) in H.
Qed.

Lemma double_slash_after (x u : string) :
  contains "/" x = false -> contains "//" (x +:+ u) = contains "//" u.
Proof.
  intros H. induction x as [|c x IH]; [reflexivity|].
  change "/" with (String "/"%char "") in H.
  rewrite contains_char_cons in H. apply orb_false_iff in H.
  destruct H as [Hc Hx]. change (String "/"%char "") with "/" in Hx.
  rewrite append_cons, contains_unfold, (IH Hx).
  cbn [startswith]. now rewrite Hc.
Qed.

Lemma join_segments_no_double_slash (l : list string) :
  Forall segment l -> contains "//" (join "/" l) = false.
Proof.
  induction 1 as [|x l [Hc Hs] Hl IH]; [reflexivity|].
  destruct l as [|y l]; [now apply no_slash_no_double|].
  rewrite join_cons_cons, (double_slash_after _ _ Hs).
  apply Forall_cons_1 in Hl. destruct Hl as [Hy _].
  destruct (join_segments_head y l Hy) as (c & r & E & Hh).
  rewrite E in *. change ("/" +:+ String c r) with (String "/"%char (String c r)).
  rewrite contains_unfold, IH. cbn [startswith].
  now rewrite Hh, andb_false_r.
Qed.

Lemma rstrip_char_free (c : ascii) (x : string) :
  contains (String c "") x = false -> PathNames.rstrip_char c x = x.
Proof.
  induction x as [|d x IH]; [reflexivity|].
  rewrite contains_char_cons. intros H. apply orb_false_iff in H.
  destruct H as [Hd Hx]. cbn [PathNames.rstrip_char]. rewrite (IH Hx).
  destruct x; [|reflexivity].
  rewrite Ascii.eqb_sym in Hd. now rewrite Hd.
Qed.

Lemma rstrip_char_before (c : ascii) (a x : string) :
  x <> "" -> contains (String c "") x = false ->
  PathNames.rstrip_char c (a +:+ x) = a +:+ x.
Proof.
  intros Hne Hx. induction a as [|d a IH].
  - rewrite append_nil_l. now apply rstrip_char_free.
  - rewrite append_cons. cbn [PathNames.rstrip_char]. rewrite IH.
    destruct (a +:+ x) eqn:E; [|reflexivity].
    destruct a; [rewrite append_nil_l in E; congruence|discriminate E].
Qed.

Lemma join_snoc (l : list string) (x : string) :
  l <> [] -> join "/" (l ++ [x]) = join "/" l +:+ "/" +:+ x.
Proof. intros H. now rewrite join_app by congruence. Qed.

(** Cleaning a reference that has nothing to clean. *)
Lemma clean_segments (l : list string) (x : string) :
  Forall segment l -> segment x ->
  PathNames.rstrip_char "/" (replace "//" "/" (join "/" (l ++ [x])))
  = join "/" (l ++ [x]).
Proof.
  intros Hl Hx.
  assert (Hall : Forall segment (l ++ [x])).
  { apply Forall_app. split; [exact Hl|].
    apply List.Forall_cons; [exact Hx|apply List.Forall_nil]. }
  rewrite (replace_no_match _ _ _ (join_segments_no_double_slash _ Hall)).
  destruct Hx as [Hc Hs].
  destruct l as [|y l].
  - cbn [app join]. now apply rstrip_char_free.
  - rewrite join_snoc by discriminate. rewrite <- append_assoc.
    apply rstrip_char_before; [|exact Hs].
    destruct x; [discriminate Hc|discriminate].
Qed.

(** Cleaning [../ ... ..//name]: the doubled slash is made one. *)
Lemma clean_dots_name (k : nat) (x : string) :
  segment x ->
  PathNames.rstrip_char "/"
    (replace "//" "/" (repeat "../" (S k) +:+ "" +:+ "/" +:+ x))
  = join "/" (List.repeat ".." (S k) ++ [x]).
Proof.
  intros [Hc Hs].
  assert (Hx : replace "//" "/" x = x)
    by (apply replace_no_match; now apply no_slash_no_double).
  assert (Hne : x <> "") by (destruct x; [discriminate Hc|discriminate]).
  assert (E : replace "//" "/" (repeat "../" (S k) +:+ "" +:+ "/" +:+ x)
              = repeat "../" (S k) +:+ x).
  { assert (Hstep : forall (c : ascii) (t : string),
               replace_from "//" "/" 0 (String c t)
               = if startswith "//" (String c t)
                 then "/" +:+ replace_from "//" "/" 1 t
                 else String c (replace_from "//" "/" 0 t)) by reflexivity.
    assert (Hskip : forall (c : ascii) (t : string),
               replace_from "//" "/" 1 (String c t) = replace_from "//" "/" 0 t)
      by reflexivity.
    rewrite append_nil_l. unfold replace in *. induction k as [|k IH].
    - change (repeat "../" 1 +:+ "/" +:+ x)
        with (String "."%char (String "."%char (String "/"%char
               (String "/"%char x)))).
      rewrite !Hstep. cbn [startswith].
      change (Ascii.eqb "/" ".") with false.
      change (Ascii.eqb "/" "/") with true. cbn [andb].
      rewrite Hskip, Hx. reflexivity.
    - change (repeat "../" (S (S k)) +:+ "/" +:+ x)
        with (String "."%char (String "."%char (String "/"%char
               (String "."%char (String "."%char (String "/"%char
                  (repeat "../" k +:+ "/" +:+ x))))))).
      rewrite (Hstep "."%char), (Hstep "."%char), (Hstep "/"%char).
      cbn [startswith].
      change (Ascii.eqb "/" ".") with false.
      change (Ascii.eqb "/" "/") with true. cbn [andb].
      change (String "."%char (String "."%char (String "/"%char
               (repeat "../" k +:+ "/" +:+ x))))
        with (repeat "../" (S k) +:+ "/" +:+ x).
      rewrite IH. reflexivity. }
  rewrite E, rstrip_char_before by assumption.
  apply (repeat_dots_join (S k) [x]). discriminate.
Qed.

End Segments.

(* ===================================================================== *)
(** * tools/v2/helpers/path_utils.py and the tree placement               *)
(* ===================================================================== *)

Section PathHelpers.
Import PyStr PathLib Names.

Lemma drop_after (pre : list string) (x : string) (rest : list string) :
  drop (length pre + 1) (pre ++ x :: rest) = rest.
Proof.
  replace (pre ++ x :: rest) with ((pre ++ [x]) ++ rest)
    by (rewrite <- app_assoc; reflexivity).
  replace (length pre + 1) with (length (pre ++ [x]))
    by (rewrite length_app; reflexivity).
  apply drop_app_length.
Qed.

(** The reference before it is cleaned, on two files below [src]. *)
Lemma relative_import_below_src (from_path to_path : Path)
    (pre pre' fdirs tdirs : list string) :
  parts (parent from_path) = pre ++ "src" :: fdirs ->
  parts (parent to_path) = pre' ++ "src" :: tdirs ->
  ~ In "src" pre -> ~ In "src" pre' ->
  PathNames.calculate_relative_import from_path to_path
  = PathNames.rstrip_char "/"
      (replace "//" "/"
         (repeat "../" (length fdirs) +:+ join "/" tdirs +:+ "/"
          +:+ stem to_path)).
Proof.
  intros Hf Ht Hpre Hpre'. unfold PathNames.calculate_relative_import.
  cbv zeta.
  rewrite Hf, Ht, (index_app_fresh _ _ _ Hpre), (index_app_fresh _ _ _ Hpre').
  now rewrite !drop_after.
Qed.

(** X21: [calculate_relative_import] between two files below [src], the
    first of them in a sub-directory of [src]: the reference is a
    relative path that climbs one level for every directory between
    [src] and the importing file and then descends to the imported
    module; followed from the directory of the importing file it leads
    to the imported file without its suffix, below the [src] of the
    importing file. *)
Theorem relative_import_reaches_target (from_path to_path : Path)
    (pre pre' fdirs tdirs : list string) :
  parts (parent from_path) = pre ++ "src" :: fdirs ->
  parts (parent to_path) = pre' ++ "src" :: tdirs ->
  ~ In "src" pre -> ~ In "src" pre' ->
  fdirs <> [] ->
  Forall (fun x => plain x = true) tdirs ->
  plain (stem to_path) = true ->
  let reference := PathNames.calculate_relative_import from_path to_path in
  of_string reference
    = mkPath "" (List.repeat ".." (length fdirs) ++ tdirs ++ [stem to_path])
  /\ follow (pre ++ "src" :: fdirs) (names (of_string reference))
     = pre ++ "src" :: tdirs ++ [stem to_path].
Proof.
  intros Hf Ht Hpre Hpre' Hne Hdirs Hstem reference. subst reference.
  rewrite (relative_import_below_src _ _ _ _ _ _ Hf Ht Hpre Hpre').
  assert (Hlen : exists k, length fdirs = S k)
    by (destruct fdirs; [congruence|cbn [length]; eauto]).
  destruct Hlen as [k Hk]. rewrite Hk.
  assert (Hpath :
    PathNames.rstrip_char "/"
      (replace "//" "/"
         (repeat "../" (S k) +:+ join "/" tdirs +:+ "/" +:+ stem to_path))
    = join "/" (List.repeat ".." (S k) ++ tdirs ++ [stem to_path])).
  { destruct tdirs as [|d tdirs'] eqn:Et.
    - now apply clean_dots_name, plain_segment.
    - rewrite <- join_snoc by discriminate.
      rewrite repeat_dots_join by discriminate.
      rewrite app_assoc.
      rewrite clean_segments;
        [reflexivity| |now apply plain_segment].
      apply segments_dots. now apply segments_plain. }
  rewrite Hpath.
  rewrite of_string_join_segments.
  - split; [reflexivity|]. cbn [names]. rewrite <- Hk.
    replace (pre ++ "src" :: fdirs) with ((pre ++ ["src"]) ++ fdirs)
      by (rewrite <- app_assoc; reflexivity).
    rewrite follow_up_down.
    + now rewrite <- app_assoc.
    + apply Forall_app. split; [assumption|].
      apply List.Forall_cons; [assumption|apply List.Forall_nil].
  - discriminate.
  - apply segments_dots, segments_plain, Forall_app. split; [assumption|].
    apply List.Forall_cons; [assumption|apply List.Forall_nil].
Qed.

(** X22: [calculate_relative_import] when the importing file is directly
    in [src]: nothing is climbed and no [./] is put in front, so the
    reference to a file that is also directly in [src] is its name
    after a slash, a path with an anchor, and the reference to a file
    in a sub-directory is that sub-directory path without a leading
    dot. *)
Theorem relative_import_from_src_directory (from_path to_path : Path)
    (pre pre' tdirs : list string) :
  parts (parent from_path) = pre ++ ["src"] ->
  parts (parent to_path) = pre' ++ "src" :: tdirs ->
  ~ In "src" pre -> ~ In "src" pre' ->
  Forall (fun x => plain x = true) tdirs ->
  plain (stem to_path) = true ->
  PathNames.calculate_relative_import from_path to_path
  = match tdirs with
    | [] => "/" +:+ stem to_path
    | _ :: _ => join "/" (tdirs ++ [stem to_path])
    end.
Proof.
  intros Hf Ht Hpre Hpre' Hdirs Hstem.
  rewrite (relative_import_below_src _ _ pre pre' [] tdirs Hf Ht Hpre Hpre').
  cbn [length repeat]. rewrite append_nil_l.
  destruct (plain_segment _ Hstem) as [Hc Hs].
  destruct tdirs as [|d tdirs'].
  - cbn [join]. rewrite append_nil_l.
    destruct (segment_head _ (conj Hc Hs)) as (c & r & E & Hh).
    rewrite replace_no_match.
    + apply rstrip_char_before; [rewrite E; discriminate|exact Hs].
    + rewrite E in *. change ("/" +:+ String c r) with (String "/"%char (String c r)).
      rewrite contains_unfold. cbn [startswith].
      rewrite Hh, andb_false_r. cbn [orb].
      now apply no_slash_no_double.
  - rewrite <- join_snoc by discriminate.
    apply clean_segments; [now apply segments_plain|now split].
Qed.

Lemma upper_char_eqb_dot (c : ascii) :
  Ascii.eqb "." (upper_char c) = Ascii.eqb "." c.
Proof. destruct c as [[] [] [] [] [] [] [] []]; reflexivity. Qed.

Lemma lower_char_dot_eqb (c : ascii) :
  Ascii.eqb "." (lower_char c) = Ascii.eqb "." c.
Proof. destruct c as [[] [] [] [] [] [] [] []]; reflexivity. Qed.

Lemma capitalize_keeps_no_dot (s : string) :
  contains "." (capitalize s) = contains "." s.
Proof.
  assert (Hl : forall t, contains "." (lower t) = contains "." t).
  { induction t as [|c t IH]; [reflexivity|]. cbn [lower].
    change "." with (String "."%char "") in *.
    now rewrite !contains_char_cons, lower_char_dot_eqb, IH. }
  destruct s as [|c s]; [reflexivity|]. cbn [capitalize].
  specialize (Hl s). change "." with (String "."%char "") in *.
  now rewrite !contains_char_cons, upper_char_eqb_dot, Hl.
Qed.

(** X23: the name [normalize_filename] makes never holds a dot or an
    underscore, whatever the file name; so the import alias of a file
    whose stem is not [index] holds neither. *)
Theorem normalized_name_has_no_dot_or_underscore (filename : string)
    (file_path : Path) :
  (contains "." (PathNames.normalize_filename filename) = false
   /\ contains "_" (PathNames.normalize_filename filename) = false)
  /\ (stem file_path <> "index" ->
      contains "." (PathNames.get_import_alias file_path) = false
      /\ contains "_" (PathNames.get_import_alias file_path) = false).
Proof.
  assert (H : forall f : string,
             contains "." (PathNames.normalize_filename f) = false
             /\ contains "_" (PathNames.normalize_filename f) = false).
  { intros f. unfold PathNames.normalize_filename. cbv zeta.
    set (clean := replace ".spec" "" (replace ".test" "" f)).
    assert (Hfirst : contains "." (hd "" (split "." clean)) = false).
    { unfold split.
      pose proof (split_from_fields_free "." "" clean eq_refl) as Hall.
      destruct (split_from (String "."%char "") 0 "" clean) as [|x l];
        [reflexivity|].
      apply Forall_cons_1 in Hall. exact (proj1 Hall). }
    set (first := hd "" (split "." clean)) in *.
    assert (Hfields :
      Forall (fun w => contains "." w = false /\ contains "_" w = false)
             (split "_" first)).
    { apply Forall_forall. intros w Hin. apply list_elem_of_In in Hin. split.
      - destruct (contains "." w) eqn:E; [|reflexivity].
        apply split_field in Hin.
        now rewrite (contains_trans _ _ _ E Hin) in Hfirst.
      - pose proof (split_from_fields_free "_" "" first eq_refl) as Hall.
        rewrite Forall_forall in Hall. apply Hall.
        now apply list_elem_of_In. }
    split.
    - change "." with (String "."%char ""). apply join_empty_free.
      induction Hfields as [|w l [Hd _] _ IH]; [apply List.Forall_nil|].
      cbn [map]. apply List.Forall_cons; [|exact IH].
      change (String "."%char "") with ".".
      now rewrite capitalize_keeps_no_dot.
    - change "_" with (String "_"%char ""). apply join_empty_free.
      induction Hfields as [|w l [_ Hu] _ IH]; [apply List.Forall_nil|].
      cbn [map]. apply List.Forall_cons; [|exact IH].
      change (String "_"%char "") with "_".
      now rewrite capitalize_keeps_no_underscore. }
  split; [apply H|]. intros Hstem. unfold PathNames.get_import_alias.
  cbv zeta. apply String.eqb_neq in Hstem. rewrite Hstem. apply H.
Qed.

(** X24: where the tree parser of the first generator places a file: the
    path it guesses is relative, ends in the file name as it stands,
    and puts the file at the top, in [src], in one of
    [src/controllers], [src/services], [src/models], or in [tests];
    only a name ending in [.ts] or [.tsx] is put in a directory. *)
Theorem guessed_path_keeps_the_file_name (all_lines : list string)
    (current_line filename : string) :
  plain filename = true ->
  let guessed :=
    of_string (LegacyPaths._guess_file_path all_lines current_line filename) in
  anchor guessed = ""
  /\ name guessed = filename
  /\ In (parent guessed)
       [mkPath "" []; mkPath "" ["src"]; mkPath "" ["src"; "controllers"];
        mkPath "" ["src"; "services"]; mkPath "" ["src"; "models"];
        mkPath "" ["tests"]]
  /\ (endswith ".ts" filename || endswith ".tsx" filename = false ->
      names guessed = [filename]).
Proof.
  intros Hplain guessed. subst guessed.
  pose proof (plain_segment _ Hplain) as Hseg.
  assert (Hat : forall dirs : list string,
             Forall segment dirs ->
             of_string (join "/" (dirs ++ [filename]))
             = mkPath "" (dirs ++ [filename])).
  { intros dirs Hdirs. apply of_string_join_segments.
    - destruct dirs; discriminate.
    - apply Forall_app. split; [exact Hdirs|].
      apply List.Forall_cons; [exact Hseg|apply List.Forall_nil]. }
  assert (H0 : of_string filename = mkPath "" [filename])
    by exact (Hat [] (List.Forall_nil _)).
  assert (H1 : of_string ("src/" +:+ filename) = mkPath "" ["src"; filename]).
  { apply (Hat ["src"]). repeat constructor. }
  assert (H2 : of_string ("tests/" +:+ filename) = mkPath "" ["tests"; filename]).
  { apply (Hat ["tests"]). repeat constructor. }
  assert (H3 : of_string ("src/controllers/" +:+ filename)
               = mkPath "" ["src"; "controllers"; filename]).
  { apply (Hat ["src"; "controllers"]). repeat constructor. }
  assert (H4 : of_string ("src/services/" +:+ filename)
               = mkPath "" ["src"; "services"; filename]).
  { apply (Hat ["src"; "services"]). repeat constructor. }
  assert (H5 : of_string ("src/models/" +:+ filename)
               = mkPath "" ["src"; "models"; filename]).
  { apply (Hat ["src"; "models"]). repeat constructor. }
  unfold LegacyPaths._guess_file_path.
  destruct (endswith ".ts" filename || endswith ".tsx" filename).
  - repeat lazymatch goal with
           | |- context [of_string (if ?b then _ else _)] => destruct b
           end;
      rewrite ?H1, ?H2, ?H3, ?H4, ?H5;
      (split; [reflexivity|]); (split; [reflexivity|]);
      (split; [unfold parent; cbn; tauto|discriminate]).
  - repeat lazymatch goal with
           | |- context [of_string (if ?b then _ else _)] => destruct b
           end;
      rewrite H0;
      (split; [reflexivity|]); (split; [reflexivity|]);
      (split; [unfold parent; cbn; tauto|reflexivity]).
Qed.

End PathHelpers.

(* ===================================================================== *)
(** * What a run leaves in place                                          *)
(* ===================================================================== *)

Section StoreSteps.
Import PyStr PathLib FS GeneratorV2 Names.
Implicit Types (s : gmap (list string) node) (pf : platform) (p : Path).
Implicit Types (st : state).

(** Any relation between stores that is reflexive and transitive and
    holds across the two elementary changes, making a directory where
    nothing is and writing a file where no directory is, holds between
    the store before a run and the store after it. *)
Variable related : gmap (list string) node -> gmap (list string) node -> Prop.
Hypothesis related_refl : forall s, related s s.
Hypothesis related_trans :
  forall s1 s2 s3, related s1 s2 -> related s2 s3 -> related s1 s3.
Hypothesis related_mkdir :
  forall s (loc : list string),
    node_at s loc = None -> related s (<[loc := Dir]> s).
Hypothesis related_write :
  forall s (loc : list string) (content : string),
    node_at s loc <> Some Dir -> related s (<[loc := File content]> s).

Variable generate_content : Path -> string -> string.

Lemma os_mkdir_related pf s s' p : os_mkdir pf s p = Ok s' -> related s s'.
Proof.
  unfold os_mkdir. destruct (resolve pf s p) as [loc|e]; [|discriminate].
  destruct (node_at s loc) eqn:En; [discriminate|].
  intros [= <-]. now apply related_mkdir.
Qed.

Lemma mkdir_exist_ok_related pf s s' p :
  mkdir_exist_ok pf s p = Ok s' -> related s s'.
Proof.
  unfold mkdir_exist_ok. destruct (os_mkdir pf s p) as [s0|e] eqn:E.
  - intros [= <-]. eapply os_mkdir_related, E.
  - destruct e; try discriminate;
      (destruct (is_dir pf s p); [|discriminate]);
      intros [= <-]; apply related_refl.
Qed.

Lemma mkdir_parents_rev_related pf (a : string) (rnames : list string) s :
  related s (outcome_store (mkdir_parents_rev pf s a rnames)).
Proof.
  revert s. induction rnames as [|c rparent IH]; intros s;
    cbn [mkdir_parents_rev].
  - destruct (os_mkdir pf s (mkPath a (List.rev []))) as [s0|e] eqn:E.
    + eapply os_mkdir_related, E.
    + destruct e; try (destruct (is_dir pf s (mkPath a (List.rev []))));
        apply related_refl.
  - destruct (os_mkdir pf s (mkPath a (List.rev (c :: rparent)))) as [s0|e] eqn:E.
    + eapply os_mkdir_related, E.
    + destruct e;
        try (destruct (is_dir pf s (mkPath a (List.rev (c :: rparent))));
             apply related_refl).
      specialize (IH s).
      destruct (mkdir_parents_rev pf s a rparent) as [s1|e1 s1];
        cbn [outcome_store] in *; [|exact IH].
      destruct (mkdir_exist_ok pf s1 (mkPath a (List.rev (c :: rparent))))
        as [s2|e2] eqn:Em; cbn [outcome_store]; [|exact IH].
      eapply related_trans; [exact IH|]. eapply mkdir_exist_ok_related, Em.
Qed.

Lemma write_text_related pf s s' p (content : string) :
  write_text pf s p content = Ok s' -> related s s'.
Proof.
  unfold write_text. destruct (resolve pf s p) as [loc|e]; [|discriminate].
  destruct (node_at s loc) as [[c|]|] eqn:En; try discriminate;
    intros [= <-]; apply related_write; congruence.
Qed.

Lemma create_file_related pf st (base_path : Path)
    (relative_path file_type : string) :
  related (store st)
    (store (Spec.final_state
       (_create_file generate_content pf st base_path relative_path file_type))).
Proof.
  unfold _create_file. cbv zeta.
  pose proof (mkdir_parents_rev_related pf
                (anchor (parent (join_str base_path relative_path)))
                (List.rev (names (parent (join_str base_path relative_path))))
                (store st)) as Hm.
  fold (mkdir_parents pf (store st) (parent (join_str base_path relative_path)))
    in Hm.
  destruct (mkdir_parents pf (store st)
              (parent (join_str base_path relative_path))) as [s1|e1 s1];
    cbn [outcome_store] in Hm; [|exact Hm].
  destruct (path_exists pf s1 (join_str base_path relative_path)
            && (0 <? st_size pf s1 (join_str base_path relative_path)));
    [exact Hm|].
  destruct (write_text pf s1 (join_str base_path relative_path)
              (generate_content (join_str base_path relative_path) file_type))
    as [s2|e2] eqn:Ew; cbn [Spec.final_state store]; [|exact Hm].
  eapply related_trans; [exact Hm|]. eapply write_text_related, Ew.
Qed.

Lemma create_files_related pf (base_path : Path)
    (files : list (string * string)) st :
  related (store st)
    (store (Spec.final_state
       (create_files generate_content pf st base_path files))).
Proof.
  revert st. induction files as [|[file_path file_type] rest IH]; intros st;
    cbn [create_files]; [apply related_refl|].
  pose proof (create_file_related pf st base_path file_path file_type) as H1.
  destruct (_create_file generate_content pf st base_path file_path file_type)
    as [st1|e st1]; cbn [Spec.final_state] in *; [|exact H1].
  eapply related_trans; [exact H1|apply IH].
Qed.

Lemma generate_from_structure_related pf st (structure_file base_path : Path) :
  related (store st)
    (store (Spec.final_state
       (_generate_from_structure generate_content pf st structure_file
          base_path))).
Proof.
  unfold _generate_from_structure.
  destruct (parse_structure_file pf (store st) structure_file) as [files|e];
    [apply create_files_related|apply related_refl].
Qed.

Lemma generate_project_related pf st (project_root : Path)
    (project_type : string) :
  related (store st)
    (store (Spec.final_state
       (generate_project generate_content pf st project_root project_type))).
Proof.
  unfold generate_project, _generate_frontend, _generate_backend.
  repeat lazymatch goal with
         | |- context [if String.eqb project_type ?x then _ else _] =>
             destruct (String.eqb project_type x)
         end;
    try apply generate_from_structure_related;
    [|apply related_refl].
  pose proof (generate_from_structure_related pf st
                (structure_file_of project_root "frontend")
                (base_path_of project_root "frontend")) as H1.
  destruct (_generate_from_structure generate_content pf st
              (structure_file_of project_root "frontend")
              (base_path_of project_root "frontend")) as [st1|e st1];
    cbn [Spec.final_state] in *; [|exact H1].
  eapply related_trans; [exact H1|apply generate_from_structure_related].
Qed.

Lemma main_related pf (a : args) s :
  related s (store (snd (main_with generate_content pf a s))).
Proof.
  unfold main_with.
  pose proof (generate_project_related pf (mkState s [] [])
                (of_string (arg_project_root a)) (project_type_of a)) as H.
  destruct (generate_project generate_content pf (mkState s [] [])
              (of_string (arg_project_root a)) (project_type_of a));
    exact H.
Qed.

End StoreSteps.

Section Kinds.
Import PyStr PathLib FS GeneratorV2 Names.

Lemma same_kind_refl (n : node) : same_kind n n = true.
Proof. now destruct n. Qed.

Lemma same_kind_trans (n1 n2 n3 : node) :
  same_kind n1 n2 = true -> same_kind n2 n3 = true -> same_kind n1 n3 = true.
Proof. destruct n1, n2, n3; auto. Qed.

Lemma keeps_kinds_refl s : keeps_kinds s s.
Proof. intros loc n H. exists n. split; [exact H|apply same_kind_refl]. Qed.

Lemma keeps_kinds_trans s1 s2 s3 :
  keeps_kinds s1 s2 -> keeps_kinds s2 s3 -> keeps_kinds s1 s3.
Proof.
  intros H12 H23 loc n H. destruct (H12 _ _ H) as (n2 & H2 & K2).
  destruct (H23 _ _ H2) as (n3 & H3 & K3).
  exists n3. split; [exact H3|eapply same_kind_trans; eassumption].
Qed.

Lemma keeps_kinds_mkdir s (loc : list string) :
  node_at s loc = None -> keeps_kinds s (<[loc := Dir]> s).
Proof.
  intros Hnone loc' n H. exists n. split; [|apply same_kind_refl].
  rewrite node_at_insert_ne; [exact H|]. intros ->. congruence.
Qed.

Lemma keeps_kinds_write s (loc : list string) (content : string) :
  node_at s loc <> Some Dir -> keeps_kinds s (<[loc := File content]> s).
Proof.
  intros Hnot loc' n H.
  destruct (decide (loc = loc')) as [<-|Hne].
  - exists (File content). split.
    + apply node_at_insert_eq. intros ->. now apply Hnot.
    + destruct n; [reflexivity|congruence].
  - exists n. split; [|apply same_kind_refl].
    now rewrite node_at_insert_ne.
Qed.

(** X25: a run never removes anything and never changes what a path
    is: whatever the content method, the flags and the store, whether
    the run completes or is ended by an exception, every location that
    held a file holds a file afterwards and every location that held a
    directory holds a directory. *)
Theorem run_never_removes_or_retypes
    (generate_content : Path -> string -> string) (pf : platform) (a : args)
    (s : gmap (list string) node) (loc : list string) (n : node) :
  node_at s loc = Some n ->
  exists n' : node,
    node_at (store (snd (main_with generate_content pf a s))) loc = Some n'
    /\ same_kind n n' = true.
Proof.
  apply (main_related keeps_kinds keeps_kinds_refl keeps_kinds_trans
           keeps_kinds_mkdir keeps_kinds_write generate_content pf a s).
Qed.

(** X26: structure documents written as ordinary text, a heading first
    and one path per line with newline characters between them, make
    the second generator do nothing: when every requested document
    begins with [#] and does not hold a backslash followed by [n], the
    run creates and skips nothing, leaves the store as it is, and ends
    with status 0. *)
Theorem headed_documents_generate_nothing
    (generate_content : Path -> string -> string) (pf : platform) (a : args)
    (s : gmap (list string) node) :
  (forall project : string,
      In project (Spec.requested_projects a) ->
      headed_document pf a s project) ->
  main_with generate_content pf a s = (0, mkState s [] []).
Proof.
  intros Hdocs.
  assert (Hone : forall project : string,
             headed_document pf a s project ->
             _generate_from_structure generate_content pf (mkState s [] [])
               (structure_file_of (of_string (arg_project_root a)) project)
               (base_path_of (of_string (arg_project_root a)) project)
             = Return (mkState s [] [])).
  { intros project (content & Hread & Hhash & Hsep).
    unfold _generate_from_structure, parse_structure_file. cbn [store].
    assert (Hex : path_exists pf s
                    (structure_file_of (of_string (arg_project_root a)) project)
                  = true).
    { unfold read_text in Hread. unfold path_exists.
      destruct (stat pf s
                  (structure_file_of (of_string (arg_project_root a)) project));
        [reflexivity|discriminate]. }
    rewrite Hex, Hread. cbn [negb].
    now rewrite (parse_content_headed _ Hsep Hhash). }
  unfold Spec.requested_projects, Spec.projects_of in Hdocs.
  unfold main_with, generate_project, _generate_frontend, _generate_backend.
  unfold project_type_of in *.
  destruct (arg_all a); [|destruct (arg_frontend a); [|destruct (arg_backend a)]];
    repeat match goal with
           | |- context [String.eqb ?x ?y] =>
               let b := eval vm_compute in (String.eqb x y) in
               change (String.eqb x y) with b
           | H : context [String.eqb ?x ?y] |- _ =>
               let b := eval vm_compute in (String.eqb x y) in
               change (String.eqb x y) with b in H
           end; cbv iota in *;
    rewrite ?(Hone "frontend") by (apply Hdocs; cbn; tauto);
    rewrite ?(Hone "backend") by (apply Hdocs; cbn; tauto);
    reflexivity.
Qed.

End Kinds.

(* ===================================================================== *)
(** * The further properties at concrete inputs                           *)
(* ===================================================================== *)

Section FurtherWitnesses.
Import PyStr PathLib FS GeneratorV2 Names.

Ltac absent :=
  let H := fresh "H" in
  intros H; vm_compute in H;
  repeat (destruct H as [H|H]; [discriminate H|]); exact H.

Ltac all_plain := repeat (apply List.Forall_cons; [reflexivity|]); apply List.Forall_nil.

(** [src/tests/components/auth/Login.test.tsx] imports
    [../../../components/auth/Login], which is [src/components/auth/Login]. *)
Lemma component_import_at_login_test :
  let reference :=
    BaseTemplates.calculate_component_import
      (of_string "src/tests/components/auth/Login.test.tsx") "Login" in
  reference
    = repeat "../" (length ["components"; "auth"] + 1)
      +:+ join "/" ["components"; "auth"] +:+ "/" +:+ "Login"
  /\ anchor (of_string reference) = ""
  /\ follow (["src"] ++ "tests" :: ["components"; "auth"])
       (names (of_string reference))
     = ["src"] ++ ["components"; "auth"] ++ ["Login"].
Proof.
  apply (component_import_reaches_mirror
           (of_string "src/tests/components/auth/Login.test.tsx")
           ["src"] ["components"; "auth"] "Login.test.tsx" "Login").
  - vm_compute. reflexivity.
  - absent.
  - all_plain.
  - reflexivity.
Defined.

(** The first generator, for
    [frontend/app/src/tests/unit/components/auth/Login.test.tsx]. *)
Lemma legacy_import_at_login_test :
  let kept :=
    if String.eqb "unit" "unit" then ["components"; "auth"]
    else "unit" :: ["components"; "auth"] in
  let reference :=
    Legacy._calculate_test_import_path Examples.login_test "Login" in
  reference
    = repeat "../" (length ["components"; "auth"] + 2)
      +:+ join "/" kept +:+ "/" +:+ "Login"
  /\ anchor (of_string reference) = ""
  /\ follow (["frontend"; "app"; "src"] ++ "tests" :: "unit" :: ["components"; "auth"])
       (names (of_string reference))
     = ["frontend"; "app"; "src"] ++ kept ++ ["Login"].
Proof.
  apply (legacy_import_reaches_mirror Examples.login_test
           ["frontend"; "app"; "src"] ["components"; "auth"] "unit"
           "Login.test.tsx" "Login").
  - vm_compute. reflexivity.
  - absent.
  - intros _. discriminate.
  - all_plain.
  - reflexivity.
Defined.

(** [src/tests/App.test.tsx]: [./App] in the first generator,
    [..//App] in the second. *)
Lemma legacy_import_at_app_test :
  names (of_string (Legacy._calculate_test_import_path
                      (of_string "src/tests/App.test.tsx") "App"))
    = ["App"]
  /\ names (of_string (BaseTemplates.calculate_component_import
                         (of_string "src/tests/App.test.tsx") "App"))
    = [".."; "App"].
Proof.
  apply (legacy_import_directly_below_tests
           (of_string "src/tests/App.test.tsx") ["src"] "App.test.tsx" "App").
  - vm_compute. reflexivity.
  - absent.
  - reflexivity.
Defined.

(** [tests/services/UserService.test.ts] imports
    [../../src/services/UserService]. *)
Lemma backend_import_at_user_service_test :
  let reference :=
    Templates._calculate_backend_import_path
      (of_string "tests/services/UserService.test.ts") "UserService" in
  reference
    = repeat "../" (length ["services"] + 1) +:+ "src/" +:+ join "/" ["services"]
      +:+ "/" +:+ "UserService"
  /\ anchor (of_string reference) = ""
  /\ follow ([] ++ "tests" :: ["services"]) (names (of_string reference))
     = [] ++ "src" :: ["services"] ++ ["UserService"].
Proof.
  apply (backend_import_reaches_src
           (of_string "tests/services/UserService.test.ts")
           [] ["services"] "UserService.test.ts" "UserService").
  - vm_compute. reflexivity.
  - absent.
  - all_plain.
  - reflexivity.
Defined.

(** Without [unit] the two generators write the same reference for
    [src/tests/components/auth/Login.test.tsx]. *)
Lemma generators_agree_at_login_test :
  Legacy._calculate_test_import_path
    (of_string "src/tests/components/auth/Login.test.tsx") "Login"
  = BaseTemplates.calculate_component_import
      (of_string "src/tests/components/auth/Login.test.tsx") "Login".
Proof.
  apply (generators_agree_without_unit
           (of_string "src/tests/components/auth/Login.test.tsx")
           ["src"] ["auth"] "components" "Login.test.tsx" "Login").
  - vm_compute. reflexivity.
  - absent.
  - discriminate.
Defined.

(** [src/components/Login.tsx] has no [tests] part. *)
Lemma import_at_a_component :
  BaseTemplates.calculate_component_import
    (of_string "src/components/Login.tsx") "Login" = "./" +:+ "Login"
  /\ Legacy._calculate_test_import_path
       (of_string "src/components/Login.tsx") "Login" = "./" +:+ "Login"
  /\ Templates._calculate_backend_import_path
       (of_string "src/components/Login.tsx") "Login" = "./" +:+ "Login".
Proof.
  apply (import_without_tests_part (of_string "src/components/Login.tsx") "Login").
  absent.
Defined.

(** A list of paths without the marker. *)
Lemma simple_format_at_a_list_without_marker :
  Legacy._parse_simple_format ("- src/app.ts" +:+ nl +:+ "- src/b.ts") = [].
Proof.
  apply (simple_format_needs_the_marker ("- src/app.ts" +:+ nl +:+ "- src/b.ts")).
  vm_compute. reflexivity.
Defined.

(** The entry [src/controllers/UserController.ts] is typed by
    [UserController.ts]. *)
Lemma simple_format_at_a_controller :
  "controller"
    = Legacy._determine_file_type
        (Spec.filename_of "src/controllers/UserController.ts")
  /\ contains "." (Spec.filename_of "src/controllers/UserController.ts") = true.
Proof.
  apply (simple_format_types_come_from_file_names
           ("## FILE_LIST" +:+ nl +:+ "- src/controllers/UserController.ts")
           "src/controllers/UserController.ts" "controller").
  vm_compute. left. reflexivity.
Defined.

(** A heading and a path on two lines. *)
Lemma document_at_two_lines :
  let content := "# Files" +:+ nl +:+ "src/a.ts" in
  FileParser.parse_content content
  = (if Spec.survives (strip content)
     then [(strip content, FileParser._determine_file_type (strip content))]
     else [])
  /\ (startswith "#" (strip content) = true ->
      FileParser.parse_content content = []).
Proof.
  apply (document_without_literal_separator ("# Files" +:+ nl +:+ "src/a.ts")).
  vm_compute. reflexivity.
Defined.




(** [SRC/Components/Login.TSX] and [src/components/login.tsx]. *)
Lemma classification_at_upper_case :
  FileParser._determine_file_type "SRC/Components/Login.TSX"
  = FileParser._determine_file_type "src/components/login.tsx".
Proof.
  apply (classification_ignores_case "SRC/Components/Login.TSX"
           "src/components/login.tsx").
  vm_compute. reflexivity.
Defined.

(** [notes.txt] has the key [generic] and gets the fallback. *)
Lemma fallback_at_notes_txt :
  TemplateFactory.generate_content (of_string "notes.txt") "generic"
  = TemplateFactory._generate_generic_template (of_string "notes.txt") "generic".
Proof.
  apply (proj2 (no_template_only_for_the_generic_key (of_string "notes.txt")
                  "generic")).
  vm_compute. reflexivity.
Defined.

(** The stem [UserController]. *)
Lemma class_name_at_user_controller :
  BaseTemplates.get_class_name_from_filename "UserController"
  = capitalize "UserController".
Proof.
  apply (class_name_of_one_word "UserController"); reflexivity.
Defined.

(** The entry [src/App.tsx] below the root [/work]. *)
Lemma destination_project_below_work :
  PathUtils.get_project_type
    (join_str (base_path_of (of_string "/work") "frontend") "src/App.tsx")
  = "frontend"
  /\ (contains "/frontend/"
        (lower (to_string
           (join_str (base_path_of (of_string "/work") "backend")
              "src/App.tsx"))) = false ->
      PathUtils.get_project_type
        (join_str (base_path_of (of_string "/work") "backend") "src/App.tsx")
      = "backend").
Proof.
  apply (destination_project_under_a_root "/work" "src/App.tsx").
  - reflexivity.
  - left. discriminate.
Defined.

(** From [src/tests/components/auth/Login.test.tsx] to
    [src/components/auth/Login.tsx]. *)
Lemma relative_import_at_login_test :
  let reference :=
    PathNames.calculate_relative_import
      (of_string "src/tests/components/auth/Login.test.tsx")
      (of_string "src/components/auth/Login.tsx") in
  of_string reference
    = mkPath "" (List.repeat ".." (length ["tests"; "components"; "auth"])
                 ++ ["components"; "auth"]
                 ++ [stem (of_string "src/components/auth/Login.tsx")])
  /\ follow ([] ++ "src" :: ["tests"; "components"; "auth"])
       (names (of_string reference))
     = [] ++ "src" :: ["components"; "auth"]
       ++ [stem (of_string "src/components/auth/Login.tsx")].
Proof.
  apply (relative_import_reaches_target
           (of_string "src/tests/components/auth/Login.test.tsx")
           (of_string "src/components/auth/Login.tsx")
           [] [] ["tests"; "components"; "auth"] ["components"; "auth"]).
  - vm_compute. reflexivity.
  - vm_compute. reflexivity.
  - absent.
  - absent.
  - discriminate.
  - all_plain.
  - reflexivity.
Defined.

(** From [src/main.tsx] to [src/App.tsx]. *)
Lemma relative_import_at_main :
  PathNames.calculate_relative_import (of_string "src/main.tsx")
    (of_string "src/App.tsx")
  = "/" +:+ stem (of_string "src/App.tsx").
Proof.
  apply (relative_import_from_src_directory (of_string "src/main.tsx")
           (of_string "src/App.tsx") [] [] []).
  - vm_compute. reflexivity.
  - vm_compute. reflexivity.
  - absent.
  - absent.
  - all_plain.
  - reflexivity.
Defined.

(** The alias of [src/user_service.test.ts]. *)
Lemma import_alias_at_user_service :
  contains "." (PathNames.get_import_alias (of_string "src/user_service.test.ts"))
    = false
  /\ contains "_" (PathNames.get_import_alias (of_string "src/user_service.test.ts"))
    = false.
Proof.
  apply (proj2 (normalized_name_has_no_dot_or_underscore ""
                  (of_string "src/user_service.test.ts"))).
  vm_compute. discriminate.
Defined.

(** The tree entry [UserController.ts]. *)
Lemma guessed_path_at_user_controller :
  let guessed :=
    of_string (LegacyPaths._guess_file_path [] "" "UserController.ts") in
  anchor guessed = ""
  /\ name guessed = "UserController.ts"
  /\ In (parent guessed)
       [mkPath "" []; mkPath "" ["src"]; mkPath "" ["src"; "controllers"];
        mkPath "" ["src"; "services"]; mkPath "" ["src"; "models"];
        mkPath "" ["tests"]]
  /\ (endswith ".ts" "UserController.ts" || endswith ".tsx" "UserController.ts"
      = false ->
      names guessed = ["UserController.ts"]).
Proof.
  apply (guessed_path_keeps_the_file_name [] "" "UserController.ts").
  reflexivity.
Defined.

(** The hand-written [backend/app/index.ts] is still a file after a
    run for both projects. *)
Lemma run_keeps_hand_written_index :
  exists n' : node,
    node_at
      (store (snd (main_with TemplateFactory.generate_content Examples.linux
                     Examples.run_all
                     (Examples.root_with_index "src/App.tsx" "index.ts"))))
      ["work"; "backend"; "app"; "index.ts"] = Some n'
    /\ same_kind (File Examples.hand_written) n' = true.
Proof.
  apply (run_never_removes_or_retypes TemplateFactory.generate_content
           Examples.linux Examples.run_all
           (Examples.root_with_index "src/App.tsx" "index.ts")
           ["work"; "backend"; "app"; "index.ts"] (File Examples.hand_written)).
  vm_compute. reflexivity.
Defined.

(** Two documents with a heading and one path on the next line. *)
Lemma headed_documents_at_two_projects :
  main_with TemplateFactory.generate_content Examples.linux Examples.run_all
    (Examples.fresh_root ("# Frontend" +:+ nl +:+ "src/App.tsx")
       ("# Backend" +:+ nl +:+ "src/index.ts"))
  = (0, mkState
          (Examples.fresh_root ("# Frontend" +:+ nl +:+ "src/App.tsx")
             ("# Backend" +:+ nl +:+ "src/index.ts")) [] []).
Proof.
  apply (headed_documents_generate_nothing TemplateFactory.generate_content
           Examples.linux Examples.run_all).
  intros project Hin. vm_compute in Hin.
  destruct Hin as [<-|[<-|[]]].
  - exists ("# Frontend" +:+ nl +:+ "src/App.tsx").
    repeat split; vm_compute; reflexivity.
  - exists ("# Backend" +:+ nl +:+ "src/index.ts").
    repeat split; vm_compute; reflexivity.
Defined.

(** The character 0 in a directory name: [mkdir] raises [ValueError]
    outside the [try] of [_create_file], and the run ends with status
    1, nothing created. *)
Lemma null_in_directory_name_ends_the_run :
  main Examples.linux Examples.run_backend
    (Examples.fresh_root "" ("src/a" +:+ chr 0 +:+ "b/c.ts"))
  = (1, mkState (Examples.fresh_root "" ("src/a" +:+ chr 0 +:+ "b/c.ts")) [] []).
Proof. vm_compute. reflexivity. Qed.

(** The character 0 in a file name: [open] raises [ValueError] inside
    the [try], the entry is neither created nor skipped, and the run
    goes on. *)
Lemma null_in_file_name_is_caught :
  let document :=
    "src/a" +:+ chr 0 +:+ ".ts" +:+ backslash +:+ "nsrc/b.ts" in
  let r := main Examples.linux Examples.run_backend
             (Examples.fresh_root "" document) in
  fst r = 0
  /\ created_files (snd r) = ["backend/app/src/b.ts"]
  /\ skipped_files (snd r) = []
  /\ path_exists Examples.linux (store (snd r))
       (of_string ("backend/app/src/a" +:+ chr 0 +:+ ".ts")) = false.
Proof. cbv zeta. repeat split; vm_compute; reflexivity. Qed.

End FurtherWitnesses.
